(** * map2vmf: the parser and the serializer of [MapToVmfConverter]

    A shallow embedding of [src/map2vmf.py]: [parse_map_file] (the line-driven
    parser, with its two regular expressions) and [generate_vmf] (the
    serializer), followed by the properties of the specification.

    Modelling conventions.
    - A Python [str] is a Rocq [string]; characters are the code points below
      256.  On these, [str.isspace] / the regex class [\s] hold of
      U+0009..U+000D, U+001C..U+0020, U+0085 and U+00A0, and the regex class
      [\d] of the ten digits ['0'..'9'].
    - Python exceptions are values of [exn]; code that may raise lives in the
      error monad [res].
    - [int(s)] is Python's integer conversion restricted to what the parser
      feeds it: a non-empty string of decimal digits gives its value,
      anything else is treated as [ValueError] (Python accepts a few more
      forms, so the model raises at least as often as the program).  The
      interpreter limits the number of digits of such a string, to 4300
      unless configured otherwise, and raises [ValueError] beyond.  [Py.int]
      and the parser built on it, [parse_map_file], are the code with this
      limit disabled; [Limited.int] and [Limited.parse_map_file] further
      down are the same code under a limit.  The two agree on every input
      whose face lines keep their integers within the limit, and wherever
      the parser under the limit returns.
    - A Python [dict] is an association list in insertion order: assigning to
      a key that is present replaces the value in place, assigning to a new
      key appends. *)

From Stdlib Require Import String Ascii List Bool Arith ZArith Lia.
From Stdlib Require Import DecimalString.
Import ListNotations.
Local Open Scope list_scope.
Local Open Scope string_scope.

(** [++] is string concatenation below; [+++] is list concatenation. *)
Local Infix "+++" := (@List.app _) (at level 60, right associativity).

(** ** Characters and strings *)

Module Py.

Definition dq : ascii := "034"%char.
Definition LF : ascii := "010"%char.
Definition TAB : ascii := "009"%char.

Definition str1 (c : ascii) : string := String c EmptyString.

(** [str.isspace] on one character, which is also the regex class [\s]. *)
Definition isspace (c : ascii) : bool :=
  let n := nat_of_ascii c in
  (((9 <=? n) && (n <=? 13)) || ((28 <=? n) && (n <=? 32))
   || (n =? 133) || (n =? 160))%nat.

(** The regex class [\d]. *)
Definition isdigit (c : ascii) : bool :=
  let n := nat_of_ascii c in ((48 <=? n) && (n <=? 57))%nat.

Fixpoint lstrip (s : string) : string :=
  match s with
  | EmptyString => EmptyString
  | String c s' => if isspace c then lstrip s' else s
  end.

Fixpoint rstrip (s : string) : string :=
  match s with
  | EmptyString => EmptyString
  | String c s' =>
      match rstrip s' with
      | EmptyString => if isspace c then EmptyString else str1 c
      | r => String c r
      end
  end.

(** [s.strip()] *)
Definition strip (s : string) : string := rstrip (lstrip s).

(** [s.split('\n')]: never empty, the empty string gives one empty line. *)
Fixpoint split_lines (s : string) : list string :=
  match s with
  | EmptyString => [EmptyString]
  | String c s' =>
      if Ascii.eqb c LF then EmptyString :: split_lines s'
      else match split_lines s' with
           | l :: ls => String c l :: ls
           | [] => [str1 c]
           end
  end.

(** [s.startswith(p)] *)
Definition startswith (s p : string) : bool := String.prefix p s.

(** ['\n'.join(ls)] *)
Definition join_lines (ls : list string) : string := String.concat (str1 LF) ls.

(** [str(n)] for a non-negative integer. *)
Definition str_of_nat (n : nat) : string := NilEmpty.string_of_uint (Nat.to_uint n).

(** Exceptions the parser's operations can raise. *)
Inductive exn : Type := ValueError | TypeError.

Definition res (A : Type) : Type := (exn + A)%type.
Definition ret {A} (a : A) : res A := inr a.
Definition raise {A} (e : exn) : res A := inl e.
Definition bind {A B} (m : res A) (k : A -> res B) : res B :=
  match m with inl e => inl e | inr a => k a end.

Fixpoint digits_value (s : string) (acc : Z) : Z :=
  match s with
  | EmptyString => acc
  | String c s' => digits_value s' (10 * acc + Z.of_nat (nat_of_ascii c - 48))
  end.

Fixpoint all_chars (p : ascii -> bool) (s : string) : bool :=
  match s with
  | EmptyString => true
  | String c s' => p c && all_chars p s'
  end.

(** [int(s)], with the interpreter's limit on the number of digits
    disabled. *)
Definition int (s : string) : res Z :=
  match s with
  | EmptyString => raise ValueError
  | _ => if all_chars isdigit s then ret (digits_value s 0) else raise ValueError
  end.

End Py.

Notation "x <- m ;; k" := (Py.bind m (fun x => k))
  (at level 61, m at next level, right associativity).

(** ** Regular expressions

    Both patterns of the parser are sequences of literal characters and of
    greedy repetitions of a character class, some of them capturing.  [re]
    is that fragment; [re_match] is [re.match]: anchored at the start, free at
    the end, greedy with backtracking, returning the groups in order. *)

Module Re.

Inductive item : Type :=
  | Lit (c : ascii)                                   (* a literal character *)
  | Rep (cls : ascii -> bool) (least : nat) (capture : bool).
      (* [cls*] when [least = 0], [cls+] when [least = 1];
         in parentheses when [capture] *)

Definition re : Type := list item.

(** Greedy repetition: take one more character when the class allows, and
    only when the rest of the pattern fails after that, stop here (when at
    least [least] characters were taken). *)
Fixpoint rep (R : Type) (cls : ascii -> bool) (least : nat)
    (k : string -> string -> option R) (taken : string) (s : string) : option R :=
  let stop := match least with O => k taken s | S _ => None end in
  match s with
  | EmptyString => stop
  | String c s' =>
      if cls c then
        match rep R cls (pred least) k (taken ++ Py.str1 c) s' with
        | Some r => Some r
        | None => stop
        end
      else stop
  end.

Fixpoint match_from (r : re) (s : string) (groups : list string)
    : option (list string) :=
  match r with
  | [] => Some groups
  | Lit c :: r' =>
      match s with
      | String c' s' => if Ascii.eqb c c' then match_from r' s' groups else None
      | EmptyString => None
      end
  | Rep cls least capture :: r' =>
      rep (list string) cls least
        (fun taken rest =>
           match_from r' rest (if capture then (groups +++ [taken]) else groups))
        EmptyString s
  end.

(** [re.match(r, s)], as [m.groups()] when it matches. *)
Definition re_match (r : re) (s : string) : option (list string) :=
  match_from r s [].

Definition ws : ascii -> bool := Py.isspace.                     (* \s *)
Definition nonws (c : ascii) : bool := negb (Py.isspace c).      (* \S *)
Definition digit : ascii -> bool := Py.isdigit.                  (* \d *)
Definition not_char (x : ascii) (c : ascii) : bool := negb (Ascii.eqb c x). (* [^x] *)

End Re.

(** ** Data model *)

(** A face dictionary: the nine keys written by [parse_map_file]. *)
Record face : Type := mkFace {
  p1 : string;
  p2 : string;
  p3 : string;
  material : string;
  uaxis : string;
  vaxis : string;
  rotation : Z;
  scale_x : Z;
  scale_y : Z
}.

(** A brush dictionary [{'faces': [...]}]. *)
Record brush : Type := mkBrush { faces : list face }.

(** A [dict] from strings to strings, in insertion order. *)
Definition dict : Type := list (string * string).

(** [d[k] = v] *)
Fixpoint dict_set (d : dict) (k v : string) : dict :=
  match d with
  | [] => [(k, v)]
  | (k', v') :: d' =>
      if String.eqb k' k then (k', v) :: d' else (k', v') :: dict_set d' k v
  end.

(** [d.get(k)] *)
Fixpoint dict_get (d : dict) (k : string) : option string :=
  match d with
  | [] => None
  | (k', v') :: d' => if String.eqb k' k then Some v' else dict_get d' k
  end.

(** The fields of a [MapToVmfConverter] instance. *)
Record converter : Type := mkConverter {
  worldspawn_properties : dict;
  brushes : list brush;
  default_texture : string
}.

(** [MapToVmfConverter.__init__] *)
Definition init (default_texture : string) : converter :=
  mkConverter [] [] default_texture.

Definition builtin_default_texture : string := "dev/dev_measuregeneric01b".

(** The local variables of [parse_map_file] that live across loop
    iterations. *)
Record locals : Type := mkLocals {
  in_worldspawn : bool;
  in_brush : bool;
  current_brush : option brush;
  brace_depth : Z;
  pending_brush : bool;
  brush_count : nat;
  face_count : nat;
  material_replacements : nat
}.

Definition locals0 : locals := mkLocals false false None 0 false 0 0 0.

(** The dictionary returned by [parse_map_file]. *)
Record statistics : Type := mkStatistics {
  brushes_found : nat;
  brushes_processed : nat;
  faces_processed : nat;
  material_replacements_made : nat
}.

(** ** The parser *)

Definition sentinel : string := "__TB_empty".

(** The pattern of the property lines, item by item, with Q for the
    double-quote character:
      Q  ( [^Q]+ )  Q  \s+  Q  ( [^Q]* )  Q                              *)
Definition property_re : Re.re :=
  [ Re.Lit Py.dq; Re.Rep (Re.not_char Py.dq) 1 true; Re.Lit Py.dq;
    Re.Rep Re.ws 1 false;
    Re.Lit Py.dq; Re.Rep (Re.not_char Py.dq) 0 true; Re.Lit Py.dq ].

(** The pattern of the face lines, item by item:
      \(  \s*  ( [^)]+ )  \s*  \)      three times, [\s*] in between,
      \s+  ( \S+ )
      \s+  \[  ( [^\]]+ )  \]          twice,
      \s+  ( \d+ )                     three times.                      *)
Definition face_re : Re.re :=
  [ Re.Lit "("; Re.Rep Re.ws 0 false; Re.Rep (Re.not_char ")") 1 true;
      Re.Rep Re.ws 0 false; Re.Lit ")";
    Re.Rep Re.ws 0 false;
    Re.Lit "("; Re.Rep Re.ws 0 false; Re.Rep (Re.not_char ")") 1 true;
      Re.Rep Re.ws 0 false; Re.Lit ")";
    Re.Rep Re.ws 0 false;
    Re.Lit "("; Re.Rep Re.ws 0 false; Re.Rep (Re.not_char ")") 1 true;
      Re.Rep Re.ws 0 false; Re.Lit ")";
    Re.Rep Re.ws 1 false; Re.Rep Re.nonws 1 true;
    Re.Rep Re.ws 1 false;
    Re.Lit "["; Re.Rep (Re.not_char "]") 1 true; Re.Lit "]";
    Re.Rep Re.ws 1 false;
    Re.Lit "["; Re.Rep (Re.not_char "]") 1 true; Re.Lit "]";
    Re.Rep Re.ws 1 false; Re.Rep Re.digit 1 true;
    Re.Rep Re.ws 1 false; Re.Rep Re.digit 1 true;
    Re.Rep Re.ws 1 false; Re.Rep Re.digit 1 true ]%char.

(** The material stored for a face: the sentinel is replaced. *)
Definition stored_material (default_texture raw : string) : string :=
  if String.eqb raw sentinel then default_texture else raw.

(** The face dictionary built from the nine groups of a face line. *)
Definition make_face (default_texture : string) (groups : list string) : Py.res face :=
  match groups with
  | [g1; g2; g3; g4; g5; g6; g7; g8; g9] =>
      r <- Py.int g7 ;;
      sx <- Py.int g8 ;;
      sy <- Py.int g9 ;;
      Py.ret (mkFace (Py.strip g1) (Py.strip g2) (Py.strip g3)
                     (stored_material default_texture g4)
                     (Py.strip g5) (Py.strip g6) r sx sy)
  | _ => Py.raise Py.ValueError
  end.

(** One iteration of the [for line in lines] loop, on the raw line. *)
Definition loop_body (self : converter) (v : locals) (raw : string)
    : Py.res (converter * locals) :=
  let '(mkLocals iw ib cb bd pb bc fc mr) := v in
  let line := Py.strip raw in
  if Py.startswith line "// brush" then
    Py.ret (self, mkLocals iw ib cb bd true (bc + 1) fc mr)
  else if (line =? "{") && negb ib && negb iw && negb pb then
    Py.ret (self, mkLocals true ib cb bd pb bc fc mr)
  else if iw && (line =? "}") && negb ib && negb pb then
    Py.ret (self, mkLocals false ib cb bd pb bc fc mr)
  else if iw && Py.startswith line (Py.str1 Py.dq) then
    match Re.re_match property_re line with
    | Some [key; value] =>
        Py.ret (mkConverter (dict_set (worldspawn_properties self) key value)
                            (brushes self) (default_texture self), v)
    | Some _ => Py.raise Py.ValueError
    | None => Py.ret (self, v)
    end
  else if pb && (line =? "{") then
    Py.ret (self, mkLocals iw true (Some (mkBrush [])) 1 false bc fc mr)
  else if pb then
    Py.ret (self, v)
  else if ib then
    if line =? "{" then
      Py.ret (self, mkLocals iw ib cb (bd + 1) pb bc fc mr)
    else if line =? "}" then
      let bd' := (bd - 1)%Z in
      if (bd' =? 0)%Z then
        match cb with
        | Some b =>
            Py.ret (mkConverter (worldspawn_properties self)
                                (brushes self +++ [b]) (default_texture self),
                    mkLocals iw false None bd' pb bc fc mr)
        | None => Py.ret (self, mkLocals iw false cb bd' pb bc fc mr)
        end
      else Py.ret (self, mkLocals iw ib cb bd' pb bc fc mr)
    else if Py.startswith line "(" then
      match Re.re_match face_re line with
      | Some groups =>
          let mr' := match groups with
                     | [_; _; _; g4; _; _; _; _; _] =>
                         if String.eqb g4 sentinel then mr + 1 else mr
                     | _ => mr
                     end in
          f <- make_face (default_texture self) groups ;;
          match cb with
          | Some b =>
              Py.ret (self, mkLocals iw ib (Some (mkBrush (faces b +++ [f])))
                                     bd pb bc (fc + 1) mr')
          | None => Py.raise Py.TypeError
          end
      | None => Py.ret (self, v)
      end
    else Py.ret (self, v)
  else Py.ret (self, v).

(** The whole loop. *)
Fixpoint run_lines (self : converter) (v : locals) (lines : list string)
    : Py.res (converter * locals) :=
  match lines with
  | [] => Py.ret (self, v)
  | raw :: rest =>
      sv <- loop_body self v raw ;;
      run_lines (fst sv) (snd sv) rest
  end.

Definition statistics_of (self : converter) (v : locals) : statistics :=
  mkStatistics (brush_count v) (length (brushes self)) (face_count v)
               (material_replacements v).

(** [MapToVmfConverter.parse_map_file]: the converter after the call and the
    returned statistics. *)
Definition parse_map_file (self : converter) (map_content : string)
    : Py.res (converter * statistics) :=
  sv <- run_lines self locals0 (Py.split_lines map_content) ;;
  Py.ret (fst sv, statistics_of (fst sv) (snd sv)).

(** ** The serializer *)

Definition T1 : string := Py.str1 Py.TAB.
Definition T2 : string := T1 ++ T1.
Definition T3 : string := T2 ++ T1.
Definition quoted (s : string) : string := Py.str1 Py.dq ++ s ++ Py.str1 Py.dq.

(** The eight lines appended for one face. *)
Definition side_lines (side_id : nat) (f : face) : list string :=
  [ T2 ++ "side";
    T2 ++ "{";
    T3 ++ quoted "id" ++ " " ++ quoted (Py.str_of_nat side_id);
    T3 ++ quoted "plane" ++ " "
       ++ quoted ("(" ++ p1 f ++ ") (" ++ p2 f ++ ") (" ++ p3 f ++ ")");
    T3 ++ quoted "material" ++ " " ++ quoted (material f);
    T3 ++ quoted "uaxis" ++ " " ++ quoted ("[" ++ uaxis f ++ "] 0.25");
    T3 ++ quoted "vaxis" ++ " " ++ quoted ("[" ++ vaxis f ++ "] 0.25");
    T3 ++ quoted "lightmapscale" ++ " " ++ quoted "16";
    T2 ++ "}" ].

(** [for face in brush['faces']], threading [vmf_lines] and [side_id]. *)
Fixpoint emit_faces (fs : list face) (vmf_lines : list string) (side_id : nat)
    : list string * nat :=
  match fs with
  | [] => (vmf_lines, side_id)
  | f :: fs' => emit_faces fs' (vmf_lines +++ side_lines side_id f) (side_id + 1)
  end.

(** [for brush in self.brushes], threading [vmf_lines], [solid_id] and
    [side_id]. *)
Fixpoint emit_brushes (bs : list brush) (vmf_lines : list string)
    (solid_id side_id : nat) : list string :=
  match bs with
  | [] => vmf_lines
  | b :: bs' =>
      let vmf_lines :=
        vmf_lines +++ [ T1 ++ "solid"; T1 ++ "{";
                        T2 ++ quoted "id" ++ " " ++ quoted (Py.str_of_nat solid_id) ] in
      let '(vmf_lines, side_id) := emit_faces (faces b) vmf_lines side_id in
      let vmf_lines := vmf_lines +++ [ T1 ++ "}" ] in
      emit_brushes bs' vmf_lines (solid_id + 1) side_id
  end.

Definition property_line (kv : string * string) : string :=
  T1 ++ quoted (fst kv) ++ " " ++ quoted (snd kv).

(** The list [vmf_lines] at the end of [generate_vmf]. *)
Definition vmf_lines_of (self : converter) : list string :=
  let vmf_lines := [ "world"; "{"; T1 ++ quoted "id" ++ " " ++ quoted "0" ] in
  let vmf_lines := vmf_lines +++ map property_line (worldspawn_properties self) in
  let vmf_lines := emit_brushes (brushes self) vmf_lines 1 2 in
  vmf_lines +++ [ "}" ].

(** [MapToVmfConverter.generate_vmf] *)
Definition generate_vmf (self : converter) : string :=
  Py.join_lines (vmf_lines_of self).

(** * Events, effects and runs *)

(** ** The groups of a match *)

(** The classes and minimal lengths of the capturing items of a pattern. *)
Fixpoint capturing (r : Re.re) : list ((ascii -> bool) * nat) :=
  match r with
  | [] => []
  | Re.Lit _ :: r' => capturing r'
  | Re.Rep cls least true :: r' => (cls, least) :: capturing r'
  | Re.Rep _ _ false :: r' => capturing r'
  end.

(** A group fits a capturing item: it is made of characters of the class
    and has the minimal length. *)
Definition captured (spec : (ascii -> bool) * nat) (g : string) : Prop :=
  Py.all_chars (fst spec) g = true /\ snd spec <= String.length g.

(** A non-empty string of decimal digits. *)
Definition digits (s : string) : Prop :=
  Py.all_chars Py.isdigit s = true /\ 1 <= String.length s.

(** ** The shape of a stripped line

    The loop body asks five questions of the line; at most one of them has
    the answer yes; [line_shape] lists the possible answers. *)

Inductive line_shape (line : string) : Prop :=
  | shape_marker :
      Py.startswith line "// brush" = true -> (line =? "{") = false ->
      (line =? "}") = false -> Py.startswith line (Py.str1 Py.dq) = false ->
      Py.startswith line "(" = false -> line_shape line
  | shape_open :
      Py.startswith line "// brush" = false -> (line =? "{") = true ->
      (line =? "}") = false -> Py.startswith line (Py.str1 Py.dq) = false ->
      Py.startswith line "(" = false -> line_shape line
  | shape_close :
      Py.startswith line "// brush" = false -> (line =? "{") = false ->
      (line =? "}") = true -> Py.startswith line (Py.str1 Py.dq) = false ->
      Py.startswith line "(" = false -> line_shape line
  | shape_quoted :
      Py.startswith line "// brush" = false -> (line =? "{") = false ->
      (line =? "}") = false -> Py.startswith line (Py.str1 Py.dq) = true ->
      Py.startswith line "(" = false -> line_shape line
  | shape_paren :
      Py.startswith line "// brush" = false -> (line =? "{") = false ->
      (line =? "}") = false -> Py.startswith line (Py.str1 Py.dq) = false ->
      Py.startswith line "(" = true -> line_shape line
  | shape_other :
      Py.startswith line "// brush" = false -> (line =? "{") = false ->
      (line =? "}") = false -> Py.startswith line (Py.str1 Py.dq) = false ->
      Py.startswith line "(" = false -> line_shape line.

(** ** What one line does

    The events of the parser, as conditions on the variables before the line
    and on the stripped line, and the value of every variable after the line
    in terms of them.  [loop_body_effect] proves that the loop body does
    exactly this. *)

Definition is_marker (line : string) : bool := Py.startswith line "// brush".

Definition opens_world (v : locals) (line : string) : bool :=
  (line =? "{") && negb (in_brush v) && negb (in_worldspawn v) && negb (pending_brush v).

Definition closes_world (v : locals) (line : string) : bool :=
  in_worldspawn v && (line =? "}") && negb (in_brush v) && negb (pending_brush v).

(** The key and value the line writes into [worldspawn_properties]. *)
Definition upsert_of (v : locals) (line : string) : option (string * string) :=
  if in_worldspawn v && Py.startswith line (Py.str1 Py.dq) then
    match Re.re_match property_re line with
    | Some [key; value] => Some (key, value)
    | _ => None
    end
  else None.

Definition opens_brush (v : locals) (line : string) : bool :=
  pending_brush v && (line =? "{").

(** The line is looked at as part of the open brush. *)
Definition inside_brush (v : locals) : bool :=
  in_brush v && negb (pending_brush v).

(** The line is a closing brace that takes the depth from 1 to 0. *)
Definition closes_brush (v : locals) (line : string) : bool :=
  inside_brush v && (line =? "}") && (brace_depth v =? 1)%Z.

(** The groups of a face line that is parsed into the open brush. *)
Definition face_groups (v : locals) (line : string) : option (list string) :=
  if inside_brush v && Py.startswith line "(" then Re.re_match face_re line
  else None.

Definition group (n : nat) (groups : list string) : string :=
  nth n groups EmptyString.

(** The material token of a face line, as matched. *)
Definition raw_material (groups : list string) : string := group 3 groups.

(** The face stored for the groups of a face line. *)
Definition face_of_groups (default_texture : string) (groups : list string) : face :=
  mkFace (Py.strip (group 0 groups)) (Py.strip (group 1 groups))
         (Py.strip (group 2 groups))
         (stored_material default_texture (raw_material groups))
         (Py.strip (group 4 groups)) (Py.strip (group 5 groups))
         (Py.digits_value (group 6 groups) 0) (Py.digits_value (group 7 groups) 0)
         (Py.digits_value (group 8 groups) 0).

Definition is_sentinel (groups : list string) : bool :=
  String.eqb (raw_material groups) sentinel.

Definition closed_now (v : locals) (line : string) : list brush :=
  if closes_brush v line
  then match current_brush v with Some b => [b] | None => [] end
  else [].

Definition next_converter (self : converter) (v : locals) (line : string) : converter :=
  mkConverter
    (match upsert_of v line with
     | Some (key, value) => dict_set (worldspawn_properties self) key value
     | None => worldspawn_properties self
     end)
    (brushes self +++ closed_now v line)
    (default_texture self).

Definition next_locals (default_texture : string) (v : locals) (line : string) : locals :=
  {| in_worldspawn :=
       if opens_world v line then true
       else if closes_world v line then false else in_worldspawn v;
     in_brush :=
       if opens_brush v line then true
       else if closes_brush v line then false else in_brush v;
     current_brush :=
       if opens_brush v line then Some (mkBrush [])
       else if closes_brush v line then None
       else match face_groups v line, current_brush v with
            | Some groups, Some b =>
                Some (mkBrush (faces b +++ [face_of_groups default_texture groups]))
            | _, _ => current_brush v
            end;
     brace_depth :=
       if opens_brush v line then 1%Z
       else if inside_brush v then
         if line =? "{" then (brace_depth v + 1)%Z
         else if line =? "}" then (brace_depth v - 1)%Z else brace_depth v
       else brace_depth v;
     pending_brush :=
       if is_marker line then true
       else if opens_brush v line then false else pending_brush v;
     brush_count := brush_count v + (if is_marker line then 1 else 0);
     face_count :=
       face_count v + (match face_groups v line with Some _ => 1 | None => 0 end);
     material_replacements :=
       material_replacements v
       + (match face_groups v line with
          | Some groups => if is_sentinel groups then 1 else 0
          | None => 0
          end) |}.

(** While a brush is open there is a current brush, and the depth is at
    least 1. *)
Definition brush_ok (v : locals) : Prop :=
  in_brush v = true -> current_brush v <> None /\ (1 <= brace_depth v)%Z.

(** ** What a run of the loop does *)

(** The local variables after the lines. *)
Fixpoint locals_after (dt : string) (v : locals) (lines : list string) : locals :=
  match lines with
  | [] => v
  | raw :: rest => locals_after dt (next_locals dt v (Py.strip raw)) rest
  end.

(** The writes to [worldspawn_properties] made by the lines, in order. *)
Fixpoint upserts (dt : string) (v : locals) (lines : list string) : list (string * string) :=
  match lines with
  | [] => []
  | raw :: rest =>
      match upsert_of v (Py.strip raw) with Some kv => [kv] | None => [] end
      +++ upserts dt (next_locals dt v (Py.strip raw)) rest
  end.

(** The brushes closed by the lines, in order. *)
Fixpoint closed (dt : string) (v : locals) (lines : list string) : list brush :=
  match lines with
  | [] => []
  | raw :: rest =>
      closed_now v (Py.strip raw) +++ closed dt (next_locals dt v (Py.strip raw)) rest
  end.

(** [d[k] = v] for each [(k, v)] of a list, in order. *)
Definition dict_update (d : dict) (writes : list (string * string)) : dict :=
  fold_left (fun d kv => dict_set d (fst kv) (snd kv)) writes d.

(** The converter after a run: the writes applied in order, the closed
    brushes appended in order. *)
Definition converter_after (self : converter) (v : locals) (lines : list string)
    : converter :=
  mkConverter
    (dict_update (worldspawn_properties self) (upserts (default_texture self) v lines))
    (brushes self +++ closed (default_texture self) v lines)
    (default_texture self).

(** ** Counting along a run *)

(** The number of lines that start with the brush marker. *)
Definition markers (lines : list string) : nat :=
  length (filter (fun raw => is_marker (Py.strip raw)) lines).

(** The number of lines that close a brush: closing braces that take the
    depth of an open brush from 1 to 0. *)
Fixpoint closings (dt : string) (v : locals) (lines : list string) : nat :=
  match lines with
  | [] => 0
  | raw :: rest =>
      (if closes_brush v (Py.strip raw) then 1 else 0)
      + closings dt (next_locals dt v (Py.strip raw)) rest
  end.

(** 1 when a brush is open or pending, 0 otherwise. *)
Definition waiting (v : locals) : nat :=
  if in_brush v || pending_brush v then 1 else 0.

(** The face lines parsed along a run, in order: the stripped line and its
    groups. *)
Fixpoint face_events (dt : string) (v : locals) (lines : list string)
    : list (string * list string) :=
  match lines with
  | [] => []
  | raw :: rest =>
      match face_groups v (Py.strip raw) with
      | Some groups => [(Py.strip raw, groups)]
      | None => []
      end
      +++ face_events dt (next_locals dt v (Py.strip raw)) rest
  end.

(** A line that is none of: a brush marker, a lone brace, a quoted line
    that matches the property pattern, a parenthesis line that matches the
    face pattern. *)
Definition unrecognized (line : string) : bool :=
  negb (is_marker line) && negb (line =? "{") && negb (line =? "}")
  && negb (Py.startswith line (Py.str1 Py.dq)
           && match Re.re_match property_re line with Some _ => true | None => false end)
  && negb (Py.startswith line "("
           && match Re.re_match face_re line with Some _ => true | None => false end).

(** The faces of the current brush. *)
Definition current_faces (v : locals) : list face :=
  match current_brush v with Some b => faces b | None => [] end.

(** The face was built from the groups of one of the parsed face lines. *)
Definition parsed_from (dt : string) (events : list (string * list string))
    (f : face) : Prop :=
  exists line groups, In (line, groups) events /\ f = face_of_groups dt groups.

(** The variables when an open brush is forgotten. *)
Definition abandon (v : locals) : locals :=
  mkLocals (in_worldspawn v) false None 0 (pending_brush v)
           (brush_count v) (face_count v) (material_replacements v).

(** ** Order of keys *)

Definition has_key (d : list string) (k : string) : bool :=
  existsb (String.eqb k) d.

(** Each key once, at the place of its first occurrence. *)
Fixpoint first_occurrences (keys : list string) : list string :=
  match keys with
  | [] => []
  | k :: rest => k :: filter (fun k' => negb (String.eqb k' k)) (first_occurrences rest)
  end.

(** Each key once, at the place of its last occurrence. *)
Fixpoint last_occurrences (keys : list string) : list string :=
  match keys with
  | [] => []
  | k :: rest =>
      if existsb (String.eqb k) rest then last_occurrences rest
      else k :: last_occurrences rest
  end.

(** The value of the last write to a key. *)
Fixpoint last_write (k : string) (writes : list (string * string)) : option string :=
  match writes with
  | [] => None
  | (k', x) :: rest =>
      match last_write k rest with
      | Some y => Some y
      | None => if String.eqb k' k then Some x else None
      end
  end.

(** ** The output, identifier by identifier *)

(** The elements of a list with consecutive numbers from [start]. *)
Definition numbered {A : Type} (start : nat) (l : list A) : list (nat * A) :=
  combine (seq start (length l)) l.

(** The number of faces in the first [i] brushes. *)
Definition faces_before (i : nat) (bs : list brush) : nat :=
  length (flat_map faces (firstn i bs)).

(** The lines of a solid with identifier [solid_id] whose first side has
    identifier [first_side]. *)
Definition solid_block (solid_id first_side : nat) (b : brush) : list string :=
  [ T1 ++ "solid"; T1 ++ "{"; T2 ++ quoted "id" ++ " " ++ quoted (Py.str_of_nat solid_id) ]
  +++ flat_map (fun nf => side_lines (fst nf) (snd nf)) (numbered first_side (faces b))
  +++ [ T1 ++ "}" ].

(** The lines of the solids of a document: brush [i] (from 0) has
    identifier [1 + i], and its face [j] has identifier
    [2 + faces_before i + j]. *)
Definition solid_blocks (bs : list brush) : list string :=
  flat_map (fun ib => solid_block (1 + fst ib) (2 + faces_before (fst ib) bs) (snd ib))
           (numbered 0 bs).

Definition world_header : list string :=
  [ "world"; "{"; T1 ++ quoted "id" ++ " " ++ quoted "0" ].

(** Two faces that differ at most in rotation and scales. *)
Definition same_geometry (f g : face) : Prop :=
  p1 f = p1 g /\ p2 f = p2 g /\ p3 f = p3 g /\ material f = material g /\
  uaxis f = uaxis g /\ vaxis f = vaxis g.

Definition same_geometry_brush (b c : brush) : Prop :=
  Forall2 same_geometry (faces b) (faces c).

(** * Further definitions: well-formed input, the worker, the window *)

(** ** Line endings *)

Definition CR : ascii := "013"%char.

(** The text with every line feed preceded by a carriage return. *)
Fixpoint to_crlf (s : string) : string :=
  match s with
  | EmptyString => EmptyString
  | String c s' =>
      if Ascii.eqb c Py.LF then String CR (String Py.LF (to_crlf s'))
      else String c (to_crlf s')
  end.

(** The same line, or the line followed by a carriage return. *)
Definition same_or_cr (a b : string) : Prop := a = b \/ a = b ++ Py.str1 CR.

(** No character of the string is [x]. *)
Definition no_char (x : ascii) (s : string) : bool := Py.all_chars (Re.not_char x) s.

(** The string has no line feed. *)
Definition plain (s : string) : bool := no_char Py.LF s.

(** The string has no white space at either end. *)
Definition trimmed (s : string) : bool := String.eqb (Py.strip s) s.

(** The string is not empty and does not end in white space. *)
Definition ends_well (s : string) : Prop := Py.rstrip s = s /\ s <> EmptyString.

(** The pattern has nothing more to take: the rest is empty or starts with
    a character outside the class. *)
Definition stops (cls : ascii -> bool) (rest : string) : bool :=
  match rest with
  | EmptyString => true
  | String c _ => negb (cls c)
  end.

(** ** Well-formed lines *)

(** A property line: quoted key, one blank, quoted value. *)
Definition property_text (kv : string * string) : string :=
  quoted (fst kv) ++ " " ++ quoted (snd kv).

(** The key is not empty; neither key nor value holds a double quote or a
    line feed. *)
Definition wf_property (kv : string * string) : bool :=
  negb (fst kv =? EmptyString) && no_char Py.dq (fst kv) && plain (fst kv)
  && no_char Py.dq (snd kv) && plain (snd kv).

(** The fields of a face as they stand in a face line. *)
Record face_text : Type := mkFaceText {
  t_p1 : string;
  t_p2 : string;
  t_p3 : string;
  t_material : string;
  t_uaxis : string;
  t_vaxis : string;
  t_rotation : string;
  t_scale_x : string;
  t_scale_y : string
}.

(** A face line in the usual layout: one blank between all tokens and
    inside the parentheses and brackets. *)
Definition face_line (f : face_text) : string :=
  "( " ++ t_p1 f ++ " ) ( " ++ t_p2 f ++ " ) ( " ++ t_p3 f ++ " ) "
  ++ t_material f
  ++ " [ " ++ t_uaxis f ++ " ] [ " ++ t_vaxis f ++ " ] "
  ++ t_rotation f ++ " " ++ t_scale_x f ++ " " ++ t_scale_y f.

Definition wf_point (p : string) : bool :=
  negb (p =? EmptyString) && trimmed p && no_char ")" p && plain p.

Definition wf_axis (u : string) : bool :=
  trimmed u && no_char "]" u && plain u.

Definition wf_token (m : string) : bool :=
  negb (m =? EmptyString) && Py.all_chars Re.nonws m.

Definition wf_digits (d : string) : bool :=
  negb (d =? EmptyString) && Py.all_chars Py.isdigit d.

Definition wf_face_text (f : face_text) : bool :=
  wf_point (t_p1 f) && wf_point (t_p2 f) && wf_point (t_p3 f)
  && wf_token (t_material f) && wf_axis (t_uaxis f) && wf_axis (t_vaxis f)
  && wf_digits (t_rotation f) && wf_digits (t_scale_x f) && wf_digits (t_scale_y f).

(** The groups the face pattern takes from a well-formed face line. *)
Definition groups_of_text (f : face_text) : list string :=
  [ t_p1 f ++ " "; t_p2 f ++ " "; t_p3 f ++ " "; t_material f;
    " " ++ t_uaxis f ++ " "; " " ++ t_vaxis f ++ " ";
    t_rotation f; t_scale_x f; t_scale_y f ].

(** The face the parser is to store for a well-formed face line. *)
Definition face_of_text (dt : string) (f : face_text) : face :=
  mkFace (t_p1 f) (t_p2 f) (t_p3 f) (stored_material dt (t_material f))
         (t_uaxis f) (t_vaxis f)
         (Py.digits_value (t_rotation f) 0) (Py.digits_value (t_scale_x f) 0)
         (Py.digits_value (t_scale_y f) 0).

(** ** Well-formed map text *)

(** An entity as it stands in a map file: its properties and, for each of
    its brushes, the faces. *)
Record entity_text : Type := mkEntityText {
  e_properties : list (string * string);
  e_brushes : list (list face_text)
}.

Definition brush_lines (fs : list face_text) : list string :=
  "// brush" :: "{" :: map face_line fs +++ [ "}" ].

Definition entity_lines (e : entity_text) : list string :=
  "{" :: map property_text (e_properties e)
  +++ flat_map brush_lines (e_brushes e) +++ [ "}" ].

Definition map_lines (es : list entity_text) : list string :=
  flat_map entity_lines es.

Definition wf_entity (e : entity_text) : bool :=
  forallb wf_property (e_properties e)
  && forallb (forallb wf_face_text) (e_brushes e).

Definition brush_of_text (dt : string) (fs : list face_text) : brush :=
  mkBrush (map (face_of_text dt) fs).

(** The number of faces whose material is the sentinel. *)
Definition sentinels (fs : list face_text) : nat :=
  length (filter (fun f => String.eqb (t_material f) sentinel) fs).

(** All faces of all brushes of a list of entities. *)
Definition all_brushes (es : list entity_text) : list (list face_text) :=
  flat_map e_brushes es.

Definition all_faces (es : list entity_text) : list face_text :=
  concat (all_brushes es).

(** The document and the statistics a well-formed map is to give. *)
Definition document_of_text (dt : string) (es : list entity_text) : converter :=
  mkConverter (dict_update [] (flat_map e_properties es))
              (map (brush_of_text dt) (all_brushes es)) dt.

Definition statistics_of_text (es : list entity_text) : statistics :=
  mkStatistics (length (all_brushes es)) (length (all_brushes es))
               (length (all_faces es)) (sentinels (all_faces es)).

(** ** Text of the output *)

Definition plain_face (f : face) : bool :=
  plain (p1 f) && plain (p2 f) && plain (p3 f) && plain (material f)
  && plain (uaxis f) && plain (vaxis f).

(** No string of the document holds a line feed. *)
Definition plain_converter (self : converter) : bool :=
  forallb (fun kv => plain (fst kv) && plain (snd kv)) (worldspawn_properties self)
  && forallb (fun b => forallb plain_face (faces b)) (brushes self).

(** What a line does to the nesting depth: an opening brace alone on the
    line, a closing brace alone on the line, or anything else. *)
Definition brace_of (l : string) : Z :=
  let s := Py.strip l in
  if s =? "{" then 1%Z else if s =? "}" then (-1)%Z else 0%Z.

(** The depth after the lines, when it never drops below zero. *)
Fixpoint nesting (d : Z) (ls : list string) : option Z :=
  match ls with
  | [] => Some d
  | l :: rest =>
      let d' := (d + brace_of l)%Z in
      if (d' <? 0)%Z then None else nesting d' rest
  end.

(** ** Lines outside a brush *)

(** With no brush open or pending, the line is none of those the loop body
    acts on: a marker, an opening brace outside the worldspawn block, a
    closing brace or a quoted line inside it. *)
Definition idle_line (v : locals) (line : string) : bool :=
  negb (is_marker line)
  && (if in_worldspawn v
      then negb (line =? "}") && negb (Py.startswith line (Py.str1 Py.dq))
      else negb (line =? "{")).

(** ** The conversion worker and the window *)

(** What the worker emits: [progress], [finished], [error]. *)
Inductive signal : Type :=
  | Progress (n : nat)
  | Finished (message : string)
  | Error (message : string).

Definition is_terminal (s : signal) : bool :=
  match s with Progress _ => false | _ => true end.

Definition progress_value (s : signal) : option nat :=
  match s with Progress n => Some n | _ => None end.

Section Worker.

(** The bullet of the report is outside the characters of the model. *)
Variable bullet : string.

(** [str(e)] for an exception raised by the converter. *)
Variable exn_text : Py.exn -> string.

(** The message of [ConversionWorker.run] on success. *)
Definition success_message (input_file output_file default_texture : string)
    (stats : statistics) (vmf_content : string) : string :=
  "Successfully converted " ++ input_file ++ " to " ++ output_file
    ++ Py.str1 Py.LF ++ Py.str1 Py.LF
  ++ "Conversion Statistics:" ++ Py.str1 Py.LF
  ++ bullet ++ " Brushes found: " ++ Py.str_of_nat (brushes_found stats) ++ Py.str1 Py.LF
  ++ bullet ++ " Brushes processed: " ++ Py.str_of_nat (brushes_processed stats)
    ++ Py.str1 Py.LF
  ++ bullet ++ " Faces processed: " ++ Py.str_of_nat (faces_processed stats)
    ++ Py.str1 Py.LF
  ++ bullet ++ " Material replacements: "
    ++ Py.str_of_nat (material_replacements_made stats) ++ Py.str1 Py.LF
  ++ bullet ++ " Default texture used: " ++ default_texture ++ Py.str1 Py.LF
  ++ bullet ++ " Output file size: " ++ Py.str_of_nat (String.length vmf_content)
  ++ " characters".

Definition failure (text : string) : signal :=
  Error ("Error during conversion: " ++ text).

(** [ConversionWorker.run].  Reading the input file gives its text or
    raises with a message; writing the output raises with a message or
    succeeds.  The result is the signals emitted, in order, and the text
    written when the write succeeded. *)
Definition worker_run (input_file output_file default_texture : string)
    (read : string + string) (write : string -> option string)
    : list signal * option string :=
  match read with
  | inl text => ([failure text], None)
  | inr map_content =>
      let converter := init default_texture in
      match parse_map_file converter map_content with
      | inl e => ([Progress 25; failure (exn_text e)], None)
      | inr (converter, stats) =>
          let vmf_content := generate_vmf converter in
          match write vmf_content with
          | Some text =>
              ([Progress 25; Progress 75; Progress 90; failure text], None)
          | None =>
              ([Progress 25; Progress 75; Progress 90; Progress 100;
                Finished (success_message input_file output_file default_texture
                                          stats vmf_content)],
               Some vmf_content)
          end
      end
  end.

End Worker.

(** A Python value used as a condition: [None] and the empty string are
    false. *)
Definition truthy (s : option string) : bool :=
  match s with
  | None => false
  | Some t => negb (t =? EmptyString)
  end.

(** The default texture [start_conversion] passes on for the text of the
    entry field. *)
Definition chosen_texture (entry : string) : string :=
  let default_texture := Py.strip entry in
  if default_texture =? EmptyString then builtin_default_texture else default_texture.

(** [MapToVmfConverterGUI.start_conversion], as far as the worker is
    concerned: the arguments of the worker it starts, or nothing when it
    shows the warning and returns. *)
Definition start_conversion (input_file output_file : option string) (entry : string)
    : option (string * string * string) :=
  if negb (truthy input_file) || negb (truthy output_file) then None
  else
    match input_file, output_file with
    | Some i, Some o => Some (i, o, chosen_texture entry)
    | _, _ => None
    end.

(** [MapToVmfConverterGUI.check_ready]: whether the convert button is
    enabled. *)
Definition check_ready (input_file output_file : option string) : bool :=
  truthy input_file && truthy output_file.

(** ** Parsing in two parts *)

(** The variables with the three counters raised. *)
Definition add_counts (v : locals) (bc fc mr : nat) : locals :=
  mkLocals (in_worldspawn v) (in_brush v) (current_brush v) (brace_depth v)
           (pending_brush v) (brush_count v + bc) (face_count v + fc)
           (material_replacements v + mr).

(** The parser is outside every block and waits for nothing. *)
Definition idle (v : locals) : bool :=
  negb (in_worldspawn v) && negb (in_brush v) && negb (pending_brush v).

(** With no brush open there is no current brush and the depth is 0. *)
Definition at_rest (v : locals) : Prop :=
  in_brush v = false -> current_brush v = None /\ brace_depth v = 0%Z.

(** ** Face lines with other numbers *)

(** A face line in the usual layout whose last three fields are any tokens
    without white space. *)
Definition wf_face_shape (f : face_text) : bool :=
  wf_point (t_p1 f) && wf_point (t_p2 f) && wf_point (t_p3 f)
  && wf_token (t_material f) && wf_axis (t_uaxis f) && wf_axis (t_vaxis f)
  && wf_token (t_rotation f) && wf_token (t_scale_x f) && wf_token (t_scale_y f).

(** The rotation or the first scale is not made of digits only (a sign, a
    decimal point), or the second scale does not start with a digit. *)
Definition bad_numbers (f : face_text) : bool :=
  negb (Py.all_chars Py.isdigit (t_rotation f))
  || negb (Py.all_chars Py.isdigit (t_scale_x f))
  || stops Re.digit (t_scale_y f).

(** * The interpreter's limit on integer strings

    [int(s)] raises [ValueError] when [s] has more digits than
    [sys.get_int_max_str_digits()], which is 4300 unless the interpreter is
    configured otherwise; 0 disables the limit.  [Py.int], and with it
    [parse_map_file] above, is the conversion with the limit disabled.
    [Limited] holds the same code under a limit: the face dictionary, the
    loop body, the loop, [parse_map_file] and the worker. *)

Module Limited.

Definition default_max_str_digits : nat := 4300.

Section Limit.

(** [sys.get_int_max_str_digits()] *)
Variable max_str_digits : nat.

(** The string has more characters than the limit in force allows. *)
Definition too_long (s : string) : bool :=
  ((0 <? max_str_digits) && (max_str_digits <? String.length s))%nat.

(** [int(s)] under the limit. *)
Definition int (s : string) : Py.res Z :=
  if too_long s then Py.raise Py.ValueError else Py.int s.

(** The face dictionary built from the nine groups of a face line. *)
Definition make_face (default_texture : string) (groups : list string) : Py.res face :=
  match groups with
  | [g1; g2; g3; g4; g5; g6; g7; g8; g9] =>
      r <- int g7 ;;
      sx <- int g8 ;;
      sy <- int g9 ;;
      Py.ret (mkFace (Py.strip g1) (Py.strip g2) (Py.strip g3)
                     (stored_material default_texture g4)
                     (Py.strip g5) (Py.strip g6) r sx sy)
  | _ => Py.raise Py.ValueError
  end.

(** One iteration of the [for line in lines] loop, on the raw line. *)
Definition loop_body (self : converter) (v : locals) (raw : string)
    : Py.res (converter * locals) :=
  let '(mkLocals iw ib cb bd pb bc fc mr) := v in
  let line := Py.strip raw in
  if Py.startswith line "// brush" then
    Py.ret (self, mkLocals iw ib cb bd true (bc + 1) fc mr)
  else if (line =? "{") && negb ib && negb iw && negb pb then
    Py.ret (self, mkLocals true ib cb bd pb bc fc mr)
  else if iw && (line =? "}") && negb ib && negb pb then
    Py.ret (self, mkLocals false ib cb bd pb bc fc mr)
  else if iw && Py.startswith line (Py.str1 Py.dq) then
    match Re.re_match property_re line with
    | Some [key; value] =>
        Py.ret (mkConverter (dict_set (worldspawn_properties self) key value)
                            (brushes self) (default_texture self), v)
    | Some _ => Py.raise Py.ValueError
    | None => Py.ret (self, v)
    end
  else if pb && (line =? "{") then
    Py.ret (self, mkLocals iw true (Some (mkBrush [])) 1 false bc fc mr)
  else if pb then
    Py.ret (self, v)
  else if ib then
    if line =? "{" then
      Py.ret (self, mkLocals iw ib cb (bd + 1) pb bc fc mr)
    else if line =? "}" then
      let bd' := (bd - 1)%Z in
      if (bd' =? 0)%Z then
        match cb with
        | Some b =>
            Py.ret (mkConverter (worldspawn_properties self)
                                (brushes self +++ [b]) (default_texture self),
                    mkLocals iw false None bd' pb bc fc mr)
        | None => Py.ret (self, mkLocals iw false cb bd' pb bc fc mr)
        end
      else Py.ret (self, mkLocals iw ib cb bd' pb bc fc mr)
    else if Py.startswith line "(" then
      match Re.re_match face_re line with
      | Some groups =>
          let mr' := match groups with
                     | [_; _; _; g4; _; _; _; _; _] =>
                         if String.eqb g4 sentinel then mr + 1 else mr
                     | _ => mr
                     end in
          f <- make_face (default_texture self) groups ;;
          match cb with
          | Some b =>
              Py.ret (self, mkLocals iw ib (Some (mkBrush (faces b +++ [f])))
                                     bd pb bc (fc + 1) mr')
          | None => Py.raise Py.TypeError
          end
      | None => Py.ret (self, v)
      end
    else Py.ret (self, v)
  else Py.ret (self, v).

(** The whole loop. *)
Fixpoint run_lines (self : converter) (v : locals) (lines : list string)
    : Py.res (converter * locals) :=
  match lines with
  | [] => Py.ret (self, v)
  | raw :: rest =>
      sv <- loop_body self v raw ;;
      run_lines (fst sv) (snd sv) rest
  end.

(** [MapToVmfConverter.parse_map_file] under the limit. *)
Definition parse_map_file (self : converter) (map_content : string)
    : Py.res (converter * statistics) :=
  sv <- run_lines self locals0 (Py.split_lines map_content) ;;
  Py.ret (fst sv, statistics_of (fst sv) (snd sv)).

(** The bullet of the report, and [str(e)] for an exception raised by the
    converter. *)
Variable bullet : string.
Variable exn_text : Py.exn -> string.

(** [ConversionWorker.run] under the limit: the signals emitted, in order,
    and the text written when the write succeeded. *)
Definition worker_run (input_file output_file default_texture : string)
    (read : string + string) (write : string -> option string)
    : list signal * option string :=
  match read with
  | inl text => ([failure text], None)
  | inr map_content =>
      let converter := init default_texture in
      match parse_map_file converter map_content with
      | inl e => ([Progress 25; failure (exn_text e)], None)
      | inr (converter, stats) =>
          let vmf_content := generate_vmf converter in
          match write vmf_content with
          | Some text =>
              ([Progress 25; Progress 75; Progress 90; failure text], None)
          | None =>
              ([Progress 25; Progress 75; Progress 90; Progress 100;
                Finished (success_message bullet input_file output_file
                                          default_texture stats vmf_content)],
               Some vmf_content)
          end
      end
  end.

End Limit.

End Limited.

(** ** Inputs within the limit *)

(** The line matches the face pattern and one of its three integers has
    more digits than the limit allows. *)
Definition long_line (m : nat) (line : string) : bool :=
  match Re.re_match face_re line with
  | Some groups =>
      Limited.too_long m (group 6 groups) || Limited.too_long m (group 7 groups)
      || Limited.too_long m (group 8 groups)
  | None => false
  end.

(** No line of the input, once stripped, is such a line. *)
Definition short_integers (m : nat) (map_content : string) : bool :=
  forallb (fun raw => negb (long_line m (Py.strip raw))) (Py.split_lines map_content).

(** The three integers of a face in a map text are within the limit. *)
Definition short_face (m : nat) (f : face_text) : bool :=
  negb (Limited.too_long m (t_rotation f)) && negb (Limited.too_long m (t_scale_x f))
  && negb (Limited.too_long m (t_scale_y f)).

Definition short_entity (m : nat) (e : entity_text) : bool :=
  forallb (forallb (short_face m)) (e_brushes e).


(** * Properties *)

(** ** Strings and regular expressions *)

Lemma append_nil_r (s : string) : s ++ EmptyString = s.
Proof. induction s; simpl; congruence. Qed.

Lemma append_assoc (a b c : string) : (a ++ b) ++ c = a ++ (b ++ c).
Proof. induction a; simpl; congruence. Qed.

Lemma all_chars_app (p : ascii -> bool) (a b : string) :
  Py.all_chars p (a ++ b) = Py.all_chars p a && Py.all_chars p b.
Proof.
  induction a as [|c a IH]; simpl; [reflexivity|].
  rewrite IH. now rewrite andb_assoc.
Qed.

Lemma string_length_app (a b : string) :
  String.length (a ++ b) = String.length a + String.length b.
Proof. induction a; simpl; congruence. Qed.

(** What a successful repetition took: a prefix of the subject made of
    characters of the class, at least [least] of them; the continuation
    succeeded on what follows. *)
Lemma rep_inv (R : Type) cls k (s : string) : forall least taken (r : R),
  Re.rep R cls least k taken s = Some r ->
  exists t rest,
    s = t ++ rest /\ Py.all_chars cls t = true /\ least <= String.length t /\
    k (taken ++ t) rest = Some r.
Proof.
  induction s as [|c s IH]; intros least taken r H; simpl in H.
  - destruct least; [|discriminate].
    exists EmptyString, EmptyString. simpl. rewrite append_nil_r. auto.
  - destruct (cls c) eqn:Hc.
    + destruct (Re.rep R cls (pred least) k (taken ++ Py.str1 c) s) eqn:Hrec.
      * inversion H; subst r0; clear H.
        apply IH in Hrec. destruct Hrec as (t & rest & -> & Hall & Hlen & Hk).
        exists (String c t), rest. simpl. rewrite Hc, Hall.
        repeat split; [lia|].
        rewrite append_assoc in Hk. exact Hk.
      * destruct least; [|discriminate].
        exists EmptyString, (String c s). simpl. rewrite append_nil_r. auto.
    + destruct least; [|discriminate].
      exists EmptyString, (String c s). simpl. rewrite append_nil_r. auto.
Qed.

(** A match adds one group per capturing item, in order, each made of
    characters of its class and long enough. *)
Lemma match_from_groups (r : Re.re) : forall s groups out,
  Re.match_from r s groups = Some out ->
  exists new, out = groups +++ new /\ Forall2 captured (capturing r) new.
Proof.
  induction r as [|it r IH]; intros s groups out H; simpl in H.
  - inversion H; subst. exists []. rewrite app_nil_r. split; [reflexivity|constructor].
  - destruct it as [c|cls least capture].
    + destruct s as [|c' s']; [discriminate|].
      destruct (Ascii.eqb c c'); [|discriminate].
      apply IH in H. exact H.
    + apply rep_inv in H. destruct H as (t & rest & _ & Hall & Hlen & Hk).
      simpl in Hk. apply IH in Hk. destruct Hk as (new & -> & Hnew).
      destruct capture; simpl.
      * exists (t :: new). rewrite <- app_assoc. split; [reflexivity|].
        constructor; [split; assumption | exact Hnew].
      * exists new. split; [reflexivity | exact Hnew].
Qed.

Lemma re_match_groups (r : Re.re) (s : string) (out : list string) :
  Re.re_match r s = Some out -> Forall2 captured (capturing r) out.
Proof.
  intros H. apply match_from_groups in H. destruct H as (new & -> & H). exact H.
Qed.

(** The property pattern yields exactly two groups. *)
Lemma property_re_groups (line : string) (out : list string) :
  Re.re_match property_re line = Some out ->
  exists key value, out = [key; value] /\ key <> EmptyString.
Proof.
  intros H. apply re_match_groups in H. simpl in H.
  inversion H as [|? key ? l1 Hk H1]; subst.
  inversion H1 as [|? value ? l2 _ H2]; subst.
  inversion H2; subst.
  exists key, value. split; [reflexivity|].
  destruct Hk as [_ Hk]. simpl in Hk. intros ->. simpl in Hk. lia.
Qed.

(** The face pattern yields exactly nine groups, the last three non-empty
    and made of digits. *)
Lemma face_re_groups (line : string) (out : list string) :
  Re.re_match face_re line = Some out ->
  exists g1 g2 g3 g4 g5 g6 g7 g8 g9,
    out = [g1; g2; g3; g4; g5; g6; g7; g8; g9] /\
    digits g7 /\ digits g8 /\ digits g9.
Proof.
  intros H. apply re_match_groups in H. simpl in H.
  repeat match goal with
  | H : Forall2 _ (_ :: _) _ |- _ => inversion H; subst; clear H
  | H : Forall2 _ [] _ |- _ => inversion H; subst; clear H
  end.
  repeat eexists; match goal with H : captured (Re.digit, 1) _ |- _ => apply H end.
Qed.

Lemma int_digits (s : string) : digits s -> exists z, Py.int s = inr z.
Proof.
  intros [Hall Hlen]. unfold Py.int. destruct s as [|c s]; [simpl in Hlen; lia|].
  rewrite Hall. eexists. reflexivity.
Qed.

(** ** The shape of a stripped line *)

Lemma line_shape_total (line : string) : line_shape line.
Proof.
  destruct line as [|c s].
  - apply shape_other; reflexivity.
  - destruct (Ascii.eqb c "/") eqn:E1; [apply Ascii.eqb_eq in E1; subst c|].
    { destruct (Py.startswith (String "/" s) "// brush") eqn:E;
        [apply shape_marker | apply shape_other]; solve [exact E | reflexivity]. }
    destruct (Ascii.eqb c "{") eqn:E2; [apply Ascii.eqb_eq in E2; subst c|].
    { destruct s; [apply shape_open | apply shape_other]; reflexivity. }
    destruct (Ascii.eqb c "}") eqn:E3; [apply Ascii.eqb_eq in E3; subst c|].
    { destruct s; [apply shape_close | apply shape_other]; reflexivity. }
    destruct (Ascii.eqb c Py.dq) eqn:E4; [apply Ascii.eqb_eq in E4; subst c|].
    { apply shape_quoted; try reflexivity. destruct s; reflexivity. }
    destruct (Ascii.eqb c "(") eqn:E5; [apply Ascii.eqb_eq in E5; subst c|].
    { apply shape_paren; try reflexivity. destruct s; reflexivity. }
    assert (P : forall x p, Ascii.eqb c x = false ->
                Py.startswith (String c s) (String x p) = false).
    { intros x p Hx. unfold Py.startswith. simpl.
      destruct (ascii_dec x c) as [->|]; [|reflexivity].
      rewrite Ascii.eqb_refl in Hx. discriminate. }
    assert (Q : forall x, Ascii.eqb c x = false -> (String c s =? Py.str1 x) = false).
    { intros x Hx. unfold Py.str1. simpl. rewrite Hx. reflexivity. }
    apply shape_other; first [apply P | apply Q]; assumption.
Qed.

(** Case analysis on the shape of the line, for goals that mention the five
    questions. *)
Ltac by_shape line :=
  let A := fresh "A" in let B := fresh "B" in let C := fresh "C" in
  let D := fresh "D" in let E := fresh "E" in
  destruct (line_shape_total line) as [A B C D E|A B C D E|A B C D E
                                      |A B C D E|A B C D E|A B C D E];
  rewrite ?A, ?B, ?C, ?D, ?E.

(** ** One line: the loop body against its description *)

Lemma brush_ok_locals0 : brush_ok locals0.
Proof. intros H. discriminate H. Qed.

Lemma make_face_matched (dt line : string) (groups : list string) :
  Re.re_match face_re line = Some groups ->
  make_face dt groups = inr (face_of_groups dt groups).
Proof.
  intros H. apply face_re_groups in H.
  destruct H as (g1 & g2 & g3 & g4 & g5 & g6 & g7 & g8 & g9 & -> & H7 & H8 & H9).
  unfold make_face, Py.int.
  destruct H7 as [A7 L7], H8 as [A8 L8], H9 as [A9 L9].
  destruct g7; [simpl in L7; lia|]. destruct g8; [simpl in L8; lia|].
  destruct g9; [simpl in L9; lia|].
  rewrite A7, A8, A9. reflexivity.
Qed.

Lemma add_0_r_nat (n : nat) : n + 0 = n.
Proof. lia. Qed.

(** The loop body never raises on a state that satisfies [brush_ok], and
    its effect is the one described by [next_converter] and [next_locals]. *)
Lemma loop_body_effect (self : converter) (v : locals) (raw : string) :
  brush_ok v ->
  loop_body self v raw =
    inr (next_converter self v (Py.strip raw),
         next_locals (default_texture self) v (Py.strip raw)).
Proof.
  intros Hok. destruct self as [props bs dt].
  destruct v as [iw ib cb bd pb bc fc mr].
  unfold loop_body, next_converter, next_locals, closed_now, face_groups,
    closes_brush, inside_brush, opens_brush, upsert_of, closes_world,
    opens_world, is_marker.
  cbv beta iota delta [in_worldspawn in_brush current_brush brace_depth
    pending_brush brush_count face_count material_replacements
    worldspawn_properties brushes default_texture].
  generalize (Py.strip raw) as line. intros line.
  by_shape line; destruct iw, ib, pb; cbn [andb negb orb].
  all: try match goal with
    | |- context [Re.re_match property_re ?l] =>
        destruct (Re.re_match property_re l) as [out|] eqn:Hm;
        [ destruct (property_re_groups _ _ Hm) as (key & value & -> & _) | ]
    end.
  all: try match goal with
    | |- context [((?d - 1) =? 0)%Z] =>
        destruct (Z.eqb_spec (d - 1) 0) as [H0|H0];
        [ replace d with 1%Z by lia; cbn [Z.eqb Pos.eqb andb];
          match goal with |- context [match ?c with Some _ => _ | None => _ end] =>
            destruct c end
        | destruct (Z.eqb_spec d 1) as [H1|H1]; [lia|] ]
    end.
  all: try match goal with
    | |- context [Re.re_match face_re ?l] =>
        destruct (Re.re_match face_re l) as [groups|] eqn:Hm;
        [ rewrite (make_face_matched _ _ _ Hm); cbn [Py.bind];
          destruct (face_re_groups _ _ Hm)
            as (g1 & g2 & g3 & g4 & g5 & g6 & g7 & g8 & g9 & -> & _);
          unfold is_sentinel, raw_material, group; cbn [nth];
          destruct (g4 =? sentinel);
          match goal with |- context [match ?c with Some _ => _ | None => _ end] =>
            destruct c as [b|]; [| destruct (Hok eq_refl) as [[] _]; reflexivity ] end
        | ]
    end.
  all: rewrite ?app_nil_r, ?add_0_r_nat.
  all: unfold Py.ret; reflexivity.
Qed.

Lemma brush_ok_next (dt : string) (v : locals) (line : string) :
  brush_ok v -> brush_ok (next_locals dt v line).
Proof.
  unfold brush_ok, next_locals. cbn [in_brush current_brush brace_depth].
  intros Hok.
  destruct (opens_brush v line); [intros _; split; [discriminate | lia]|].
  destruct (closes_brush v line) eqn:Hc; [discriminate|].
  intros Hib. destruct (Hok Hib) as [Hcb Hbd]. split.
  - destruct (face_groups v line), (current_brush v); congruence.
  - unfold closes_brush in Hc. destruct (inside_brush v); [|exact Hbd].
    destruct (line =? "{"); [lia|].
    destruct (line =? "}"); [|exact Hbd].
    cbn [andb] in Hc. apply Z.eqb_neq in Hc. lia.
Qed.

(** ** A run of the loop *)

Lemma brush_ok_after (dt : string) (v : locals) (lines : list string) :
  brush_ok v -> brush_ok (locals_after dt v lines).
Proof.
  revert v. induction lines as [|raw rest IH]; intros v Hok; simpl; [exact Hok|].
  apply IH. apply brush_ok_next. exact Hok.
Qed.

Lemma locals_after_app (dt : string) (v : locals) (l1 l2 : list string) :
  locals_after dt v (l1 +++ l2) = locals_after dt (locals_after dt v l1) l2.
Proof. revert v. induction l1; intros v; simpl; auto. Qed.

Lemma upserts_app (dt : string) (v : locals) (l1 l2 : list string) :
  upserts dt v (l1 +++ l2) = upserts dt v l1 +++ upserts dt (locals_after dt v l1) l2.
Proof.
  revert v. induction l1 as [|raw l1 IH]; intros v; simpl; [reflexivity|].
  rewrite IH, app_assoc. reflexivity.
Qed.

Lemma closed_app (dt : string) (v : locals) (l1 l2 : list string) :
  closed dt v (l1 +++ l2) = closed dt v l1 +++ closed dt (locals_after dt v l1) l2.
Proof.
  revert v. induction l1 as [|raw l1 IH]; intros v; simpl; [reflexivity|].
  rewrite IH, app_assoc. reflexivity.
Qed.

Lemma run_lines_effect (lines : list string) : forall self v,
  brush_ok v ->
  run_lines self v lines =
    inr (converter_after self v lines,
         locals_after (default_texture self) v lines).
Proof.
  induction lines as [|raw rest IH]; intros self v Hok.
  - destruct self. unfold converter_after. simpl. rewrite app_nil_r. reflexivity.
  - simpl. rewrite (loop_body_effect _ _ _ Hok). cbn [Py.bind fst snd].
    rewrite IH by (apply brush_ok_next; exact Hok).
    unfold converter_after, next_converter.
    cbn [worldspawn_properties brushes default_texture upserts closed].
    rewrite <- app_assoc.
    destruct (upsert_of v (Py.strip raw)) as [[key value]|]; reflexivity.
Qed.

Lemma parse_map_file_effect (self : converter) (map_content : string) :
  parse_map_file self map_content =
    let lines := Py.split_lines map_content in
    let self' := converter_after self locals0 lines in
    inr (self', statistics_of self' (locals_after (default_texture self) locals0 lines)).
Proof.
  unfold parse_map_file. rewrite run_lines_effect by exact brush_ok_locals0.
  reflexivity.
Qed.

(** ** The scenarios of the specification *)

(** One brush with one face whose material is the sentinel. *)
Example scenario_one_brush :
  let map_content :=
    Py.join_lines
      [ "// brush"; "{";
        "( 0 0 0 ) ( 0 0 1 ) ( 0 1 0 ) __TB_empty [1 0 0 0] [0 1 0 0] 0 1 1";
        "}" ] in
  exists self',
    parse_map_file (init "dev/tex") map_content
      = inr (self', mkStatistics 1 1 1 1) /\
    brushes self' =
      [mkBrush [mkFace "0 0 0" "0 0 1" "0 1 0" "dev/tex" "1 0 0 0" "0 1 0 0" 0 1 1]] /\
    vmf_lines_of self' =
      [ "world"; "{"; T1 ++ quoted "id" ++ " " ++ quoted "0";
        T1 ++ "solid"; T1 ++ "{"; T2 ++ quoted "id" ++ " " ++ quoted "1";
        T2 ++ "side"; T2 ++ "{"; T3 ++ quoted "id" ++ " " ++ quoted "2";
        T3 ++ quoted "plane" ++ " " ++ quoted "(0 0 0) (0 0 1) (0 1 0)";
        T3 ++ quoted "material" ++ " " ++ quoted "dev/tex";
        T3 ++ quoted "uaxis" ++ " " ++ quoted "[1 0 0 0] 0.25";
        T3 ++ quoted "vaxis" ++ " " ++ quoted "[0 1 0 0] 0.25";
        T3 ++ quoted "lightmapscale" ++ " " ++ quoted "16";
        T2 ++ "}"; T1 ++ "}"; "}" ].
Proof. eexists. split; [vm_compute; reflexivity|]. split; reflexivity. Qed.

(** The empty input. *)
Example scenario_empty_input :
  parse_map_file (init "dev/tex") EmptyString
    = inr (init "dev/tex", mkStatistics 0 0 0 0) /\
  vmf_lines_of (init "dev/tex")
    = [ "world"; "{"; T1 ++ quoted "id" ++ " " ++ quoted "0"; "}" ].
Proof. split; reflexivity. Qed.

(** A marker without an opening brace, then a complete brush. *)
Example scenario_marker_without_brace :
  exists self',
    parse_map_file (init "dev/tex")
      (Py.join_lines ["// brush 0"; "// brush 1"; "{"; "}"; "// brush 2"])
      = inr (self', mkStatistics 3 1 0 0).
Proof. eexists. vm_compute. reflexivity. Qed.

(** Backtracking in the face pattern: a point group of blanks only gives
    its last blank to the group; an empty one does not match; digits after
    the third integer and anything after them are left over. *)
Example face_re_backtracks :
  Re.re_match face_re "(   ) (a) ( b c) x [ ] [y] 00 1 23rest"
    = Some [" "; "a"; "b c"; "x"; " "; "y"; "00"; "1"; "23"] /\
  Re.re_match face_re "() (a) ( b c) x [ ] [y] 00 1 23" = None /\
  Re.re_match face_re "(a) (b) (c) x [u] [v] 0 1.5 1" = None.
Proof. repeat split; vm_compute; reflexivity. Qed.

(** Identifiers above nine are written in decimal. *)
Example str_of_nat_decimal :
  Py.str_of_nat 0 = "0" /\ Py.str_of_nat 10 = "10" /\ Py.str_of_nat 4096 = "4096".
Proof. repeat split. Qed.

(** ** Lines that are skipped; the parser without the limit *)

Lemma unrecognized_skipped (self : converter) (v : locals) (raw : string) :
  unrecognized (Py.strip raw) = true -> loop_body self v raw = inr (self, v).
Proof.
  destruct v as [iw ib cb bd pb bc fc mr].
  unfold unrecognized, is_marker, loop_body.
  generalize (Py.strip raw) as line. intros line.
  by_shape line; cbn [andb negb]; try discriminate; intros H.
  - destruct (Re.re_match property_re line); [discriminate|].
    destruct iw, ib, pb; reflexivity.
  - destruct (Re.re_match face_re line); [discriminate|].
    destruct iw, ib, pb; reflexivity.
  - destruct iw, ib, pb; reflexivity.
Qed.

Lemma closed_length (dt : string) (lines : list string) : forall v,
  brush_ok v -> length (closed dt v lines) = closings dt v lines.
Proof.
  induction lines as [|raw rest IH]; intros v Hok; simpl; [reflexivity|].
  rewrite List.length_app, IH by (apply brush_ok_next; exact Hok).
  f_equal. unfold closed_now.
  destruct (closes_brush v (Py.strip raw)) eqn:Hc; [|reflexivity].
  unfold closes_brush, inside_brush in Hc.
  destruct (in_brush v) eqn:Hib; [|discriminate].
  destruct (Hok Hib) as [Hcb _].
  destruct (current_brush v); [reflexivity | contradiction].
Qed.

Lemma group_digits (line : string) (groups : list string) :
  Re.re_match face_re line = Some groups ->
  digits (group 6 groups) /\ digits (group 7 groups) /\ digits (group 8 groups).
Proof.
  intros H. apply face_re_groups in H.
  destruct H as (g1 & g2 & g3 & g4 & g5 & g6 & g7 & g8 & g9 & -> & H7 & H8 & H9).
  auto.
Qed.

(** With the limit on integer strings disabled, [parse_map_file] returns a
    result for every converter and every input string.  The brushes after
    the call are those before it followed by the brushes closed by a closing
    brace, one per closing line, so a brush still open at the end of the
    input is not appended.  After every prefix of the lines the loop has not
    raised and there is a current brush whenever [in_brush] is set.  An
    unrecognized line leaves the converter and all local variables as they
    were.  The three integer groups of a matched face line are non-empty
    digit strings, on which [int] without the limit returns a value. *)
Lemma parse_map_file_returns_without_limit (self : converter) (map_content : string) :
  let lines := Py.split_lines map_content in
  let dt := default_texture self in
  (exists self' stats,
      parse_map_file self map_content = inr (self', stats) /\
      brushes self' = brushes self +++ closed dt locals0 lines /\
      length (closed dt locals0 lines) = closings dt locals0 lines)
  /\ (forall n, exists s v,
        run_lines self locals0 (firstn n lines) = inr (s, v) /\
        (in_brush v = true -> current_brush v <> None))
  /\ (forall s v raw,
        unrecognized (Py.strip raw) = true -> loop_body s v raw = inr (s, v))
  /\ (forall line groups,
        Re.re_match face_re line = Some groups ->
        digits (group 6 groups) /\ digits (group 7 groups) /\ digits (group 8 groups) /\
        exists r sx sy,
          Py.int (group 6 groups) = inr r /\ Py.int (group 7 groups) = inr sx /\
          Py.int (group 8 groups) = inr sy).
Proof.
  intros lines dt. repeat split.
  - rewrite parse_map_file_effect. cbv zeta. eexists _, _. split; [reflexivity|].
    split; [reflexivity|]. apply closed_length, brush_ok_locals0.
  - intros n. rewrite run_lines_effect by exact brush_ok_locals0.
    eexists _, _. split; [reflexivity|].
    intros Hib. apply (brush_ok_after dt locals0 (firstn n lines) brush_ok_locals0 Hib).
  - intros s v raw. apply unrecognized_skipped.
  - apply (group_digits _ _ H).
  - apply (group_digits _ _ H).
  - apply (group_digits _ _ H).
  - apply (group_digits _ _ H).
  - apply (group_digits _ _ H).
  - apply (group_digits _ _ H).
  - destruct (group_digits _ _ H) as (H7 & H8 & H9).
    destruct (int_digits _ H7) as [r Hr], (int_digits _ H8) as [sx Hsx],
      (int_digits _ H9) as [sy Hsy].
    exists r, sx, sy. auto.
Qed.

(** ** The closing brace of a brush *)

(** C1, as amended.  When a line that is exactly a closing brace takes the
    depth of the open brush from 1 to 0, the current brush is appended to
    [brushes], [in_brush] is cleared and there is no current brush any more,
    while [in_worldspawn] keeps its value: the parser is back in the
    worldspawn block when the brush was opened inside one, and outside
    otherwise.  A quoted key/value line that follows the closing brace
    directly is written into [worldspawn_properties] exactly when
    [in_worldspawn] was set before the closing brace. *)
Theorem closing_brace_keeps_in_worldspawn
    (self : converter) (v : locals) (b : brush) (raw raw2 key value : string) :
  in_brush v = true -> pending_brush v = false -> brace_depth v = 1%Z ->
  current_brush v = Some b ->
  Py.strip raw = "}" ->
  Py.startswith (Py.strip raw2) (Py.str1 Py.dq) = true ->
  Re.re_match property_re (Py.strip raw2) = Some [key; value] ->
  let closed_self :=
    mkConverter (worldspawn_properties self) (brushes self +++ [b])
                (default_texture self) in
  exists v',
    loop_body self v raw = inr (closed_self, v') /\
    in_brush v' = false /\ current_brush v' = None /\ pending_brush v' = false /\
    in_worldspawn v' = in_worldspawn v /\
    loop_body closed_self v' raw2 =
      inr (mkConverter
             (if in_worldspawn v
              then dict_set (worldspawn_properties self) key value
              else worldspawn_properties self)
             (brushes self +++ [b]) (default_texture self),
           v').
Proof.
  destruct v as [iw ib cb bd pb bc fc mr]. cbn [in_brush pending_brush brace_depth
    current_brush in_worldspawn].
  intros -> -> -> -> Hraw Hq Hm. cbv zeta.
  exists (mkLocals iw false None 0 false bc fc mr).
  split.
  { unfold loop_body. rewrite Hraw. destruct iw; reflexivity. }
  repeat split.
  unfold loop_body. revert Hq Hm. generalize (Py.strip raw2) as line. intros line Hq Hm.
  by_shape line; try congruence.
  rewrite Hm. destruct iw; reflexivity.
Qed.

(** The theorem at a brush opened inside the worldspawn block. *)
Lemma closing_brace_keeps_in_worldspawn_witness :
  let v := mkLocals true true (Some (mkBrush [])) 1 false 1 0 0 in
  let self := init "dev/tex" in
  let line2 := quoted "a" ++ " " ++ quoted "b" in
  exists v',
    loop_body self v "}" = inr (mkConverter [] [mkBrush []] "dev/tex", v') /\
    in_brush v' = false /\ current_brush v' = None /\ pending_brush v' = false /\
    in_worldspawn v' = true /\
    loop_body (mkConverter [] [mkBrush []] "dev/tex") v' line2 =
      inr (mkConverter [("a", "b")] [mkBrush []] "dev/tex", v').
Proof.
  exact (closing_brace_keeps_in_worldspawn
           (init "dev/tex") (mkLocals true true (Some (mkBrush [])) 1 false 1 0 0)
           (mkBrush []) "}" (quoted "a" ++ " " ++ quoted "b") "a" "b"
           eq_refl eq_refl eq_refl eq_refl eq_refl eq_refl eq_refl).
Defined.

(** C1, as stated, fails.  A worldspawn block is opened, a brush is opened
    and closed inside it, and a quoted line follows the closing brace of the
    brush with no opening brace in between: after the closing brace
    [in_worldspawn] is still set, and the quoted line is written into
    [worldspawn_properties]. *)
Lemma closing_brace_returns_outside_counterexample :
  exists s v,
    run_lines (init "dev/tex") locals0 ["{"; "// brush"; "{"; "}"] = inr (s, v) /\
    brushes s = [mkBrush []] /\ in_brush v = false /\ in_worldspawn v = true /\
    run_lines s v [quoted "a" ++ " " ++ quoted "b"] =
      inr (mkConverter [("a", "b")] [mkBrush []] "dev/tex", v) /\
    parse_map_file (init "dev/tex")
      (Py.join_lines ["{"; "// brush"; "{"; "}"; quoted "a" ++ " " ++ quoted "b"]) =
      inr (mkConverter [("a", "b")] [mkBrush []] "dev/tex", mkStatistics 1 1 0 0).
Proof.
  eexists _, _. split; [vm_compute; reflexivity|].
  repeat split.
Qed.

(** ** The serializer, identifier by identifier *)

Lemma numbered_cons {A : Type} (start : nat) (x : A) (l : list A) :
  numbered start (x :: l) = (start, x) :: numbered (S start) l.
Proof. reflexivity. Qed.

Lemma flat_map_numbered_S {A B : Type} (F : nat * A -> list B) (l : list A) :
  forall start,
    flat_map F (numbered (S start) l) =
    flat_map (fun ix => F (S (fst ix), snd ix)) (numbered start l).
Proof.
  induction l as [|x l IH]; intros start; [reflexivity|].
  rewrite !numbered_cons. cbn [flat_map fst snd]. rewrite IH. reflexivity.
Qed.

Lemma emit_faces_closed (fs : list face) : forall vmf_lines side_id,
  emit_faces fs vmf_lines side_id =
    (vmf_lines +++ flat_map (fun nf => side_lines (fst nf) (snd nf)) (numbered side_id fs),
     side_id + length fs).
Proof.
  induction fs as [|f fs IH]; intros acc n.
  - simpl. rewrite app_nil_r, Nat.add_0_r. reflexivity.
  - cbn [emit_faces]. rewrite IH, numbered_cons, Nat.add_1_r.
    cbn [flat_map fst snd length]. rewrite <- app_assoc.
    f_equal. lia.
Qed.

Lemma faces_before_cons (i : nat) (b : brush) (bs : list brush) :
  faces_before (S i) (b :: bs) = length (faces b) + faces_before i bs.
Proof. unfold faces_before. cbn [firstn flat_map]. apply List.length_app. Qed.

Lemma emit_brushes_closed (bs : list brush) : forall vmf_lines solid_id side_id,
  emit_brushes bs vmf_lines solid_id side_id =
    vmf_lines +++
    flat_map (fun ib => solid_block (solid_id + fst ib)
                                    (side_id + faces_before (fst ib) bs) (snd ib))
             (numbered 0 bs).
Proof.
  induction bs as [|b bs IH]; intros acc sid fid.
  - simpl. rewrite app_nil_r. reflexivity.
  - cbn [emit_brushes]. rewrite emit_faces_closed, IH.
    rewrite numbered_cons. cbn [flat_map fst snd]. rewrite flat_map_numbered_S.
    unfold solid_block at 2. unfold faces_before at 2. cbn [firstn flat_map length].
    rewrite !Nat.add_0_r, <- !app_assoc.
    do 4 f_equal. apply flat_map_ext. intros [i c]. cbn [fst snd].
    rewrite faces_before_cons. f_equal; lia.
Qed.

(** The lines of the output: the world header, one line per property in the
    order of the dictionary, the solids, the closing brace. *)
Lemma vmf_lines_closed (self : converter) :
  vmf_lines_of self =
    world_header +++ map property_line (worldspawn_properties self)
    +++ solid_blocks (brushes self) +++ [ "}" ].
Proof.
  unfold vmf_lines_of. rewrite emit_brushes_closed. unfold solid_blocks, world_header.
  rewrite <- !app_assoc. reflexivity.
Qed.

Lemma in_flat_map_numbered {A B : Type} (F : nat * A -> list B) (x : A) (l : list A) :
  In x l -> forall start,
  exists i pre post, flat_map F (numbered start l) = pre +++ F (i, x) +++ post.
Proof.
  induction l as [|y l IH]; intros Hin start; [contradiction|].
  rewrite numbered_cons. cbn [flat_map].
  destruct Hin as [->|Hin].
  - exists start, [], (flat_map F (numbered (S start) l)). reflexivity.
  - destruct (IH Hin (S start)) as (i & pre & post & ->).
    exists i, (F (start, y) +++ pre), post. rewrite <- app_assoc. reflexivity.
Qed.

(** Every face of every brush has its side block in the output. *)
Lemma face_block_in_output (self : converter) (b : brush) (f : face) :
  In b (brushes self) -> In f (faces b) ->
  exists side_id pre post,
    vmf_lines_of self = pre +++ side_lines side_id f +++ post.
Proof.
  intros Hb Hf. rewrite vmf_lines_closed. unfold solid_blocks.
  destruct (in_flat_map_numbered
              (fun ib => solid_block (1 + fst ib)
                           (2 + faces_before (fst ib) (brushes self)) (snd ib))
              b (brushes self) Hb 0) as (i & pre & post & ->).
  cbn [fst snd]. unfold solid_block.
  destruct (in_flat_map_numbered (fun nf => side_lines (fst nf) (snd nf))
              f (faces b) Hf (2 + faces_before i (brushes self)))
    as (n & pre' & post' & ->).
  cbn [fst snd].
  exists n,
    (world_header +++ map property_line (worldspawn_properties self) +++ pre
     +++ [ T1 ++ "solid"; T1 ++ "{"; T2 ++ quoted "id" ++ " " ++ quoted (Py.str_of_nat (1 + i)) ]
     +++ pre'),
    (post' +++ [ T1 ++ "}" ] +++ post +++ [ "}" ]).
  rewrite <- !app_assoc. reflexivity.
Qed.

Lemma side_lines_same_geometry (n : nat) (f g : face) :
  same_geometry f g -> side_lines n f = side_lines n g.
Proof.
  intros (H1 & H2 & H3 & H4 & H5 & H6). unfold side_lines.
  rewrite H1, H2, H3, H4, H5, H6. reflexivity.
Qed.

Lemma emit_faces_same_geometry (fs gs : list face) :
  Forall2 same_geometry fs gs ->
  forall vmf_lines side_id,
    emit_faces fs vmf_lines side_id = emit_faces gs vmf_lines side_id.
Proof.
  induction 1 as [|f g fs gs Hfg _ IH]; intros acc n; [reflexivity|].
  cbn [emit_faces]. rewrite (side_lines_same_geometry n f g Hfg). apply IH.
Qed.

Lemma emit_brushes_same_geometry (bs cs : list brush) :
  Forall2 same_geometry_brush bs cs ->
  forall vmf_lines solid_id side_id,
    emit_brushes bs vmf_lines solid_id side_id =
    emit_brushes cs vmf_lines solid_id side_id.
Proof.
  induction 1 as [|b c bs cs Hbc _ IH]; intros acc sid fid; [reflexivity|].
  cbn [emit_brushes]. rewrite (emit_faces_same_geometry _ _ Hbc).
  destruct (emit_faces (faces c) _ fid) as [acc' fid']. apply IH.
Qed.

(** C3. For every document, the output is the world header, the property
    lines, the solids and a closing brace, where the solid of brush [i]
    (counting from 0) carries the identifier [1 + i] and the side of its
    face [j] carries the identifier [2 + (number of faces of the brushes
    before it) + j]: solids are numbered 1, 2, 3, ... in brush order and
    sides 2, 3, 4, ... from one counter that runs through all brushes. *)
Theorem identifiers_are_sequential (self : converter) :
  vmf_lines_of self =
    world_header +++ map property_line (worldspawn_properties self)
    +++ flat_map (fun ib =>
          [ T1 ++ "solid"; T1 ++ "{";
            T2 ++ quoted "id" ++ " " ++ quoted (Py.str_of_nat (1 + fst ib)) ]
          +++ flat_map (fun jf => side_lines (fst jf) (snd jf))
                (combine (seq (2 + faces_before (fst ib) (brushes self))
                              (length (faces (snd ib))))
                         (faces (snd ib)))
          +++ [ T1 ++ "}" ])
        (combine (seq 0 (length (brushes self))) (brushes self))
    +++ [ "}" ]
  /\ generate_vmf self = Py.join_lines (vmf_lines_of self)
  /\ forall side_id f,
       nth 2 (side_lines side_id f) EmptyString =
         T3 ++ quoted "id" ++ " " ++ quoted (Py.str_of_nat side_id).
Proof.
  split; [apply vmf_lines_closed|]. split; reflexivity.
Qed.

(** C7. For every document and every face in it, the side block of the face
    is in the output, and its uaxis and vaxis lines end in the literal 0.25
    and its lightmapscale line carries the literal 16.  Two documents with
    the same properties whose faces agree on points, material and axes give
    the same output, whatever the rotation and the scales of their faces. *)
Theorem scale_and_rotation_are_ignored (self : converter) :
  (forall b f, In b (brushes self) -> In f (faces b) ->
     exists side_id pre post,
       vmf_lines_of self = pre +++ side_lines side_id f +++ post /\
       nth 5 (side_lines side_id f) EmptyString =
         T3 ++ quoted "uaxis" ++ " " ++ quoted ("[" ++ uaxis f ++ "] 0.25") /\
       nth 6 (side_lines side_id f) EmptyString =
         T3 ++ quoted "vaxis" ++ " " ++ quoted ("[" ++ vaxis f ++ "] 0.25") /\
       nth 7 (side_lines side_id f) EmptyString =
         T3 ++ quoted "lightmapscale" ++ " " ++ quoted "16")
  /\ (forall other,
        worldspawn_properties other = worldspawn_properties self ->
        Forall2 same_geometry_brush (brushes other) (brushes self) ->
        generate_vmf other = generate_vmf self).
Proof.
  split.
  - intros b f Hb Hf.
    destruct (face_block_in_output self b f Hb Hf) as (n & pre & post & H).
    exists n, pre, post. repeat split. exact H.
  - intros other Hp Hb. unfold generate_vmf, vmf_lines_of.
    rewrite Hp, (emit_brushes_same_geometry _ _ Hb). reflexivity.
Qed.

(** ** The dictionary of properties *)

Lemma dict_set_keys (d : dict) (k x : string) :
  map fst (dict_set d k x) =
    if has_key (map fst d) k then map fst d else map fst d +++ [k].
Proof.
  unfold has_key. induction d as [|[k' x'] d IH]; simpl; [reflexivity|].
  rewrite (String.eqb_sym k k').
  destruct (k' =? k); simpl; [reflexivity|].
  rewrite IH. destruct (existsb (String.eqb k) (map fst d)); reflexivity.
Qed.

Lemma dict_get_set (d : dict) (k' x k : string) :
  dict_get (dict_set d k' x) k = if String.eqb k' k then Some x else dict_get d k.
Proof.
  induction d as [|[k0 x0] d IH]; simpl.
  - reflexivity.
  - destruct (k0 =? k') eqn:E0; simpl.
    + apply String.eqb_eq in E0. subst k0. destruct (k' =? k); reflexivity.
    + destruct (k0 =? k) eqn:E1; [|exact IH].
      apply String.eqb_eq in E1. subst k0. rewrite String.eqb_sym, E0. reflexivity.
Qed.

Lemma filter_filter {A : Type} (p r : A -> bool) (l : list A) :
  filter p (filter r l) = filter (fun x => r x && p x) l.
Proof.
  induction l as [|x l IH]; simpl; [reflexivity|].
  destruct (r x); simpl; [destruct (p x); simpl|]; congruence.
Qed.

Lemma has_key_app (d : list string) (k k' : string) :
  has_key (d +++ [k]) k' = has_key d k' || String.eqb k' k.
Proof.
  unfold has_key. rewrite existsb_app. simpl. rewrite orb_false_r. reflexivity.
Qed.

(** The keys after a sequence of writes: the keys before, then the new keys
    in the order of their first write. *)
Lemma dict_update_keys (writes : list (string * string)) : forall d,
  map fst (dict_update d writes) =
    map fst d +++
    filter (fun k => negb (has_key (map fst d) k)) (first_occurrences (map fst writes)).
Proof.
  induction writes as [|[k x] ws IH]; intros d.
  - simpl. rewrite app_nil_r. reflexivity.
  - cbn [dict_update fold_left fst snd]. fold (dict_update (dict_set d k x) ws).
    rewrite IH, dict_set_keys. cbn [map fst first_occurrences filter].
    destruct (has_key (map fst d) k) eqn:Hk; cbn [negb].
    + f_equal. rewrite filter_filter. apply filter_ext_in. intros k' _.
      destruct (k' =? k) eqn:E; [|reflexivity].
      apply String.eqb_eq in E. subst k'. rewrite Hk. reflexivity.
    + rewrite <- app_assoc. cbn [app]. do 2 f_equal.
      rewrite filter_filter. apply filter_ext. intros k'.
      rewrite has_key_app. destruct (has_key (map fst d) k'), (k' =? k); reflexivity.
Qed.

(** The value of a key after a sequence of writes: the last value written,
    or the value before when the key was not written. *)
Lemma dict_update_get (writes : list (string * string)) (k : string) : forall d,
  dict_get (dict_update d writes) k =
    match last_write k writes with Some y => Some y | None => dict_get d k end.
Proof.
  induction writes as [|[k' x] ws IH]; intros d; [reflexivity|].
  cbn [dict_update fold_left fst snd]. fold (dict_update (dict_set d k' x) ws).
  rewrite IH, dict_get_set. cbn [last_write].
  destruct (last_write k ws); [reflexivity|]. destruct (k' =? k); reflexivity.
Qed.

(** C2, as amended.  For every input parsed by a fresh converter, each key
    written into [worldspawn_properties] is mapped to the value of its last
    write, and the keys stand in the order of their first writes: a later
    write to a key changes its value and leaves its place.  The property
    lines of the output follow the world header in that order. *)
Theorem duplicate_key_keeps_first_position (dt map_content : string) :
  let writes := upserts dt locals0 (Py.split_lines map_content) in
  exists self' stats,
    parse_map_file (init dt) map_content = inr (self', stats) /\
    map fst (worldspawn_properties self') = first_occurrences (map fst writes) /\
    (forall k, dict_get (worldspawn_properties self') k = last_write k writes) /\
    exists solids,
      vmf_lines_of self' =
        world_header +++ map property_line (worldspawn_properties self') +++ solids.
Proof.
  intros writes. rewrite parse_map_file_effect. cbv zeta.
  eexists _, _. split; [reflexivity|].
  unfold converter_after, init.
  cbn [worldspawn_properties default_texture brushes]. fold writes.
  split; [|split].
  - rewrite dict_update_keys. cbn [map app has_key existsb negb].
    clear. induction (first_occurrences (map fst writes)) as [|k l IH];
      simpl; congruence.
  - intros k. rewrite dict_update_get. destruct (last_write k writes); reflexivity.
  - eexists. rewrite vmf_lines_closed.
    cbn [worldspawn_properties brushes]. reflexivity.
Qed.

(** C2, as stated, fails.  The key [a] is written first and last, the key
    [b] in between: were the place of a key the one of its last write, [b]
    would come before [a]; the dictionary and the output have [a], with its
    last value, before [b]. *)
Lemma duplicate_key_last_position_counterexample :
  let lines := [ "{"; quoted "a" ++ " " ++ quoted "1"; quoted "b" ++ " " ++ quoted "2";
                 quoted "a" ++ " " ++ quoted "3" ] in
  exists self' stats,
    parse_map_file (init "dev/tex") (Py.join_lines lines) = inr (self', stats) /\
    upserts "dev/tex" locals0 lines = [("a", "1"); ("b", "2"); ("a", "3")] /\
    last_occurrences (map fst (upserts "dev/tex" locals0 lines)) = ["b"; "a"] /\
    map fst (worldspawn_properties self') = ["a"; "b"] /\
    map fst (worldspawn_properties self')
      <> last_occurrences (map fst (upserts "dev/tex" locals0 lines)) /\
    vmf_lines_of self' =
      [ "world"; "{"; T1 ++ quoted "id" ++ " " ++ quoted "0";
        T1 ++ quoted "a" ++ " " ++ quoted "3"; T1 ++ quoted "b" ++ " " ++ quoted "2"; "}" ].
Proof.
  eexists _, _. split; [vm_compute; reflexivity|].
  repeat split. vm_compute. discriminate.
Qed.

(** ** Faces: where they come from and how they are counted *)

Lemma parsed_from_incl (dt : string) (e1 e2 : list (string * list string)) (f : face) :
  incl e1 e2 -> parsed_from dt e1 f -> parsed_from dt e2 f.
Proof. intros Hi (line & groups & Hin & ->). exists line, groups. auto. Qed.

Lemma current_faces_next (dt : string) (v : locals) (line : string) (f : face) :
  In f (current_faces (next_locals dt v line)) ->
  In f (current_faces v) \/
  exists groups, face_groups v line = Some groups /\ f = face_of_groups dt groups.
Proof.
  unfold current_faces, next_locals. cbn [current_brush].
  destruct (opens_brush v line); [contradiction|].
  destruct (closes_brush v line); [contradiction|].
  destruct (face_groups v line) as [groups|]; [|auto].
  destruct (current_brush v) as [b|]; [|auto].
  cbn [faces]. intros Hin. apply in_app_or in Hin. destruct Hin as [Hin|[<-|[]]].
  - auto.
  - right. exists groups. auto.
Qed.

Lemma closed_now_faces (v : locals) (line : string) (b : brush) (f : face) :
  In b (closed_now v line) -> In f (faces b) -> In f (current_faces v).
Proof.
  unfold closed_now, current_faces. destruct (closes_brush v line); [|contradiction].
  destruct (current_brush v); [|contradiction]. intros [<-|[]]. auto.
Qed.

(** The faces of the brushes closed by a run, and of the brush left open,
    are those of the brush open at the start or come from the face lines
    parsed by the run. *)
Lemma faces_provenance (dt : string) (lines : list string) :
  forall (Q : face -> Prop) v,
    (forall f, In f (current_faces v) -> Q f) ->
    (forall b f, In b (closed dt v lines) -> In f (faces b) ->
       Q f \/ parsed_from dt (face_events dt v lines) f) /\
    (forall f, In f (current_faces (locals_after dt v lines)) ->
       Q f \/ parsed_from dt (face_events dt v lines) f).
Proof.
  induction lines as [|raw rest IH]; intros Q v HQ.
  - split; [intros b f []|]. intros f Hf. left. apply HQ, Hf.
  - cbn [closed face_events locals_after].
    set (line := Py.strip raw). set (v' := next_locals dt v line).
    set (here := match face_groups v line with
                 | Some groups => [(line, groups)]
                 | None => []
                 end).
    assert (Hstep : forall f, In f (current_faces v') -> Q f \/ parsed_from dt here f).
    { intros f Hf. apply current_faces_next in Hf. destruct Hf as [Hf|(g & Hg & ->)].
      - left. apply HQ, Hf.
      - right. exists line, g. subst here. rewrite Hg. split; [left|]; reflexivity. }
    destruct (IH (fun f => Q f \/ parsed_from dt here f) v' Hstep) as [IHc IHo].
    assert (Hmono : forall f,
      (Q f \/ parsed_from dt here f) \/ parsed_from dt (face_events dt v' rest) f ->
      Q f \/ parsed_from dt (here +++ face_events dt v' rest) f).
    { intros f [[H|H]|H]; [left; exact H| |];
        right; eapply parsed_from_incl; try exact H.
      - apply incl_appl, incl_refl.
      - apply incl_appr, incl_refl. }
    split.
    + intros b f Hb Hf. apply in_app_or in Hb. destruct Hb as [Hb|Hb].
      * left. apply HQ. eapply closed_now_faces; eassumption.
      * apply Hmono, (IHc b f Hb Hf).
    + intros f Hf. apply Hmono, IHo, Hf.
Qed.

(** Every parsed face line is a stripped line of the input that starts with
    an opening parenthesis and matches the face pattern with these groups. *)
Lemma face_events_sound (dt : string) (lines : list string) : forall v line groups,
  In (line, groups) (face_events dt v lines) ->
  Re.re_match face_re line = Some groups /\
  exists raw, In raw lines /\ line = Py.strip raw.
Proof.
  induction lines as [|raw rest IH]; intros v line groups Hin; [contradiction|].
  cbn [face_events] in Hin. apply in_app_or in Hin. destruct Hin as [Hin|Hin].
  - unfold face_groups in Hin.
    destruct (inside_brush v && Py.startswith (Py.strip raw) "("); [|contradiction].
    destruct (Re.re_match face_re (Py.strip raw)) as [g|] eqn:Hm; [|contradiction].
    destruct Hin as [Heq|[]]. inversion Heq; subst.
    split; [exact Hm|]. exists raw. split; [left|]; reflexivity.
  - destruct (IH _ _ _ Hin) as (Hm & raw' & Hr & ->).
    split; [exact Hm|]. exists raw'. split; [right; exact Hr | reflexivity].
Qed.

Lemma face_count_after (dt : string) (lines : list string) : forall v,
  face_count (locals_after dt v lines) = face_count v + length (face_events dt v lines).
Proof.
  induction lines as [|raw rest IH]; intros v; cbn [locals_after face_events].
  - simpl. lia.
  - rewrite IH, List.length_app. cbn [next_locals face_count].
    destruct (face_groups v (Py.strip raw)); simpl; lia.
Qed.

Lemma material_replacements_after (dt : string) (lines : list string) : forall v,
  material_replacements (locals_after dt v lines) =
    material_replacements v
    + length (filter (fun e => is_sentinel (snd e)) (face_events dt v lines)).
Proof.
  induction lines as [|raw rest IH]; intros v; cbn [locals_after face_events].
  - simpl. lia.
  - rewrite IH, filter_app, List.length_app. cbn [next_locals material_replacements].
    destruct (face_groups v (Py.strip raw)) as [g|]; cbn [filter snd].
    + destruct (is_sentinel g); simpl; lia.
    + simpl. lia.
Qed.

Lemma stored_material_cases (dt raw : string) :
  (raw = sentinel -> stored_material dt raw = dt) /\
  (raw <> sentinel -> stored_material dt raw = raw).
Proof.
  unfold stored_material. destruct (String.eqb_spec raw sentinel); split; congruence.
Qed.

(** C4.  For every input and every default texture, each parsed face line
    yields a face whose material is the default texture when the material
    token of the line is the sentinel, and the token itself otherwise; the
    faces of the brushes appended by the call are faces of parsed lines; the
    statistic [material_replacements] is the number of parsed face lines
    whose material token is the sentinel, and [faces_processed] the number
    of parsed face lines. *)
Theorem sentinel_material_is_replaced (self : converter) (map_content : string) :
  let dt := default_texture self in
  let lines := Py.split_lines map_content in
  let events := face_events dt locals0 lines in
  exists self' stats,
    parse_map_file self map_content = inr (self', stats) /\
    (forall line groups, In (line, groups) events ->
       Re.re_match face_re line = Some groups /\
       exists f, make_face dt groups = inr f /\
         (raw_material groups = sentinel -> material f = dt) /\
         (raw_material groups <> sentinel -> material f = raw_material groups)) /\
    (exists appended, brushes self' = brushes self +++ appended /\
       forall b f, In b appended -> In f (faces b) ->
         exists line groups, In (line, groups) events /\
           make_face dt groups = inr f) /\
    material_replacements_made stats =
      length (filter (fun e => String.eqb (raw_material (snd e)) sentinel) events) /\
    faces_processed stats = length events.
Proof.
  intros dt lines events. rewrite parse_map_file_effect. cbv zeta.
  eexists _, _. split; [reflexivity|].
  fold dt lines. split; [|split; [|split]].
  - intros line groups Hin.
    destruct (face_events_sound _ _ _ _ _ Hin) as (Hm & _).
    split; [exact Hm|]. exists (face_of_groups dt groups).
    split; [apply (make_face_matched dt line groups Hm)|].
    cbn [face_of_groups material]. apply stored_material_cases.
  - exists (closed dt locals0 lines). split; [reflexivity|].
    intros b f Hb Hf.
    destruct (faces_provenance dt lines (fun _ => False) locals0) as [Hc _].
    { intros f' []. }
    destruct (Hc b f Hb Hf) as [[]|(line & groups & Hin & ->)].
    exists line, groups. split; [exact Hin|].
    destruct (face_events_sound _ _ _ _ _ Hin) as (Hm & _).
    apply (make_face_matched dt line groups Hm).
  - cbn [statistics_of material_replacements_made].
    rewrite material_replacements_after. reflexivity.
  - cbn [statistics_of faces_processed]. rewrite face_count_after. reflexivity.
Qed.

(** ** Pass-through of the fields of a face *)

(** C6, as amended.  For every input parsed by a fresh converter and every
    face of the resulting document, there is an input line that matches the
    face pattern and whose groups give the side block of the face in the
    output: the plane line holds the first three groups, the uaxis and vaxis
    lines the fifth and sixth group, each with leading and trailing
    whitespace removed and otherwise unchanged, and the material line holds
    the fourth group unchanged when it is not the sentinel. *)
Theorem face_fields_pass_through_stripped (dt map_content : string) :
  exists self' stats,
    parse_map_file (init dt) map_content = inr (self', stats) /\
    forall b f, In b (brushes self') -> In f (faces b) ->
      exists raw groups side_id pre post,
        In raw (Py.split_lines map_content) /\
        Re.re_match face_re (Py.strip raw) = Some groups /\
        vmf_lines_of self' = pre +++ side_lines side_id f +++ post /\
        nth 3 (side_lines side_id f) EmptyString =
          T3 ++ quoted "plane" ++ " "
             ++ quoted ("(" ++ Py.strip (group 0 groups) ++ ") ("
                       ++ Py.strip (group 1 groups) ++ ") ("
                       ++ Py.strip (group 2 groups) ++ ")") /\
        (group 3 groups <> sentinel ->
           nth 4 (side_lines side_id f) EmptyString =
             T3 ++ quoted "material" ++ " " ++ quoted (group 3 groups)) /\
        nth 5 (side_lines side_id f) EmptyString =
          T3 ++ quoted "uaxis" ++ " " ++ quoted ("[" ++ Py.strip (group 4 groups) ++ "] 0.25") /\
        nth 6 (side_lines side_id f) EmptyString =
          T3 ++ quoted "vaxis" ++ " " ++ quoted ("[" ++ Py.strip (group 5 groups) ++ "] 0.25").
Proof.
  rewrite parse_map_file_effect. cbv zeta. eexists _, _. split; [reflexivity|].
  intros b f Hb Hf.
  destruct (face_block_in_output _ b f Hb Hf) as (n & pre & post & Hout).
  unfold converter_after, init in Hb. cbn [brushes default_texture app] in Hb.
  destruct (faces_provenance dt (Py.split_lines map_content) (fun _ => False) locals0)
    as [Hc _]; [intros f' []|].
  destruct (Hc b f Hb Hf) as [[]|(line & groups & Hin & ->)].
  destruct (face_events_sound _ _ _ _ _ Hin) as (Hm & raw & Hraw & ->).
  exists raw, groups, n, pre, post.
  split; [exact Hraw|]. split; [exact Hm|]. split; [exact Hout|].
  cbn [side_lines nth face_of_groups p1 p2 p3 material uaxis vaxis].
  repeat split.
  intros Hns. unfold raw_material.
  destruct (stored_material_cases dt (group 3 groups)) as [_ Heq].
  rewrite (Heq Hns). reflexivity.
Qed.

(** C6, as stated, fails.  In this face line the axis groups have blanks
    inside the brackets and the points have a blank before the closing
    parenthesis; the groups captured from the line keep these blanks, the
    strings stored in the face and written to the output do not. *)
Lemma face_fields_verbatim_counterexample :
  let line :=
    "( 0 0 0 ) ( 0 0 1 ) ( 0 1 0 ) tex [ 1 0 0 0 ] [ 0 1 0 0 ] 0 1 1" in
  exists self' stats,
    Re.re_match face_re line =
      Some ["0 0 0 "; "0 0 1 "; "0 1 0 "; "tex"; " 1 0 0 0 "; " 0 1 0 0 ";
            "0"; "1"; "1"] /\
    parse_map_file (init "dev/tex") (Py.join_lines ["// brush"; "{"; line; "}"])
      = inr (self', stats) /\
    brushes self' =
      [mkBrush [mkFace "0 0 0" "0 0 1" "0 1 0" "tex" "1 0 0 0" "0 1 0 0" 0 1 1]] /\
    nth 9 (vmf_lines_of self') EmptyString =
      T3 ++ quoted "plane" ++ " " ++ quoted "(0 0 0) (0 0 1) (0 1 0)" /\
    nth 11 (vmf_lines_of self') EmptyString =
      T3 ++ quoted "uaxis" ++ " " ++ quoted "[1 0 0 0] 0.25" /\
    nth 11 (vmf_lines_of self') EmptyString <>
      T3 ++ quoted "uaxis" ++ " " ++ quoted ("[" ++ " 1 0 0 0 " ++ "] 0.25").
Proof.
  eexists _, _. split; [vm_compute; reflexivity|].
  split; [vm_compute; reflexivity|].
  repeat split. vm_compute. discriminate.
Qed.

(** ** Brushes found and brushes processed *)

Lemma markers_cons (raw : string) (rest : list string) :
  markers (raw :: rest) = (if is_marker (Py.strip raw) then 1 else 0) + markers rest.
Proof. unfold markers. simpl. destruct (is_marker (Py.strip raw)); reflexivity. Qed.

Lemma markers_app (l1 l2 : list string) : markers (l1 +++ l2) = markers l1 + markers l2.
Proof. unfold markers. rewrite filter_app. apply List.length_app. Qed.

Lemma brush_count_after (dt : string) (lines : list string) : forall v,
  brush_count (locals_after dt v lines) = brush_count v + markers lines.
Proof.
  induction lines as [|raw rest IH]; intros v; cbn [locals_after].
  - unfold markers. simpl. lia.
  - rewrite IH, markers_cons. cbn [next_locals brush_count]. lia.
Qed.

(** A closing needs a brush that was opened, an opening needs a pending
    marker, and a marker leaves at most one opening pending. *)
Lemma closing_budget (dt : string) (v : locals) (line : string) :
  (if closes_brush v line then 1 else 0) + waiting (next_locals dt v line)
  <= (if is_marker line then 1 else 0) + waiting v.
Proof.
  destruct v as [iw ib cb bd pb bc fc mr].
  unfold waiting, next_locals, closes_brush, opens_brush, inside_brush, is_marker.
  cbn [in_brush pending_brush brace_depth].
  by_shape line; destruct ib, pb; cbn [andb orb negb]; try lia.
  destruct (bd =? 1)%Z; cbn; lia.
Qed.

Lemma closings_le_markers (dt : string) (lines : list string) : forall v,
  closings dt v lines <= markers lines + waiting v.
Proof.
  induction lines as [|raw rest IH]; intros v; cbn [closings].
  - lia.
  - rewrite markers_cons.
    pose proof (IH (next_locals dt v (Py.strip raw))) as H1.
    pose proof (closing_budget dt v (Py.strip raw)) as H2. lia.
Qed.

Lemma marker_shape (line : string) :
  is_marker line = true ->
  (line =? "{") = false /\ (line =? "}") = false /\
  Py.startswith line (Py.str1 Py.dq) = false /\ Py.startswith line "(" = false.
Proof.
  unfold is_marker. intros H.
  destruct (line_shape_total line); repeat split; congruence.
Qed.

(** While a brush is pending and no line is an opening brace, nothing is
    closed and no face is parsed. *)
Lemma pending_run (dt : string) (mid : list string) : forall v,
  pending_brush v = true ->
  (forall r, In r mid -> (Py.strip r =? "{") = false) ->
  pending_brush (locals_after dt v mid) = true /\
  closed dt v mid = [] /\
  face_events dt v mid = [] /\
  in_brush (locals_after dt v mid) = in_brush v /\
  current_brush (locals_after dt v mid) = current_brush v.
Proof.
  induction mid as [|raw rest IH]; intros v Hp Hno; [auto|].
  cbn [locals_after closed face_events].
  assert (Hl : (Py.strip raw =? "{") = false) by (apply Hno; left; reflexivity).
  set (line := Py.strip raw) in *.
  assert (Hstep : pending_brush (next_locals dt v line) = true /\
                  closed_now v line = [] /\ face_groups v line = None /\
                  in_brush (next_locals dt v line) = in_brush v /\
                  current_brush (next_locals dt v line) = current_brush v).
  { unfold next_locals, closed_now, face_groups, closes_brush, opens_brush,
      inside_brush. cbn [pending_brush in_brush current_brush].
    rewrite Hp, Hl. cbn [negb andb]. rewrite !andb_false_r.
    cbn [andb]. destruct (is_marker line); auto. }
  destruct Hstep as (H1 & H2 & H3 & H4 & H5).
  destruct (IH (next_locals dt v line) H1) as (I1 & I2 & I3 & I4 & I5).
  { intros r Hr. apply Hno. right. exact Hr. }
  rewrite H2, H3, I2, I3, I4, I5. auto.
Qed.

(** C5.  For every input parsed by a fresh converter, [brushes_processed] is
    the number of closing braces that took the depth of a brush, opened by
    an opening brace after a marker, from 1 to 0; [brushes_found] is the
    number of lines that start with the marker; and the first is at most the
    second.  A marker followed by lines none of which is an opening brace or
    a marker adds one to [brushes_found] and nothing to
    [brushes_processed], and leaves the parser waiting for the opening
    brace. *)
Theorem processed_at_most_found (dt map_content : string) :
  let lines := Py.split_lines map_content in
  (exists self' stats,
     parse_map_file (init dt) map_content = inr (self', stats) /\
     brushes_processed stats = closings dt locals0 lines /\
     brushes_found stats = markers lines /\
     brushes_processed stats <= brushes_found stats)
  /\ (forall pre raw mid,
        is_marker (Py.strip raw) = true ->
        (forall r, In r mid ->
           (Py.strip r =? "{") = false /\ is_marker (Py.strip r) = false) ->
        exists s1 v1 s2 v2,
          run_lines (init dt) locals0 pre = inr (s1, v1) /\
          run_lines (init dt) locals0 (pre +++ raw :: mid) = inr (s2, v2) /\
          brushes_found (statistics_of s2 v2) = brushes_found (statistics_of s1 v1) + 1 /\
          brushes_processed (statistics_of s2 v2) = brushes_processed (statistics_of s1 v1) /\
          brushes s2 = brushes s1 /\
          pending_brush v2 = true).
Proof.
  intros lines. split.
  - rewrite parse_map_file_effect. cbv zeta. eexists _, _. split; [reflexivity|].
    fold lines. unfold statistics_of, converter_after, init.
    cbn [brushes_processed brushes_found brushes default_texture app].
    rewrite (closed_length dt lines locals0 brush_ok_locals0), brush_count_after.
    cbn [brush_count locals0 Nat.add]. repeat split.
    pose proof (closings_le_markers dt lines locals0) as H.
    unfold waiting in H. cbn in H. lia.
  - intros pre raw mid Hm Hmid.
    rewrite !run_lines_effect by exact brush_ok_locals0.
    eexists _, _, _, _. split; [reflexivity|]. split; [reflexivity|].
    unfold statistics_of, converter_after, init.
    cbn [brushes_processed brushes_found brushes default_texture app].
    rewrite closed_app, locals_after_app. cbn [closed locals_after].
    set (v1 := locals_after dt locals0 pre).
    set (v1' := next_locals dt v1 (Py.strip raw)).
    assert (Hp : pending_brush v1' = true).
    { unfold v1', next_locals. cbn [pending_brush]. rewrite Hm. reflexivity. }
    destruct (pending_run dt mid v1' Hp) as (P1 & P2 & _).
    { intros r Hr. apply (Hmid r Hr). }
    assert (Hc : closed_now v1 (Py.strip raw) = []).
    { unfold closed_now, closes_brush.
      destruct (marker_shape _ Hm) as (_ & -> & _).
      rewrite andb_false_r. reflexivity. }
    rewrite Hc, P2, app_nil_r, brush_count_after.
    assert (Hz : markers mid = 0).
    { unfold markers. clear - Hmid. induction mid as [|r mid IH]; [reflexivity|].
      simpl. destruct (Hmid r (or_introl eq_refl)) as [_ ->].
      apply IH. intros r' Hr'. apply Hmid. right. exact Hr'. }
    rewrite Hz. unfold v1' at 1. cbn [next_locals brush_count]. rewrite Hm.
    repeat split; try lia. exact P1.
Qed.

(** The theorem at a marker that is followed by a comment line only. *)
Lemma processed_at_most_found_witness :
  exists s1 v1 s2 v2,
    run_lines (init "dev/tex") locals0 ["{"] = inr (s1, v1) /\
    run_lines (init "dev/tex") locals0 (["{"] +++ "// brush 0" :: ["// nothing"])
      = inr (s2, v2) /\
    brushes_found (statistics_of s2 v2) = brushes_found (statistics_of s1 v1) + 1 /\
    brushes_processed (statistics_of s2 v2) = brushes_processed (statistics_of s1 v1) /\
    brushes s2 = brushes s1 /\
    pending_brush v2 = true.
Proof.
  apply (proj2 (processed_at_most_found "dev/tex" EmptyString)
           ["{"] "// brush 0" ["// nothing"]).
  - reflexivity.
  - intros r [<-|[]]. split; reflexivity.
Defined.

(** ** Calling the parser again on the same converter *)

(** C9.  A call of [parse_map_file] on a converter that already holds
    properties and brushes, such as the converter left by an earlier call,
    resets neither: the brushes of the new input are appended after the
    brushes already there, its properties are written into the dictionary
    already there, and [brushes_processed] is the number of brushes of both
    calls together, while the other three statistics are those of the new
    input alone. *)
Theorem second_call_accumulates (self : converter) (first second : string) :
  let dt := default_texture self in
  exists s1 st1 s2 st2 alone st_alone,
    parse_map_file self first = inr (s1, st1) /\
    parse_map_file s1 second = inr (s2, st2) /\
    parse_map_file (init dt) second = inr (alone, st_alone) /\
    brushes s2 = brushes s1 +++ brushes alone /\
    worldspawn_properties s2 =
      dict_update (worldspawn_properties s1)
                  (upserts dt locals0 (Py.split_lines second)) /\
    worldspawn_properties alone =
      dict_update [] (upserts dt locals0 (Py.split_lines second)) /\
    brushes_processed st1 = length (brushes s1) /\
    brushes_processed st2 = brushes_processed st1 + brushes_processed st_alone /\
    brushes_found st2 = brushes_found st_alone /\
    faces_processed st2 = faces_processed st_alone /\
    material_replacements_made st2 = material_replacements_made st_alone.
Proof.
  intros dt.
  eexists _, _, _, _, _, _.
  split; [rewrite parse_map_file_effect; reflexivity|].
  split; [rewrite parse_map_file_effect; reflexivity|].
  split; [rewrite parse_map_file_effect; reflexivity|].
  unfold statistics_of, converter_after, init.
  cbn [brushes worldspawn_properties default_texture brushes_processed
       brushes_found faces_processed material_replacements_made app].
  fold dt. rewrite !List.length_app. repeat split; lia.
Qed.

(** ** A marker inside an open brush *)

(** Once a brush is pending, or at a marker line, the step does not look at
    the open brush: it does the same with the open brush forgotten. *)
Lemma abandon_step (dt : string) (v : locals) (line : string) :
  pending_brush v = true \/ is_marker line = true ->
  closed_now v line = [] /\ closed_now (abandon v) line = [] /\
  upsert_of (abandon v) line = upsert_of v line /\
  face_groups v line = None /\ face_groups (abandon v) line = None /\
  (next_locals dt (abandon v) line = next_locals dt v line \/
   pending_brush (next_locals dt v line) = true /\
   next_locals dt (abandon v) line = abandon (next_locals dt v line)).
Proof.
  destruct v as [iw ib cb bd pb bc fc mr].
  unfold abandon, next_locals, closed_now, face_groups, closes_brush,
    inside_brush, opens_brush, upsert_of, closes_world, opens_world, is_marker.
  cbn [in_worldspawn in_brush current_brush brace_depth pending_brush
       brush_count face_count material_replacements].
  by_shape line; destruct ib, pb; cbn [andb negb orb];
    intros [H|H]; try discriminate H;
    repeat split; rewrite ?andb_false_r;
    first [ reflexivity
          | left; reflexivity
          | right; split; reflexivity
          | destruct iw; cbn [andb negb]; first [left; reflexivity | right; split; reflexivity] ].
Qed.

Lemma abandon_run (dt : string) (lines : list string) : forall v,
  pending_brush v = true ->
  closed dt (abandon v) lines = closed dt v lines /\
  upserts dt (abandon v) lines = upserts dt v lines /\
  face_events dt (abandon v) lines = face_events dt v lines /\
  (locals_after dt (abandon v) lines = locals_after dt v lines \/
   locals_after dt (abandon v) lines = abandon (locals_after dt v lines)).
Proof.
  induction lines as [|raw rest IH]; intros v Hp; [auto|].
  cbn [closed upserts face_events locals_after].
  destruct (abandon_step dt v (Py.strip raw) (or_introl Hp))
    as (H1 & H2 & H3 & H4 & H5 & [H6|[H6 H7]]).
  - rewrite H1, H2, H3, H4, H5, H6. auto.
  - rewrite H1, H2, H3, H4, H5, H7.
    destruct (IH _ H6) as (I1 & I2 & I3 & I4). rewrite I1, I2, I3. auto.
Qed.

Lemma brush_ok_abandon (v : locals) : brush_ok (abandon v).
Proof. intros H. discriminate H. Qed.

(** C10.  Let a marker line come while a brush is open, after any lines
    parsed by a fresh converter.  The marker adds one to [brush_count] and
    sets [pending_brush]; it appends nothing and leaves [face_count], which
    includes the faces of the open brush, as it is.  If the lines after the
    marker up to the next opening brace contain no opening brace, then
    after that brace the current brush is a new brush without faces at depth
    1, nothing has been appended, and [face_count] is still the same.
    Whatever follows the marker, the converter and the statistics at the
    end are those of the same lines parsed with the open brush forgotten at
    the marker: the abandoned brush and its faces are never appended. *)
Theorem marker_abandons_open_brush
    (dt : string) (pre : list string) (raw : string)
    (s1 : converter) (v1 : locals) :
  run_lines (init dt) locals0 pre = inr (s1, v1) ->
  in_brush v1 = true ->
  is_marker (Py.strip raw) = true ->
  (exists v2,
     loop_body s1 v1 raw = inr (s1, v2) /\
     pending_brush v2 = true /\
     brush_count v2 = brush_count v1 + 1 /\
     face_count v2 = face_count v1)
  /\ (forall mid raw_open,
        (forall r, In r mid -> (Py.strip r =? "{") = false) ->
        Py.strip raw_open = "{" ->
        exists s3 v3,
          run_lines s1 v1 (raw :: mid +++ [raw_open]) = inr (s3, v3) /\
          brushes s3 = brushes s1 /\
          current_brush v3 = Some (mkBrush []) /\
          in_brush v3 = true /\ brace_depth v3 = 1%Z /\ pending_brush v3 = false /\
          face_count v3 = face_count v1)
  /\ (forall rest,
        exists s4 v4 v4',
          run_lines s1 v1 (raw :: rest) = inr (s4, v4) /\
          run_lines s1 (abandon v1) (raw :: rest) = inr (s4, v4') /\
          statistics_of s4 v4 = statistics_of s4 v4' /\
          face_count v4 = face_count v1 + length (face_events dt (abandon v1) (raw :: rest))).
Proof.
  intros Hrun Hib Hm.
  rewrite run_lines_effect in Hrun by exact brush_ok_locals0.
  cbn [init default_texture] in Hrun.
  assert (Hok : brush_ok v1).
  { inversion Hrun. apply brush_ok_after, brush_ok_locals0. }
  assert (Hdt : default_texture s1 = dt) by (inversion Hrun; reflexivity).
  clear Hrun.
  set (line := Py.strip raw) in *.
  destruct (abandon_step dt v1 line (or_intror Hm)) as (A1 & A2 & A3 & A4 & A5 & A6).
  assert (Hp : pending_brush (next_locals dt v1 line) = true).
  { unfold next_locals. cbn [pending_brush]. rewrite Hm. reflexivity. }
  assert (Hup : upsert_of v1 line = None).
  { unfold upsert_of. destruct (marker_shape _ Hm) as (_ & _ & -> & _).
    rewrite andb_false_r. reflexivity. }
  assert (Hself : next_converter s1 v1 line = s1).
  { unfold next_converter. rewrite Hup, A1, app_nil_r. destruct s1; reflexivity. }
  split; [|split].
  - exists (next_locals dt v1 line).
    rewrite (loop_body_effect _ _ _ Hok), Hdt. fold line. rewrite Hself.
    split; [reflexivity|]. split; [exact Hp|].
    unfold next_locals. cbn [brush_count face_count]. rewrite Hm, A4. split; lia.
  - intros mid raw_open Hmid Hopen.
    rewrite (run_lines_effect _ _ _ Hok), Hdt.
    eexists _, _. split; [reflexivity|].
    unfold converter_after. rewrite Hdt. cbn [brushes closed locals_after].
    fold line. rewrite closed_app, locals_after_app, A1.
    destruct (pending_run dt mid _ Hp Hmid) as (P1 & P2 & P3 & _).
    pose proof (face_count_after dt mid (next_locals dt v1 line)) as Hfc.
    rewrite P3 in Hfc. cbn [length] in Hfc.
    set (v2 := locals_after dt (next_locals dt v1 line) mid) in *.
    cbn [closed locals_after]. rewrite Hopen, P2.
    assert (Hob : opens_brush v2 "{" = true).
    { unfold opens_brush. rewrite P1. reflexivity. }
    assert (Hcn : closed_now v2 "{" = []).
    { unfold closed_now, closes_brush. cbn. rewrite !andb_false_r. reflexivity. }
    rewrite Hcn, !app_nil_r.
    assert (Hfg : face_groups v2 "{" = None).
    { unfold face_groups. replace (Py.startswith "{" "(") with false by reflexivity.
      rewrite andb_false_r. reflexivity. }
    assert (Hfc1 : face_count (next_locals dt v1 line) = face_count v1).
    { unfold next_locals. cbn [face_count]. rewrite A4. lia. }
    unfold next_locals at 1 2 3 4 5.
    cbn [current_brush in_brush brace_depth pending_brush face_count].
    rewrite Hob, Hfg. replace (is_marker "{") with false by reflexivity.
    repeat split. lia.
  - intros rest.
    rewrite (run_lines_effect _ _ _ Hok).
    rewrite (run_lines_effect _ _ _ (brush_ok_abandon v1)). rewrite Hdt.
    destruct (abandon_run dt rest _ Hp) as (R1 & R2 & R3 & R4).
    assert (Hnext : next_locals dt (abandon v1) line = next_locals dt v1 line \/
                    next_locals dt (abandon v1) line = abandon (next_locals dt v1 line)).
    { destruct A6 as [H|[_ H]]; auto. }
    assert (Hconv : converter_after s1 (abandon v1) (raw :: rest) =
                    converter_after s1 v1 (raw :: rest)).
    { unfold converter_after. rewrite Hdt. cbn [upserts closed]. fold line.
      rewrite A1, A2, A3.
      destruct Hnext as [->| ->]; [reflexivity|]. rewrite R1, R2. reflexivity. }
    rewrite Hconv. eexists _, _, _. split; [reflexivity|]. split; [reflexivity|].
    assert (Hloc : locals_after dt (abandon v1) (raw :: rest) = locals_after dt v1 (raw :: rest) \/
                   locals_after dt (abandon v1) (raw :: rest) = abandon (locals_after dt v1 (raw :: rest))).
    { cbn [locals_after]. fold line. destruct Hnext as [->| ->]; [auto|]. exact R4. }
    split.
    + unfold statistics_of. destruct Hloc as [->| ->]; reflexivity.
    + pose proof (face_count_after dt (raw :: rest) (abandon v1)) as Hfc.
      destruct Hloc as [Hl|Hl]; rewrite Hl in Hfc; exact Hfc.
Qed.

(** The theorem at a brush with one face that is cut short by a second
    marker. *)
Lemma marker_abandons_open_brush_witness :
  let pre := [ "// brush 0"; "{";
               "( 0 0 0 ) ( 0 0 1 ) ( 0 1 0 ) tex [ 1 0 0 0 ] [ 0 1 0 0 ] 0 1 1" ] in
  let s1 := init "dev/tex" in
  let v1 :=
    mkLocals false true
      (Some (mkBrush [mkFace "0 0 0" "0 0 1" "0 1 0" "tex" "1 0 0 0" "0 1 0 0" 0 1 1]))
      1 false 1 1 0 in
  run_lines (init "dev/tex") locals0 pre = inr (s1, v1) /\
  exists s4 v4 v4',
    run_lines s1 v1 ["// brush 1"; "{"; "}"] = inr (s4, v4) /\
    run_lines s1 (abandon v1) ["// brush 1"; "{"; "}"] = inr (s4, v4') /\
    statistics_of s4 v4 = statistics_of s4 v4' /\
    face_count v4 =
      face_count v1
      + length (face_events "dev/tex" (abandon v1) ["// brush 1"; "{"; "}"]).
Proof.
  intros pre s1 v1. split; [reflexivity|].
  exact (proj2 (proj2 (marker_abandons_open_brush "dev/tex" pre "// brush 1" s1 v1
                         eq_refl eq_refl eq_refl)) ["{"; "}"]).
Defined.

(** * Further properties *)

(** ** Stripping *)

Lemma lstrip_app_ws (c : ascii) (s : string) :
  Py.isspace c = true ->
  Py.lstrip (s ++ Py.str1 c) =
    match Py.lstrip s with
    | EmptyString => EmptyString
    | t => t ++ Py.str1 c
    end.
Proof.
  intros Hc. induction s as [|a s IH]; simpl.
  - rewrite Hc. reflexivity.
  - destruct (Py.isspace a); [exact IH | reflexivity].
Qed.

Lemma rstrip_app_ws (c : ascii) (s : string) :
  Py.isspace c = true -> Py.rstrip (s ++ Py.str1 c) = Py.rstrip s.
Proof.
  intros Hc. induction s as [|a s IH]; simpl.
  - rewrite Hc. reflexivity.
  - rewrite IH. reflexivity.
Qed.

Lemma strip_app_ws (c : ascii) (s : string) :
  Py.isspace c = true -> Py.strip (s ++ Py.str1 c) = Py.strip s.
Proof.
  intros Hc. unfold Py.strip. rewrite (lstrip_app_ws c s Hc).
  destruct (Py.lstrip s) as [|a t]; [reflexivity|].
  apply (rstrip_app_ws c (String a t) Hc).
Qed.

Lemma strip_ws_cons (c : ascii) (s : string) :
  Py.isspace c = true -> Py.strip (String c s) = Py.strip s.
Proof. intros Hc. unfold Py.strip. simpl. rewrite Hc. reflexivity. Qed.

Lemma rstrip_nonws (t : string) :
  Py.all_chars Re.nonws t = true -> Py.rstrip t = t.
Proof.
  induction t as [|a t IH]; [reflexivity|]. simpl. intros H.
  apply andb_prop in H. destruct H as [Ha Ht]. rewrite (IH Ht).
  unfold Re.nonws in Ha. apply negb_true_iff in Ha. rewrite Ha.
  destruct t; reflexivity.
Qed.

Lemma rstrip_keeps_end (s t : string) :
  Py.rstrip t = t -> t <> EmptyString -> Py.rstrip (s ++ t) = s ++ t.
Proof.
  intros Ht Hne. induction s as [|a s IH]; simpl; [exact Ht|].
  rewrite IH. destruct (s ++ t) eqn:E; [|reflexivity].
  destruct s; simpl in E; [contradiction | discriminate].
Qed.

Lemma digit_not_space (c : ascii) : Py.isdigit c = true -> Py.isspace c = false.
Proof.
  unfold Py.isdigit, Py.isspace. set (n := nat_of_ascii c). intros H.
  apply andb_prop in H. destruct H as [H1 H2].
  apply Nat.leb_le in H1. apply Nat.leb_le in H2.
  repeat match goal with
  | |- context [(?a <=? ?b)%nat] => destruct (Nat.leb_spec a b)
  | |- context [(?a =? ?b)%nat] => destruct (Nat.eqb_spec a b)
  end; try reflexivity; lia.
Qed.

Lemma all_chars_impl (P R : ascii -> bool) (s : string) :
  (forall c, P c = true -> R c = true) ->
  Py.all_chars P s = true -> Py.all_chars R s = true.
Proof.
  intros HPR. induction s as [|a s IH]; simpl; [reflexivity|].
  intros H. apply andb_prop in H. destruct H as [Ha Hs].
  rewrite (HPR a Ha), (IH Hs). reflexivity.
Qed.

Lemma digits_nonws (s : string) :
  Py.all_chars Py.isdigit s = true -> Py.all_chars Re.nonws s = true.
Proof.
  apply all_chars_impl. intros c Hc. unfold Re.nonws.
  rewrite (digit_not_space c Hc). reflexivity.
Qed.

(** ** Line endings and indentation *)

Lemma loop_body_strip (self : converter) (v : locals) (a b : string) :
  Py.strip a = Py.strip b -> loop_body self v a = loop_body self v b.
Proof.
  intros H. destruct v as [iw ib cb bd pb bc fc mr].
  unfold loop_body. rewrite H. reflexivity.
Qed.

Lemma run_lines_strip (l1 l2 : list string) :
  Forall2 (fun a b => Py.strip a = Py.strip b) l1 l2 ->
  forall self v, run_lines self v l1 = run_lines self v l2.
Proof.
  induction 1 as [|a b l1 l2 Hab _ IH]; intros self v; [reflexivity|].
  cbn [run_lines]. rewrite (loop_body_strip self v a b Hab).
  destruct (loop_body self v b) as [e|[s w]]; [reflexivity|]. apply IH.
Qed.

Lemma same_or_cr_strip (a b : string) : same_or_cr a b -> Py.strip a = Py.strip b.
Proof.
  intros [->| ->]; [reflexivity|]. apply strip_app_ws. reflexivity.
Qed.

Lemma split_lines_nonempty (s : string) : Py.split_lines s <> [].
Proof.
  induction s as [|c s IH]; simpl; [discriminate|].
  destruct (Ascii.eqb c Py.LF); [discriminate|].
  destruct (Py.split_lines s); [contradiction | discriminate].
Qed.

Lemma split_lines_to_crlf (s : string) :
  Forall2 same_or_cr (Py.split_lines (to_crlf s)) (Py.split_lines s).
Proof.
  induction s as [|c s IH]; simpl.
  - constructor; [left; reflexivity | constructor].
  - destruct (Ascii.eqb c Py.LF) eqn:E.
    + cbn [Py.split_lines]. replace (Ascii.eqb CR Py.LF) with false by reflexivity.
      rewrite Ascii.eqb_refl. constructor; [right; reflexivity | exact IH].
    + cbn [Py.split_lines]. rewrite E.
      destruct IH as [|a b l1 l2 Hab Hl].
      * constructor; [left; reflexivity | constructor].
      * constructor; [|exact Hl].
        destruct Hab as [->| ->]; [left | right]; reflexivity.
Qed.

(** X1.  The parser sees every line stripped: two inputs whose lines agree
    after stripping give the same converter and statistics, and so do an
    input and the same input with CR LF line ends. *)
Theorem parse_ignores_indentation_and_crlf (self : converter) :
  (forall l1 l2 v,
     Forall2 (fun a b => Py.strip a = Py.strip b) l1 l2 ->
     run_lines self v l1 = run_lines self v l2)
  /\ (forall map_content,
        parse_map_file self (to_crlf map_content) = parse_map_file self map_content).
Proof.
  split.
  - intros l1 l2 v H. apply run_lines_strip, H.
  - intros c. unfold parse_map_file.
    rewrite (run_lines_strip (Py.split_lines (to_crlf c)) (Py.split_lines c));
      [reflexivity|].
    eapply Forall2_impl; [|apply split_lines_to_crlf].
    intros a b. apply same_or_cr_strip.
Qed.

(** ** Lines the patterns accept *)

(** A greedy repetition that can take all of [t], and after which the rest
    of the pattern succeeds, succeeds with [t]. *)
Lemma rep_max (R : Type) (cls : ascii -> bool) (k : string -> string -> option R)
    (rest : string) (r : R) (t : string) : forall least taken,
  Py.all_chars cls t = true -> stops cls rest = true ->
  least <= String.length t ->
  k (taken ++ t) rest = Some r ->
  Re.rep R cls least k taken (t ++ rest) = Some r.
Proof.
  induction t as [|c t IH]; intros least taken Hall Hstop Hlen Hk.
  - simpl in Hlen. assert (least = 0) by lia. subst least.
    rewrite append_nil_r in Hk. simpl.
    destruct rest as [|c rest]; simpl; [exact Hk|].
    simpl in Hstop. apply negb_true_iff in Hstop. rewrite Hstop. exact Hk.
  - simpl in Hall. apply andb_prop in Hall. destruct Hall as [Hc Ht].
    cbn [append Re.rep]. rewrite Hc.
    rewrite (IH (pred least) (taken ++ Py.str1 c) Ht Hstop).
    + reflexivity.
    + simpl in Hlen. lia.
    + rewrite append_assoc. exact Hk.
Qed.

Lemma match_rep (cls : ascii -> bool) (least : nat) (capture : bool) (r' : Re.re)
    (t rest : string) (groups out : list string) :
  Py.all_chars cls t = true -> stops cls rest = true ->
  least <= String.length t ->
  Re.match_from r' rest (if capture then groups +++ [t] else groups) = Some out ->
  Re.match_from (Re.Rep cls least capture :: r') (t ++ rest) groups = Some out.
Proof.
  intros Hall Hstop Hlen Hk. cbn [Re.match_from].
  apply rep_max; assumption.
Qed.

Lemma match_lit (c : ascii) (r' : Re.re) (s : string) (groups : list string) :
  Re.match_from (Re.Lit c :: r') (String c s) groups = Re.match_from r' s groups.
Proof. cbn [Re.match_from]. rewrite Ascii.eqb_refl. reflexivity. Qed.

Lemma nonempty_cons (s : string) :
  negb (s =? EmptyString) = true -> exists c s', s = String c s'.
Proof. destruct s as [|c s']; [discriminate|]. intros _. exists c, s'. reflexivity. Qed.

(** A quoted key, white space, a quoted value and anything after it match
    the property pattern with the key and the value as groups. *)
Lemma property_re_accepts (k w x rest : string) :
  negb (k =? EmptyString) = true -> no_char Py.dq k = true ->
  negb (w =? EmptyString) = true -> Py.all_chars Re.ws w = true ->
  no_char Py.dq x = true ->
  Re.re_match property_re
    (String Py.dq (k ++ String Py.dq (w ++ String Py.dq (x ++ String Py.dq rest))))
  = Some [k; x].
Proof.
  intros Hk Hkq Hw Hws Hx. unfold Re.re_match, property_re.
  rewrite match_lit. apply match_rep; [exact Hkq | reflexivity | |].
  { destruct k; [discriminate | simpl; lia]. }
  rewrite match_lit. apply match_rep; [exact Hws | reflexivity | |].
  { destruct w; [discriminate | simpl; lia]. }
  rewrite match_lit. apply match_rep; [exact Hx | reflexivity | lia |].
  rewrite match_lit. reflexivity.
Qed.

Lemma first_nonws (s : string) :
  negb (s =? EmptyString) = true -> trimmed s = true -> stops Re.ws s = true.
Proof.
  destruct s as [|c s]; [discriminate|]. intros _ Ht. simpl. unfold Re.ws.
  unfold trimmed in Ht. apply String.eqb_eq in Ht.
  destruct (Py.isspace c) eqn:Hc; [|reflexivity]. exfalso.
  rewrite (strip_ws_cons c s Hc) in Ht.
  assert (Hlen : forall u, String.length (Py.strip u) <= String.length u).
  { intros u. unfold Py.strip.
    assert (Hr : forall z, String.length (Py.rstrip z) <= String.length z).
    { induction z as [|a z IHz]; simpl; [lia|].
      destruct (Py.rstrip z); [destruct (Py.isspace a)|]; simpl in *; lia. }
    assert (Hl : String.length (Py.lstrip u) <= String.length u).
    { induction u as [|a u IHu]; simpl; [lia|].
      destruct (Py.isspace a); simpl; lia. }
    pose proof (Hr (Py.lstrip u)). lia. }
  pose proof (Hlen s) as H. rewrite Ht in H. simpl in H. lia.
Qed.

(** One point of a face line. *)
Lemma match_point (r' : Re.re) (p rest : string) (groups out : list string) :
  wf_point p = true ->
  Re.match_from r' rest (groups +++ [p ++ " "]) = Some out ->
  Re.match_from
    (Re.Lit "(" :: Re.Rep Re.ws 0 false :: Re.Rep (Re.not_char ")") 1 true
       :: Re.Rep Re.ws 0 false :: Re.Lit ")" :: r')
    ("( " ++ p ++ " )" ++ rest) groups = Some out.
Proof.
  unfold wf_point. intros H Hk.
  apply andb_prop in H. destruct H as [H Hplain].
  apply andb_prop in H. destruct H as [H Hno].
  apply andb_prop in H. destruct H as [Hne Htrim].
  change ("( " ++ p ++ " )" ++ rest) with (String "(" (" " ++ (p ++ " )" ++ rest))).
  rewrite match_lit.
  apply match_rep; [reflexivity | | simpl; lia |].
  { pose proof (first_nonws p Hne Htrim) as Hs.
    destruct p; [discriminate | exact Hs]. }
  replace (p ++ " )" ++ rest) with ((p ++ " ") ++ String ")" rest)
    by (rewrite append_assoc; reflexivity).
  apply match_rep.
  - rewrite all_chars_app. unfold no_char in Hno. rewrite Hno. reflexivity.
  - reflexivity.
  - rewrite string_length_app. simpl. lia.
  - apply (match_rep Re.ws 0 false _ EmptyString); [reflexivity | reflexivity | simpl; lia |].
    rewrite match_lit. exact Hk.
Qed.

(** One bracketed axis of a face line, with the white space before it. *)
Lemma match_axis (r' : Re.re) (u rest : string) (groups out : list string) :
  wf_axis u = true ->
  Re.match_from r' rest (groups +++ [" " ++ u ++ " "]) = Some out ->
  Re.match_from
    (Re.Rep Re.ws 1 false :: Re.Lit "[" :: Re.Rep (Re.not_char "]") 1 true
       :: Re.Lit "]" :: r')
    (" [ " ++ u ++ " ]" ++ rest) groups = Some out.
Proof.
  unfold wf_axis. intros H Hk.
  apply andb_prop in H. destruct H as [H _].
  apply andb_prop in H. destruct H as [_ Hno].
  change (" [ " ++ u ++ " ]" ++ rest) with (" " ++ String "[" (" " ++ u ++ " ]" ++ rest)).
  apply match_rep; [reflexivity | reflexivity | simpl; lia |].
  rewrite match_lit.
  replace (" " ++ u ++ " ]" ++ rest) with ((" " ++ u ++ " ") ++ String "]" rest).
  2:{ cbn [append]. f_equal. rewrite append_assoc. reflexivity. }
  apply match_rep.
  - cbn [append Py.all_chars]. rewrite all_chars_app. unfold no_char in Hno.
    rewrite Hno. reflexivity.
  - reflexivity.
  - simpl. lia.
  - rewrite match_lit. exact Hk.
Qed.

(** White space and a token made of characters of a class that excludes
    white space. *)
Lemma match_spaced (cls : ascii -> bool) (r' : Re.re) (m rest : string)
    (groups out : list string) :
  (forall c, cls c = true -> Py.isspace c = false) ->
  negb (m =? EmptyString) = true -> Py.all_chars cls m = true ->
  stops cls rest = true ->
  Re.match_from r' rest (groups +++ [m]) = Some out ->
  Re.match_from (Re.Rep Re.ws 1 false :: Re.Rep cls 1 true :: r')
    (" " ++ m ++ rest) groups = Some out.
Proof.
  intros Hcls Hne Hall Hstop Hk.
  apply match_rep; [reflexivity | | simpl; lia |].
  { destruct m as [|c m]; [discriminate|]. simpl in *.
    apply andb_prop in Hall. destruct Hall as [Hc _].
    unfold Re.ws. rewrite (Hcls c Hc). reflexivity. }
  apply match_rep; [exact Hall | exact Hstop | | exact Hk].
  destruct m; [discriminate | simpl; lia].
Qed.

Lemma wf_digits_inv (d : string) :
  wf_digits d = true ->
  negb (d =? EmptyString) = true /\ Py.all_chars Py.isdigit d = true.
Proof. unfold wf_digits. intros H. apply andb_prop in H. exact H. Qed.

Lemma wf_face_text_inv (f : face_text) :
  wf_face_text f = true ->
  wf_point (t_p1 f) = true /\ wf_point (t_p2 f) = true /\ wf_point (t_p3 f) = true /\
  wf_token (t_material f) = true /\ wf_axis (t_uaxis f) = true /\
  wf_axis (t_vaxis f) = true /\ wf_digits (t_rotation f) = true /\
  wf_digits (t_scale_x f) = true /\ wf_digits (t_scale_y f) = true.
Proof.
  unfold wf_face_text. intros H.
  do 8 (apply andb_prop in H; destruct H as [H ?]). repeat split; assumption.
Qed.

(** A well-formed face line, followed by anything that does not start with
    a digit, matches the face pattern with the groups of [groups_of_text]. *)
Lemma face_re_accepts_tail (f : face_text) (tail : string) :
  wf_face_text f = true -> stops Re.digit tail = true ->
  Re.re_match face_re (face_line f ++ tail) = Some (groups_of_text f).
Proof.
  intros H Htail. apply wf_face_text_inv in H.
  destruct H as (H1 & H2 & H3 & Hm & Hu & Hv & Hr & Hx & Hy).
  destruct f as [a b c m u v r x y]. cbn [t_p1 t_p2 t_p3 t_material t_uaxis
    t_vaxis t_rotation t_scale_x t_scale_y] in *.
  unfold Re.re_match, face_re, face_line, groups_of_text.
  cbn [t_p1 t_p2 t_p3 t_material t_uaxis t_vaxis t_rotation t_scale_x t_scale_y].
  apply wf_digits_inv in Hr, Hx, Hy.
  destruct Hr as [Hr1 Hr2], Hx as [Hx1 Hx2], Hy as [Hy1 Hy2].
  unfold wf_token in Hm. apply andb_prop in Hm. destruct Hm as [Hm1 Hm2].
  rewrite !append_assoc.
  change ("( " ++ a ++ " ) ( " ++ b ++ " ) ( " ++ c ++ " ) " ++ m ++ " [ " ++ u
          ++ " ] [ " ++ v ++ " ] " ++ r ++ " " ++ x ++ " " ++ y ++ tail)
    with ("( " ++ a ++ " )" ++ (" " ++ ("( " ++ b ++ " )" ++ (" " ++ ("( " ++ c
          ++ " )" ++ (" " ++ m ++ (" [ " ++ u ++ " ]" ++ (" [ " ++ v ++ " ]"
          ++ (" " ++ r ++ (" " ++ x ++ (" " ++ y ++ tail))))))))))).
  apply match_point; [exact H1|].
  apply match_rep; [reflexivity | reflexivity | simpl; lia |].
  apply match_point; [exact H2|].
  apply match_rep; [reflexivity | reflexivity | simpl; lia |].
  apply match_point; [exact H3|].
  apply (match_spaced Re.nonws); [ | exact Hm1 | exact Hm2 | reflexivity | ].
  { intros ch Hc. unfold Re.nonws in Hc. apply negb_true_iff in Hc. exact Hc. }
  apply match_axis; [exact Hu|].
  apply match_axis; [exact Hv|].
  apply (match_spaced Re.digit); [exact digit_not_space | exact Hr1 | exact Hr2 | reflexivity |].
  apply (match_spaced Re.digit); [exact digit_not_space | exact Hx1 | exact Hx2 | reflexivity |].
  apply (match_spaced Re.digit); [exact digit_not_space | exact Hy1 | exact Hy2 | exact Htail |].
  reflexivity.
Qed.

(** A well-formed face line matches the face pattern, with the groups of
    [groups_of_text]. *)
Lemma face_re_accepts (f : face_text) :
  wf_face_text f = true ->
  Re.re_match face_re (face_line f) = Some (groups_of_text f).
Proof.
  intros H. rewrite <- (append_nil_r (face_line f)).
  apply face_re_accepts_tail; [exact H | reflexivity].
Qed.

(** ** Well-formed lines, one step each *)

Lemma ends_well_app (s t : string) : ends_well t -> ends_well (s ++ t).
Proof.
  intros [Ht Hne]. split; [apply rstrip_keeps_end; assumption|].
  destruct s; simpl; [exact Hne | discriminate].
Qed.

Lemma ends_well_nonws (t : string) :
  negb (t =? EmptyString) = true -> Py.all_chars Re.nonws t = true -> ends_well t.
Proof.
  intros Hne Hall. split; [apply rstrip_nonws, Hall|].
  destruct t; [discriminate | discriminate].
Qed.

Lemma ends_well_cons (c : ascii) (t : string) : ends_well t -> ends_well (String c t).
Proof. apply (ends_well_app (Py.str1 c)). Qed.

Ltac solve_ends_well :=
  repeat first [ solve [split; [reflexivity | discriminate]]
               | apply ends_well_cons | apply ends_well_app ].

Lemma property_text_shape (kv : string * string) :
  property_text kv =
    String Py.dq (fst kv ++ String Py.dq
      (" " ++ String Py.dq (snd kv ++ String Py.dq EmptyString))).
Proof.
  unfold property_text, quoted. cbn [append Py.str1]. rewrite append_assoc. reflexivity.
Qed.

Lemma strip_kept (c : ascii) (s : string) :
  Py.isspace c = false -> ends_well (String c s) ->
  Py.strip (String c s) = String c s.
Proof.
  intros Hc [Hr _]. unfold Py.strip. cbn [Py.lstrip]. rewrite Hc. exact Hr.
Qed.

Lemma strip_property_text (kv : string * string) :
  Py.strip (property_text kv) = property_text kv.
Proof.
  rewrite property_text_shape. apply strip_kept; [reflexivity|]. solve_ends_well.
Qed.

Lemma strip_face_line (f : face_text) :
  wf_face_text f = true -> Py.strip (face_line f) = face_line f.
Proof.
  intros H. apply wf_face_text_inv in H.
  destruct H as (_ & _ & _ & _ & _ & _ & _ & _ & Hy).
  apply wf_digits_inv in Hy. destruct Hy as [Hy1 Hy2].
  unfold face_line.
  change ("( " ++ t_p1 f ++ " ) ( " ++ t_p2 f ++ " ) ( " ++ t_p3 f ++ " ) "
          ++ t_material f ++ " [ " ++ t_uaxis f ++ " ] [ " ++ t_vaxis f ++ " ] "
          ++ t_rotation f ++ " " ++ t_scale_x f ++ " " ++ t_scale_y f)
    with (String "(" (" " ++ t_p1 f ++ " ) ( " ++ t_p2 f ++ " ) ( " ++ t_p3 f ++ " ) "
          ++ t_material f ++ " [ " ++ t_uaxis f ++ " ] [ " ++ t_vaxis f ++ " ] "
          ++ t_rotation f ++ " " ++ t_scale_x f ++ " " ++ t_scale_y f)).
  apply strip_kept; [reflexivity|]. solve_ends_well.
  apply ends_well_nonws; [exact Hy1 | apply digits_nonws, Hy2].
Qed.

Lemma wf_property_inv (kv : string * string) :
  wf_property kv = true ->
  negb (fst kv =? EmptyString) = true /\ no_char Py.dq (fst kv) = true /\
  plain (fst kv) = true /\ no_char Py.dq (snd kv) = true /\ plain (snd kv) = true.
Proof.
  unfold wf_property. intros H.
  do 4 (apply andb_prop in H; destruct H as [H ?]). repeat split; assumption.
Qed.

(** The step of the loop on a quoted key and value inside the worldspawn
    block. *)
Lemma quoted_line_step
    (self : converter) (v : locals) (raw k w x rest : string) :
  in_worldspawn v = true ->
  Py.strip raw =
    String Py.dq (k ++ String Py.dq (w ++ String Py.dq (x ++ String Py.dq rest))) ->
  negb (k =? EmptyString) = true -> no_char Py.dq k = true ->
  negb (w =? EmptyString) = true -> Py.all_chars Re.ws w = true ->
  no_char Py.dq x = true ->
  loop_body self v raw =
    inr (mkConverter (dict_set (worldspawn_properties self) k x)
                     (brushes self) (default_texture self), v).
Proof.
  intros Hiw Hraw Hk Hkq Hw Hws Hx.
  pose proof (property_re_accepts k w x rest Hk Hkq Hw Hws Hx) as Hm.
  destruct v as [iw ib cb bd pb bc fc mr]. cbn [in_worldspawn] in Hiw. subst iw.
  unfold loop_body. rewrite Hraw.
  set (line := String Py.dq (k ++ String Py.dq (w ++ String Py.dq (x ++ String Py.dq rest)))) in *.
  assert (A : Py.startswith line "// brush" = false) by reflexivity.
  assert (B : (line =? "{") = false) by reflexivity.
  assert (C : (line =? "}") = false) by reflexivity.
  assert (D : Py.startswith line (Py.str1 Py.dq) = true).
  { subst line. destruct k; [discriminate | reflexivity]. }
  rewrite A, B, C, D, Hm. cbn [andb]. reflexivity.
Qed.

(** X2.  Inside the worldspawn block a line that, once stripped, is a quoted
    non-empty key, white space and a quoted value (neither holding a double
    quote), followed by anything, is written into [worldspawn_properties]
    whether or not a brush is open or pending: afterwards the key is mapped
    to the value, every other key is mapped as before, and the brushes and
    all local variables are unchanged. *)
Theorem property_line_is_honoured
    (self : converter) (v : locals) (raw k w x rest : string) :
  in_worldspawn v = true ->
  Py.strip raw =
    String Py.dq (k ++ String Py.dq (w ++ String Py.dq (x ++ String Py.dq rest))) ->
  negb (k =? EmptyString) = true -> no_char Py.dq k = true ->
  negb (w =? EmptyString) = true -> Py.all_chars Re.ws w = true ->
  no_char Py.dq x = true ->
  exists self',
    loop_body self v raw = inr (self', v) /\
    dict_get (worldspawn_properties self') k = Some x /\
    (forall k', k' <> k ->
       dict_get (worldspawn_properties self') k' =
       dict_get (worldspawn_properties self) k') /\
    brushes self' = brushes self /\ default_texture self' = default_texture self.
Proof.
  intros Hiw Hraw Hk Hkq Hw Hws Hx.
  eexists. split; [apply (quoted_line_step self v raw k w x rest); assumption|].
  cbn [worldspawn_properties brushes default_texture].
  split; [|split; [|split; reflexivity]].
  - rewrite dict_get_set, String.eqb_refl. reflexivity.
  - intros k' Hne. rewrite dict_get_set.
    destruct (String.eqb_spec k k') as [->|_]; [contradiction | reflexivity].
Qed.

Lemma strip_app_space (s : string) : Py.strip (s ++ " ") = Py.strip s.
Proof. apply (strip_app_ws " "%char). reflexivity. Qed.

Lemma trimmed_strip (s : string) : trimmed s = true -> Py.strip s = s.
Proof. unfold trimmed. apply String.eqb_eq. Qed.

Lemma face_of_groups_text (dt : string) (f : face_text) :
  wf_face_text f = true ->
  face_of_groups dt (groups_of_text f) = face_of_text dt f.
Proof.
  intros H. apply wf_face_text_inv in H.
  destruct H as (H1 & H2 & H3 & _ & Hu & Hv & _).
  unfold wf_point in H1, H2, H3. unfold wf_axis in Hu, Hv.
  repeat match goal with
  | H : _ && _ = true |- _ => apply andb_prop in H; destruct H
  end.
  unfold face_of_groups, face_of_text, groups_of_text, raw_material, group.
  cbn [nth append].
  rewrite !strip_app_space.
  rewrite !(strip_ws_cons " "%char) by reflexivity.
  rewrite !strip_app_space.
  rewrite !trimmed_strip by assumption. reflexivity.
Qed.

(** A well-formed face line inside an open brush, whatever follows its
    third integer, adds its face to the brush. *)
Lemma step_face_tail (self : converter) (b : brush) (f : face_text)
    (tail raw : string) (iw : bool) (bd : Z) (bc fc mr : nat) :
  wf_face_text f = true -> stops Re.digit tail = true ->
  Py.strip raw = face_line f ++ tail ->
  loop_body self (mkLocals iw true (Some b) bd false bc fc mr) raw =
    inr (self,
         mkLocals iw true
           (Some (mkBrush (faces b +++ [face_of_text (default_texture self) f])))
           bd false bc (fc + 1)
           (mr + (if String.eqb (t_material f) sentinel then 1 else 0))).
Proof.
  intros Hwf Htail Hraw. unfold loop_body. rewrite Hraw.
  rewrite (face_re_accepts_tail f tail Hwf Htail).
  assert (Hs : exists y, face_line f ++ tail = String "(" (String " " y)).
  { eexists. unfold face_line. reflexivity. }
  destruct Hs as [y Hy]. rewrite Hy.
  replace (Py.startswith (String "(" (String " " y)) "// brush") with false by reflexivity.
  replace (String "(" (String " " y) =? "{") with false by reflexivity.
  replace (String "(" (String " " y) =? "}") with false by reflexivity.
  replace (Py.startswith (String "(" (String " " y)) (Py.str1 Py.dq)) with false by reflexivity.
  replace (Py.startswith (String "(" (String " " y)) "(") with true by reflexivity.
  rewrite !andb_false_r. cbn [andb negb].
  rewrite (make_face_matched _ _ _ (face_re_accepts_tail f tail Hwf Htail)).
  rewrite (face_of_groups_text _ f Hwf). cbn [Py.bind groups_of_text].
  destruct (t_material f =? sentinel); rewrite ?Nat.add_0_r; reflexivity.
Qed.

Lemma step_face (self : converter) (b : brush) (f : face_text)
    (iw : bool) (bd : Z) (bc fc mr : nat) :
  wf_face_text f = true ->
  loop_body self (mkLocals iw true (Some b) bd false bc fc mr) (face_line f) =
    inr (self,
         mkLocals iw true
           (Some (mkBrush (faces b +++ [face_of_text (default_texture self) f])))
           bd false bc (fc + 1)
           (mr + (if String.eqb (t_material f) sentinel then 1 else 0))).
Proof.
  intros Hwf. apply (step_face_tail self b f EmptyString); [exact Hwf | reflexivity |].
  rewrite append_nil_r. apply strip_face_line, Hwf.
Qed.

Lemma run_lines_app (l1 l2 : list string) : forall self v self' v',
  run_lines self v l1 = inr (self', v') ->
  run_lines self v (l1 +++ l2) = run_lines self' v' l2.
Proof.
  induction l1 as [|raw l1 IH]; intros self v self' v' H; simpl in *.
  - inversion H. reflexivity.
  - destruct (loop_body self v raw) as [e|[s w]]; simpl in *; [discriminate|].
    apply IH, H.
Qed.

Lemma run_faces (fs : list face_text) : forall self b iw bd bc fc mr,
  forallb wf_face_text fs = true ->
  run_lines self (mkLocals iw true (Some b) bd false bc fc mr) (map face_line fs) =
    inr (self,
         mkLocals iw true
           (Some (mkBrush (faces b +++ map (face_of_text (default_texture self)) fs)))
           bd false bc (fc + length fs) (mr + sentinels fs)).
Proof.
  induction fs as [|f fs IH]; intros self b iw bd bc fc mr Hwf.
  - simpl. rewrite app_nil_r, !Nat.add_0_r. destruct b. reflexivity.
  - cbn [forallb] in Hwf. apply andb_prop in Hwf. destruct Hwf as [Hf Hfs].
    cbn [map run_lines]. rewrite (step_face self b f iw bd bc fc mr Hf).
    cbn [Py.bind fst snd]. rewrite (IH _ _ _ _ _ _ _ Hfs).
    cbn [faces]. rewrite <- app_assoc. cbn [app length].
    unfold sentinels. cbn [filter].
    replace (fc + 1 + length fs) with (fc + S (length fs)) by lia.
    destruct (t_material f =? sentinel); cbn [length].
    + replace (mr + 1 + length (filter (fun f0 => t_material f0 =? sentinel) fs))
        with (mr + S (length (filter (fun f0 => t_material f0 =? sentinel) fs))) by lia.
      reflexivity.
    + rewrite Nat.add_0_r. reflexivity.
Qed.

Lemma run_brush (self : converter) (fs : list face_text)
    (iw : bool) (cb : option brush) (bd : Z) (bc fc mr : nat) :
  forallb wf_face_text fs = true ->
  run_lines self (mkLocals iw false cb bd false bc fc mr) (brush_lines fs) =
    inr (mkConverter (worldspawn_properties self)
                     (brushes self +++ [brush_of_text (default_texture self) fs])
                     (default_texture self),
         mkLocals iw false None 0 false (bc + 1) (fc + length fs) (mr + sentinels fs)).
Proof.
  intros Hwf. unfold brush_lines.
  change ("// brush" :: "{" :: map face_line fs +++ ["}"])
    with (["// brush"; "{"] +++ (map face_line fs +++ ["}"])).
  rewrite (run_lines_app _ _ self _ self
             (mkLocals iw true (Some (mkBrush [])) 1 false (bc + 1) fc mr)).
  2:{ destruct iw; reflexivity. }
  rewrite (run_lines_app _ _ _ _ _ _ (run_faces fs self (mkBrush []) iw 1 (bc + 1) fc mr Hwf)).
  cbn [faces app run_lines]. unfold brush_of_text.
  destruct iw; reflexivity.
Qed.

Lemma sentinels_app (l1 l2 : list face_text) :
  sentinels (l1 +++ l2) = sentinels l1 + sentinels l2.
Proof. unfold sentinels. rewrite filter_app. apply List.length_app. Qed.

Lemma run_brushes (bs : list (list face_text)) : forall self iw bc fc mr,
  forallb (forallb wf_face_text) bs = true ->
  run_lines self (mkLocals iw false None 0 false bc fc mr) (flat_map brush_lines bs) =
    inr (mkConverter (worldspawn_properties self)
                     (brushes self +++ map (brush_of_text (default_texture self)) bs)
                     (default_texture self),
         mkLocals iw false None 0 false (bc + length bs)
                  (fc + length (concat bs)) (mr + sentinels (concat bs))).
Proof.
  induction bs as [|fs bs IH]; intros self iw bc fc mr Hwf.
  - simpl. rewrite app_nil_r, !Nat.add_0_r. destruct self. reflexivity.
  - cbn [forallb] in Hwf. apply andb_prop in Hwf. destruct Hwf as [Hfs Hbs].
    cbn [flat_map].
    rewrite (run_lines_app _ _ _ _ _ _ (run_brush self fs iw None 0 bc fc mr Hfs)).
    rewrite (IH _ _ _ _ _ Hbs).
    cbn [worldspawn_properties brushes default_texture map concat length].
    rewrite <- app_assoc, List.length_app, sentinels_app. cbn [app].
    replace (bc + 1 + length bs) with (bc + S (length bs)) by lia.
    replace (fc + length fs + length (concat bs))
      with (fc + (length fs + length (concat bs))) by lia.
    replace (mr + sentinels fs + sentinels (concat bs))
      with (mr + (sentinels fs + sentinels (concat bs))) by lia.
    reflexivity.
Qed.

Lemma step_property (self : converter) (v : locals) (kv : string * string) :
  in_worldspawn v = true -> wf_property kv = true ->
  loop_body self v (property_text kv) =
    inr (mkConverter (dict_set (worldspawn_properties self) (fst kv) (snd kv))
                     (brushes self) (default_texture self), v).
Proof.
  intros Hiw Hwf. apply wf_property_inv in Hwf.
  destruct Hwf as (Hk & Hkq & _ & Hx & _).
  apply (quoted_line_step self v (property_text kv)
           (fst kv) " " (snd kv) EmptyString); try assumption; try reflexivity.
  rewrite strip_property_text. apply property_text_shape.
Qed.

Lemma run_properties (kvs : list (string * string)) : forall self v,
  in_worldspawn v = true -> forallb wf_property kvs = true ->
  run_lines self v (map property_text kvs) =
    inr (mkConverter (dict_update (worldspawn_properties self) kvs)
                     (brushes self) (default_texture self), v).
Proof.
  induction kvs as [|kv kvs IH]; intros self v Hiw Hwf.
  - destruct self. reflexivity.
  - cbn [forallb] in Hwf. apply andb_prop in Hwf. destruct Hwf as [Hkv Hkvs].
    cbn [map run_lines]. rewrite (step_property self v kv Hiw Hkv).
    cbn [Py.bind fst snd]. rewrite (IH _ _ Hiw Hkvs). reflexivity.
Qed.

Lemma run_entity (self : converter) (e : entity_text) (bc fc mr : nat) :
  wf_entity e = true ->
  run_lines self (mkLocals false false None 0 false bc fc mr) (entity_lines e) =
    inr (mkConverter
           (dict_update (worldspawn_properties self) (e_properties e))
           (brushes self +++ map (brush_of_text (default_texture self)) (e_brushes e))
           (default_texture self),
         mkLocals false false None 0 false (bc + length (e_brushes e))
                  (fc + length (concat (e_brushes e)))
                  (mr + sentinels (concat (e_brushes e)))).
Proof.
  unfold wf_entity. intros Hwf. apply andb_prop in Hwf. destruct Hwf as [Hp Hb].
  unfold entity_lines.
  change ("{" :: map property_text (e_properties e)
          +++ flat_map brush_lines (e_brushes e) +++ ["}"])
    with (["{"] +++ map property_text (e_properties e)
          +++ flat_map brush_lines (e_brushes e) +++ ["}"]).
  rewrite (run_lines_app _ _ self _ self (mkLocals true false None 0 false bc fc mr))
    by reflexivity.
  rewrite (run_lines_app _ _ _ _ _ _
             (run_properties (e_properties e) self
                (mkLocals true false None 0 false bc fc mr) eq_refl Hp)).
  rewrite (run_lines_app _ _ _ _ _ _ (run_brushes (e_brushes e) _ true bc fc mr Hb)).
  reflexivity.
Qed.

Lemma dict_update_app (d : dict) (w1 w2 : list (string * string)) :
  dict_update d (w1 +++ w2) = dict_update (dict_update d w1) w2.
Proof. unfold dict_update. apply fold_left_app. Qed.

Lemma run_map (es : list entity_text) : forall self bc fc mr,
  forallb wf_entity es = true ->
  run_lines self (mkLocals false false None 0 false bc fc mr) (map_lines es) =
    inr (mkConverter
           (dict_update (worldspawn_properties self) (flat_map e_properties es))
           (brushes self +++ map (brush_of_text (default_texture self)) (all_brushes es))
           (default_texture self),
         mkLocals false false None 0 false (bc + length (all_brushes es))
                  (fc + length (all_faces es)) (mr + sentinels (all_faces es))).
Proof.
  unfold map_lines, all_faces, all_brushes.
  induction es as [|e es IH]; intros self bc fc mr Hwf.
  - simpl. rewrite app_nil_r, !Nat.add_0_r. destruct self. reflexivity.
  - cbn [forallb] in Hwf. apply andb_prop in Hwf. destruct Hwf as [He Hes].
    cbn [flat_map].
    rewrite (run_lines_app _ _ _ _ _ _ (run_entity self e bc fc mr He)).
    rewrite (IH _ _ _ _ Hes).
    cbn [worldspawn_properties brushes default_texture].
    rewrite dict_update_app, map_app, <- app_assoc, concat_app.
    rewrite !List.length_app, sentinels_app.
    replace (bc + length (e_brushes e) + length (flat_map e_brushes es))
      with (bc + (length (e_brushes e) + length (flat_map e_brushes es))) by lia.
    replace (fc + length (concat (e_brushes e)) + length (concat (flat_map e_brushes es)))
      with (fc + (length (concat (e_brushes e)) + length (concat (flat_map e_brushes es))))
      by lia.
    replace (mr + sentinels (concat (e_brushes e)) + sentinels (concat (flat_map e_brushes es)))
      with (mr + (sentinels (concat (e_brushes e)) + sentinels (concat (flat_map e_brushes es))))
      by lia.
    reflexivity.
Qed.

(** ** Lines and text *)

Lemma plain_app (a b : string) : plain (a ++ b) = plain a && plain b.
Proof. apply all_chars_app. Qed.

Lemma split_plain (x : string) : plain x = true -> Py.split_lines x = [x].
Proof.
  induction x as [|c x IH]; [reflexivity|]. unfold plain, no_char. cbn [Py.all_chars].
  intros H. apply andb_prop in H. destruct H as [Hc Hx].
  unfold Re.not_char in Hc. apply negb_true_iff in Hc.
  cbn [Py.split_lines]. rewrite Hc, (IH Hx). reflexivity.
Qed.

Lemma split_plain_lf (x rest : string) :
  plain x = true ->
  Py.split_lines (x ++ String Py.LF rest) = x :: Py.split_lines rest.
Proof.
  induction x as [|c x IH].
  - intros _. cbn [append Py.split_lines]. rewrite Ascii.eqb_refl. reflexivity.
  - unfold plain, no_char. cbn [Py.all_chars]. intros H.
    apply andb_prop in H. destruct H as [Hc Hx].
    unfold Re.not_char in Hc. apply negb_true_iff in Hc.
    cbn [append Py.split_lines]. rewrite Hc, (IH Hx). reflexivity.
Qed.

(** Joining lines without line feeds and splitting again gives the lines. *)
Lemma split_join (ls : list string) :
  forallb plain ls = true -> ls <> [] ->
  Py.split_lines (Py.join_lines ls) = ls.
Proof.
  unfold Py.join_lines. induction ls as [|x ls IH]; intros Hp Hne; [contradiction|].
  cbn [forallb] in Hp. apply andb_prop in Hp. destruct Hp as [Hx Hls].
  destruct ls as [|y ls].
  - simpl. apply split_plain, Hx.
  - cbn [String.concat]. cbn [Py.str1 append].
    rewrite (split_plain_lf x _ Hx). f_equal. apply IH; [exact Hls | discriminate].
Qed.

Lemma nonws_plain (s : string) : Py.all_chars Re.nonws s = true -> plain s = true.
Proof.
  apply all_chars_impl. intros c Hc. unfold Re.nonws in Hc. unfold Re.not_char.
  destruct (Ascii.eqb_spec c Py.LF) as [->|]; [discriminate Hc | reflexivity].
Qed.

Lemma plain_property_text (kv : string * string) :
  wf_property kv = true -> plain (property_text kv) = true.
Proof.
  intros H. apply wf_property_inv in H. destruct H as (_ & _ & Hk & _ & Hx).
  unfold property_text, quoted. rewrite !plain_app, Hk, Hx. reflexivity.
Qed.

Lemma plain_face_line (f : face_text) :
  wf_face_text f = true -> plain (face_line f) = true.
Proof.
  intros H. apply wf_face_text_inv in H.
  destruct H as (H1 & H2 & H3 & Hm & Hu & Hv & Hr & Hx & Hy).
  unfold wf_point in H1, H2, H3. unfold wf_axis in Hu, Hv. unfold wf_token in Hm.
  apply wf_digits_inv in Hr, Hx, Hy.
  destruct Hr as [_ Hr], Hx as [_ Hx], Hy as [_ Hy].
  repeat match goal with
  | H : _ && _ = true |- _ => apply andb_prop in H; destruct H
  end.
  unfold face_line. rewrite !plain_app.
  repeat match goal with H : plain _ = true |- _ => rewrite H; clear H end.
  rewrite (nonws_plain (t_material f)) by assumption.
  rewrite !(nonws_plain _ (digits_nonws _ Hr)), !(nonws_plain _ (digits_nonws _ Hx)),
    !(nonws_plain _ (digits_nonws _ Hy)).
  reflexivity.
Qed.

Lemma forallb_app_true {A : Type} (p : A -> bool) (l1 l2 : list A) :
  forallb p l1 = true -> forallb p l2 = true -> forallb p (l1 +++ l2) = true.
Proof. intros H1 H2. rewrite forallb_app, H1, H2. reflexivity. Qed.

Lemma forallb_map_true {A B : Type} (p : B -> bool) (r : A -> bool) (g : A -> B)
    (l : list A) :
  (forall a, r a = true -> p (g a) = true) ->
  forallb r l = true -> forallb p (map g l) = true.
Proof.
  intros Hg. induction l as [|a l IH]; [reflexivity|]. cbn [forallb map].
  intros H. apply andb_prop in H. destruct H as [Ha Hl].
  rewrite (Hg a Ha), (IH Hl). reflexivity.
Qed.

Lemma forallb_flat_map_true {A B : Type} (p : B -> bool) (r : A -> bool)
    (g : A -> list B) (l : list A) :
  (forall a, r a = true -> forallb p (g a) = true) ->
  forallb r l = true -> forallb p (flat_map g l) = true.
Proof.
  intros Hg. induction l as [|a l IH]; [reflexivity|]. cbn [forallb flat_map].
  intros H. apply andb_prop in H. destruct H as [Ha Hl].
  apply forallb_app_true; [apply Hg, Ha | apply IH, Hl].
Qed.

Lemma plain_map_lines (es : list entity_text) :
  forallb wf_entity es = true -> forallb plain (map_lines es) = true.
Proof.
  apply forallb_flat_map_true. intros e He.
  unfold wf_entity in He. apply andb_prop in He. destruct He as [Hp Hb].
  unfold entity_lines. cbn [forallb]. replace (plain "{") with true by reflexivity.
  cbn [andb]. apply forallb_app_true; [|apply forallb_app_true; [|reflexivity]].
  - exact (forallb_map_true _ _ _ _ plain_property_text Hp).
  - refine (forallb_flat_map_true _ _ _ _ _ Hb). intros fs Hfs.
    unfold brush_lines. cbn [forallb].
    replace (plain "// brush") with true by reflexivity.
    replace (plain "{") with true by reflexivity. cbn [andb].
    apply forallb_app_true; [|reflexivity].
    exact (forallb_map_true _ _ _ _ plain_face_line Hfs).
Qed.

(** With the limit on integer strings disabled, a map text made of entities
    in the usual layout (an opening brace, property lines, brushes each
    introduced by a marker and enclosed in braces, a closing brace), with
    well-formed properties and faces, is parsed by a fresh converter into
    exactly these properties, merged over all entities in order, and exactly
    these brushes and faces, with every brush found also processed. *)
Lemma well_formed_map_without_limit (dt : string) (es : list entity_text) :
  forallb wf_entity es = true ->
  parse_map_file (init dt) (Py.join_lines (map_lines es)) =
    inr (document_of_text dt es, statistics_of_text es).
Proof.
  intros Hwf. unfold parse_map_file.
  destruct es as [|e es]; [reflexivity|].
  rewrite split_join.
  - unfold locals0. rewrite (run_map (e :: es) (init dt) 0 0 0 Hwf).
    cbn [Py.bind fst snd]. unfold statistics_of, document_of_text, statistics_of_text, init.
    cbn [worldspawn_properties brushes default_texture brush_count face_count
         material_replacements app Nat.add].
    rewrite List.length_map. reflexivity.
  - apply plain_map_lines, Hwf.
  - unfold map_lines, entity_lines. cbn [flat_map app]. discriminate.
Qed.

(** ** What the parser stores *)

Lemma rstrip_idem (s : string) : Py.rstrip (Py.rstrip s) = Py.rstrip s.
Proof.
  induction s as [|c s IH]; [reflexivity|]. cbn [Py.rstrip].
  destruct (Py.rstrip s) as [|a r] eqn:E.
  - destruct (Py.isspace c) eqn:Hc; [reflexivity|]. simpl. rewrite Hc. reflexivity.
  - cbn [Py.rstrip]. cbn [Py.rstrip] in IH. rewrite IH. reflexivity.
Qed.

Lemma lstrip_head (s : string) :
  Py.lstrip s = EmptyString \/
  exists c t, Py.lstrip s = String c t /\ Py.isspace c = false.
Proof.
  induction s as [|c s IH]; [left; reflexivity|]. simpl.
  destruct (Py.isspace c) eqn:Hc; [exact IH|]. right. exists c, s. auto.
Qed.

Lemma rstrip_head (c : ascii) (t : string) :
  Py.isspace c = false -> exists t', Py.rstrip (String c t) = String c t'.
Proof.
  intros Hc. cbn [Py.rstrip]. destruct (Py.rstrip t).
  - rewrite Hc. exists EmptyString. reflexivity.
  - eexists. reflexivity.
Qed.

(** Stripping twice is stripping once. *)
Lemma strip_idem (s : string) : Py.strip (Py.strip s) = Py.strip s.
Proof.
  unfold Py.strip. destruct (lstrip_head s) as [->|(c & t & -> & Hc)]; [reflexivity|].
  destruct (rstrip_head c t Hc) as [t' Ht]. rewrite Ht.
  cbn [Py.lstrip]. rewrite Hc, <- Ht. apply rstrip_idem.
Qed.

Lemma all_chars_lstrip (P : ascii -> bool) (s : string) :
  Py.all_chars P s = true -> Py.all_chars P (Py.lstrip s) = true.
Proof.
  induction s as [|c s IH]; [reflexivity|]. intros H. cbn [Py.lstrip].
  destruct (Py.isspace c); [|exact H].
  simpl in H. apply andb_prop in H. apply IH, H.
Qed.

Lemma all_chars_rstrip (P : ascii -> bool) (s : string) :
  Py.all_chars P s = true -> Py.all_chars P (Py.rstrip s) = true.
Proof.
  induction s as [|c s IH]; [reflexivity|]. intros H.
  simpl in H. apply andb_prop in H. destruct H as [Hc Hs].
  cbn [Py.rstrip]. specialize (IH Hs). destruct (Py.rstrip s).
  - destruct (Py.isspace c); [reflexivity|]. simpl. rewrite Hc. reflexivity.
  - cbn [Py.all_chars]. cbn [Py.all_chars] in IH. rewrite Hc, IH. reflexivity.
Qed.

Lemma all_chars_strip (P : ascii -> bool) (s : string) :
  Py.all_chars P s = true -> Py.all_chars P (Py.strip s) = true.
Proof. intros H. apply all_chars_rstrip, all_chars_lstrip, H. Qed.

Lemma digits_value_nonneg (s : string) : forall acc,
  (0 <= acc)%Z -> (0 <= Py.digits_value s acc)%Z.
Proof.
  induction s as [|c s IH]; intros acc H; cbn [Py.digits_value]; [exact H|].
  apply IH. lia.
Qed.

(** The classes of the nine groups of the face pattern. *)
Lemma face_re_classes (line : string) (groups : list string) :
  Re.re_match face_re line = Some groups ->
  no_char ")" (group 0 groups) = true /\ no_char ")" (group 1 groups) = true /\
  no_char ")" (group 2 groups) = true /\
  Py.all_chars Re.nonws (group 3 groups) = true /\ group 3 groups <> EmptyString /\
  no_char "]" (group 4 groups) = true /\ no_char "]" (group 5 groups) = true.
Proof.
  intros H. apply re_match_groups in H. simpl in H.
  repeat match goal with
  | H : Forall2 _ (_ :: _) _ |- _ => inversion H; subst; clear H
  | H : Forall2 _ [] _ |- _ => inversion H; subst; clear H
  end.
  unfold group. cbn [nth].
  repeat match goal with H : captured _ _ |- _ => destruct H end.
  cbn [fst snd] in *. unfold no_char. repeat split; try assumption.
  intros ->. match goal with H : 1 <= String.length EmptyString |- _ => simpl in H; lia end.
Qed.

(** X4.  Every face of every brush appended by a call of [parse_map_file]
    has points and axes without white space at either end, points without
    a closing parenthesis, axes without a closing bracket, a material that
    is the default texture or else a non-empty token without white space
    other than the sentinel, and a rotation and scales that are not
    negative. *)
Theorem stored_faces_are_clean (self : converter) (map_content : string) :
  exists self' stats appended,
    parse_map_file self map_content = inr (self', stats) /\
    brushes self' = brushes self +++ appended /\
    forall b f, In b appended -> In f (faces b) ->
      (Py.strip (p1 f) = p1 f /\ Py.strip (p2 f) = p2 f /\ Py.strip (p3 f) = p3 f /\
       Py.strip (uaxis f) = uaxis f /\ Py.strip (vaxis f) = vaxis f) /\
      (no_char ")" (p1 f) = true /\ no_char ")" (p2 f) = true /\
       no_char ")" (p3 f) = true /\
       no_char "]" (uaxis f) = true /\ no_char "]" (vaxis f) = true) /\
      (material f = default_texture self \/
       material f <> EmptyString /\ material f <> sentinel /\
       Py.all_chars Re.nonws (material f) = true) /\
      (0 <= rotation f /\ 0 <= scale_x f /\ 0 <= scale_y f)%Z.
Proof.
  rewrite parse_map_file_effect. cbv zeta. eexists _, _, _.
  split; [reflexivity|]. split; [reflexivity|].
  intros b f Hb Hf.
  destruct (faces_provenance (default_texture self) (Py.split_lines map_content)
              (fun _ => False) locals0) as [Hc _]; [intros f' []|].
  destruct (Hc b f Hb Hf) as [[]|(line & groups & Hin & ->)].
  destruct (face_events_sound _ _ _ _ _ Hin) as (Hm & _).
  destruct (face_re_classes _ _ Hm) as (C1 & C2 & C3 & C4 & C5 & C6 & C7).
  cbn [face_of_groups p1 p2 p3 uaxis vaxis material rotation scale_x scale_y].
  split; [|split; [|split]].
  - rewrite !strip_idem. repeat split.
  - unfold no_char in *. repeat split; apply all_chars_strip; assumption.
  - unfold stored_material, raw_material.
    destruct (String.eqb_spec (group 3 groups) sentinel) as [E|E]; [left; reflexivity|].
    right. auto.
  - repeat split; apply digits_value_nonneg; lia.
Qed.

Lemma property_re_classes (line k x : string) :
  Re.re_match property_re line = Some [k; x] ->
  k <> EmptyString /\ no_char Py.dq k = true /\ no_char Py.dq x = true.
Proof.
  intros H. apply re_match_groups in H. simpl in H.
  inversion H as [|? ? ? ? Hk H1]; subst. inversion H1 as [|? ? ? ? Hx _]; subst.
  destruct Hk as [Hk1 Hk2], Hx as [Hx1 _]. cbn [fst snd] in *.
  repeat split; try assumption. intros ->. simpl in Hk2. lia.
Qed.

Lemma upserts_sound (dt : string) (lines : list string) : forall v k x,
  In (k, x) (upserts dt v lines) ->
  exists raw, In raw lines /\ Re.re_match property_re (Py.strip raw) = Some [k; x].
Proof.
  induction lines as [|raw rest IH]; intros v k x Hin; [contradiction|].
  cbn [upserts] in Hin. apply in_app_or in Hin. destruct Hin as [Hin|Hin].
  - unfold upsert_of in Hin. exists raw. split; [left; reflexivity|].
    destruct (in_worldspawn v && Py.startswith (Py.strip raw) (Py.str1 Py.dq));
      [|contradiction].
    destruct (Re.re_match property_re (Py.strip raw)) as [g|]; [|contradiction].
    destruct g as [|a [|b [|c g]]]; try contradiction.
    destruct Hin as [Heq|[]]. inversion Heq. reflexivity.
  - destruct (IH _ _ _ Hin) as (raw' & Hr & Hm). exists raw'. split; [right|]; assumption.
Qed.

Lemma dict_set_in (d : dict) (k x : string) (kv : string * string) :
  In kv (dict_set d k x) -> In kv d \/ kv = (k, x).
Proof.
  induction d as [|[k' x'] d IH]; simpl.
  - intros [<-|[]]. right. reflexivity.
  - destruct (String.eqb_spec k' k) as [->|Hne]; simpl.
    + intros [<-|H]; [right; reflexivity | left; right; exact H].
    + intros [<-|H]; [left; left; reflexivity|].
      destruct (IH H) as [H'|H']; [left; right; exact H' | right; exact H'].
Qed.

Lemma dict_update_in (writes : list (string * string)) : forall d kv,
  In kv (dict_update d writes) -> In kv d \/ In kv writes.
Proof.
  induction writes as [|[k x] ws IH]; intros d kv H; [left; exact H|].
  cbn [dict_update fold_left fst snd] in H. fold (dict_update (dict_set d k x) ws) in H.
  destruct (IH _ _ H) as [H'|H']; [|right; right; exact H'].
  destruct (dict_set_in _ _ _ _ H') as [H''| ->]; [left; exact H'' | right; left; reflexivity].
Qed.

Lemma has_key_false (d : list string) (k : string) :
  has_key d k = false -> ~ In k d.
Proof.
  unfold has_key. intros H Hin.
  assert (existsb (String.eqb k) d = true) as E.
  { apply existsb_exists. exists k. split; [exact Hin | apply String.eqb_refl]. }
  congruence.
Qed.

Lemma dict_set_nodup (d : dict) (k x : string) :
  NoDup (map fst d) -> NoDup (map fst (dict_set d k x)).
Proof.
  intros H. rewrite dict_set_keys. destruct (has_key (map fst d) k) eqn:E; [exact H|].
  apply NoDup_app; [exact H | constructor; [intros [] | constructor] |].
  intros a Ha [<-|[]]. exact (has_key_false _ _ E Ha).
Qed.

Lemma dict_update_nodup (writes : list (string * string)) : forall d,
  NoDup (map fst d) -> NoDup (map fst (dict_update d writes)).
Proof.
  induction writes as [|[k x] ws IH]; intros d H; [exact H|].
  cbn [dict_update fold_left fst snd]. fold (dict_update (dict_set d k x) ws).
  apply IH, dict_set_nodup, H.
Qed.

Lemma dict_get_in (d : dict) (k x : string) :
  NoDup (map fst d) -> In (k, x) d -> dict_get d k = Some x.
Proof.
  induction d as [|[k' x'] d IH]; intros Hnd Hin; [contradiction|].
  cbn [map fst] in Hnd. inversion Hnd as [|? ? Hnotin Hnd']; subst.
  cbn [dict_get]. destruct Hin as [Heq|Hin].
  - inversion Heq; subst. rewrite String.eqb_refl. reflexivity.
  - destruct (String.eqb_spec k' k) as [->|_]; [|apply IH; assumption].
    exfalso. apply Hnotin. apply (in_map fst) in Hin. exact Hin.
Qed.

(** X5.  After a fresh converter has parsed any input, no key occurs twice
    in [worldspawn_properties]; every key is non-empty, keys and values hold
    no double quote, every entry was written by an input line that matches
    the property pattern, and looking a key up gives the value of its
    entry. *)
Theorem properties_are_well_formed (dt map_content : string) :
  exists self' stats,
    parse_map_file (init dt) map_content = inr (self', stats) /\
    NoDup (map fst (worldspawn_properties self')) /\
    forall k x, In (k, x) (worldspawn_properties self') ->
      k <> EmptyString /\ no_char Py.dq k = true /\ no_char Py.dq x = true /\
      dict_get (worldspawn_properties self') k = Some x /\
      exists raw, In raw (Py.split_lines map_content) /\
        Re.re_match property_re (Py.strip raw) = Some [k; x].
Proof.
  rewrite parse_map_file_effect. cbv zeta. eexists _, _. split; [reflexivity|].
  unfold converter_after, init. cbn [worldspawn_properties default_texture].
  assert (Hnd : NoDup (map fst (dict_update []
                  (upserts dt locals0 (Py.split_lines map_content))))).
  { apply dict_update_nodup. constructor. }
  split; [exact Hnd|]. intros k x Hin.
  pose proof (dict_get_in _ _ _ Hnd Hin) as Hget.
  apply dict_update_in in Hin. destruct Hin as [[]|Hin].
  destruct (upserts_sound _ _ _ _ _ Hin) as (raw & Hraw & Hm).
  destruct (property_re_classes _ _ _ Hm) as (H1 & H2 & H3).
  repeat split; try assumption. exists raw. auto.
Qed.

(** ** The text of the output *)

Lemma match_from_chars (P : ascii -> bool) (r : Re.re) : forall s groups out,
  Py.all_chars P s = true ->
  Forall (fun g => Py.all_chars P g = true) groups ->
  Re.match_from r s groups = Some out ->
  Forall (fun g => Py.all_chars P g = true) out.
Proof.
  induction r as [|it r IH]; intros s groups out Hs Hg H; simpl in H.
  - inversion H; subst. exact Hg.
  - destruct it as [c|cls least capture].
    + destruct s as [|c' s']; [discriminate|].
      destruct (Ascii.eqb c c'); [|discriminate].
      simpl in Hs. apply andb_prop in Hs. apply (IH _ _ _ (proj2 Hs) Hg H).
    + apply rep_inv in H. destruct H as (t & rest & -> & _ & _ & Hk).
      rewrite all_chars_app in Hs. apply andb_prop in Hs. destruct Hs as [Ht Hrest].
      simpl in Hk. apply (IH _ _ _ Hrest) in Hk; [exact Hk|].
      destruct capture; [|exact Hg].
      apply Forall_app. split; [exact Hg | constructor; [exact Ht | constructor]].
Qed.

Lemma re_match_plain (r : Re.re) (line : string) (groups : list string) (n : nat) :
  plain line = true -> Re.re_match r line = Some groups -> plain (group n groups) = true.
Proof.
  intros Hp Hm. apply (match_from_chars _ _ _ _ _ Hp (Forall_nil _)) in Hm.
  unfold group. destruct (nth_in_or_default n groups EmptyString) as [Hin| ->];
    [|reflexivity].
  rewrite Forall_forall in Hm. apply Hm, Hin.
Qed.

Lemma split_lines_plain (s : string) :
  Forall (fun l => plain l = true) (Py.split_lines s).
Proof.
  induction s as [|c s IH]; simpl.
  - constructor; [reflexivity | constructor].
  - destruct (Ascii.eqb c Py.LF) eqn:E; [constructor; [reflexivity | exact IH]|].
    destruct (Py.split_lines s) as [|l ls]; [constructor; [|constructor]|].
    + unfold plain, no_char, Re.not_char. simpl. rewrite E. reflexivity.
    + inversion IH; subst. constructor; [|assumption].
      unfold plain, no_char, Re.not_char in *. simpl. rewrite E. assumption.
Qed.

Lemma plain_strip (s : string) : plain s = true -> plain (Py.strip s) = true.
Proof. apply all_chars_strip. Qed.

Lemma string_of_uint_digits (d : Decimal.uint) :
  Py.all_chars Py.isdigit (NilEmpty.string_of_uint d) = true.
Proof. induction d; simpl; auto. Qed.

Lemma plain_str_of_nat (n : nat) : plain (Py.str_of_nat n) = true.
Proof. apply nonws_plain, digits_nonws, string_of_uint_digits. Qed.

Lemma plain_side_lines (n : nat) (f : face) :
  plain_face f = true -> forallb plain (side_lines n f) = true.
Proof.
  unfold plain_face. intros H.
  repeat (apply andb_prop in H; destruct H as [H ?]).
  unfold side_lines, quoted. cbn [forallb].
  rewrite !plain_app, plain_str_of_nat.
  repeat match goal with Hp : plain _ = true |- _ => rewrite Hp; clear Hp end.
  reflexivity.
Qed.

Lemma forallb_flat_map_numbered {A B : Type} (p : B -> bool) (F : nat * A -> list B)
    (l : list A) :
  (forall i x, In x l -> forallb p (F (i, x)) = true) ->
  forall start, forallb p (flat_map F (numbered start l)) = true.
Proof.
  induction l as [|x l IH]; intros HF start; [reflexivity|].
  rewrite numbered_cons. cbn [flat_map]. apply forallb_app_true.
  - apply HF. left. reflexivity.
  - apply IH. intros i y Hy. apply HF. right. exact Hy.
Qed.

Lemma plain_vmf_lines (self : converter) :
  plain_converter self = true -> forallb plain (vmf_lines_of self) = true.
Proof.
  unfold plain_converter. intros H. apply andb_prop in H. destruct H as [Hp Hb].
  rewrite vmf_lines_closed.
  apply forallb_app_true; [reflexivity|].
  apply forallb_app_true; [|apply forallb_app_true; [|reflexivity]].
  - refine (forallb_map_true _ _ _ _ _ Hp). intros kv Hkv.
    apply andb_prop in Hkv. destruct Hkv as [Hk Hx].
    unfold property_line, quoted. rewrite !plain_app, Hk, Hx. reflexivity.
  - unfold solid_blocks. apply forallb_flat_map_numbered. intros i b Hin.
    rewrite forallb_forall in Hb. specialize (Hb b Hin).
    cbn [fst snd]. unfold solid_block. cbn [forallb app].
    unfold quoted at 1 2. rewrite !plain_app, plain_str_of_nat. cbn [andb].
    replace (plain (T1 ++ "solid")) with true by reflexivity.
    replace (plain (T1 ++ "{")) with true by reflexivity. cbn [andb].
    apply forallb_app_true; [|reflexivity].
    apply forallb_flat_map_numbered. intros j f Hf. cbn [fst snd].
    apply plain_side_lines. rewrite forallb_forall in Hb. apply Hb, Hf.
Qed.

Lemma length_sides (fs : list face) : forall start,
  length (flat_map (fun nf => side_lines (fst nf) (snd nf)) (numbered start fs))
  = 9 * length fs.
Proof.
  induction fs as [|f fs IH]; intros start; [reflexivity|].
  rewrite numbered_cons. cbn [flat_map fst snd]. rewrite List.length_app, IH.
  cbn [length side_lines]. lia.
Qed.

Lemma length_solids (F : nat -> nat) (G : nat -> nat) (bs : list brush) : forall start,
  length (flat_map (fun ib => solid_block (F (fst ib)) (G (fst ib)) (snd ib))
                   (numbered start bs))
  = 4 * length bs + 9 * length (flat_map faces bs).
Proof.
  induction bs as [|b bs IH]; intros start; [reflexivity|].
  rewrite numbered_cons. cbn [flat_map fst snd]. rewrite !List.length_app, IH.
  unfold solid_block. rewrite !List.length_app, length_sides. cbn [length]. lia.
Qed.

Lemma vmf_lines_length (self : converter) :
  length (vmf_lines_of self) =
    4 + length (worldspawn_properties self) + 4 * length (brushes self)
    + 9 * length (flat_map faces (brushes self)).
Proof.
  rewrite vmf_lines_closed. unfold solid_blocks.
  rewrite !List.length_app, List.length_map.
  rewrite (length_solids (fun i => 1 + i) (fun i => 2 + faces_before i (brushes self))).
  cbn [length world_header]. lia.
Qed.

Lemma parsed_converter_plain (dt map_content : string) :
  plain dt = true ->
  plain_converter (converter_after (init dt) locals0 (Py.split_lines map_content)) = true.
Proof.
  intros Hdt. unfold plain_converter, converter_after, init.
  cbn [worldspawn_properties brushes default_texture app].
  pose proof (split_lines_plain map_content) as Hlines. rewrite Forall_forall in Hlines.
  apply andb_true_intro. split.
  - apply forallb_forall. intros [k x] Hin. cbn [fst snd].
    apply dict_update_in in Hin. destruct Hin as [[]|Hin].
    destruct (upserts_sound _ _ _ _ _ Hin) as (raw & Hraw & Hm).
    pose proof (plain_strip _ (Hlines raw Hraw)) as Hp.
    rewrite (re_match_plain _ _ _ 0 Hp Hm : plain k = true).
    rewrite (re_match_plain _ _ _ 1 Hp Hm : plain x = true). reflexivity.
  - apply forallb_forall. intros b Hb. apply forallb_forall. intros f Hf.
    destruct (faces_provenance dt (Py.split_lines map_content) (fun _ => False) locals0)
      as [Hc _]; [intros f' []|].
    destruct (Hc b f Hb Hf) as [[]|(line & groups & Hin & ->)].
    destruct (face_events_sound _ _ _ _ _ Hin) as (Hm & raw & Hraw & ->).
    pose proof (plain_strip _ (Hlines raw Hraw)) as Hp.
    unfold plain_face, face_of_groups, stored_material, raw_material.
    cbn [p1 p2 p3 material uaxis vaxis].
    rewrite !plain_strip by (apply (re_match_plain _ _ _ _ Hp Hm)).
    destruct (group 3 groups =? sentinel);
      [rewrite Hdt | rewrite (re_match_plain _ _ _ 3 Hp Hm)]; reflexivity.
Qed.

(** X6.  When the default texture holds no line feed, the text produced
    from any parsed input splits at its line feeds into exactly the lines
    the serializer emitted: no string taken from the input can break a
    line.  Their number is 4, plus one per property, plus 4 per brush, plus
    9 per face. *)
Theorem output_text_has_the_emitted_lines (dt map_content : string) :
  plain dt = true ->
  exists self' stats,
    parse_map_file (init dt) map_content = inr (self', stats) /\
    Py.split_lines (generate_vmf self') = vmf_lines_of self' /\
    length (vmf_lines_of self') =
      4 + length (worldspawn_properties self') + 4 * length (brushes self')
      + 9 * length (flat_map faces (brushes self')).
Proof.
  intros Hdt. rewrite parse_map_file_effect. cbv zeta. eexists _, _.
  split; [reflexivity|]. split; [|apply vmf_lines_length].
  unfold generate_vmf. apply split_join.
  - apply plain_vmf_lines, parsed_converter_plain, Hdt.
  - rewrite vmf_lines_closed. discriminate.
Qed.

(** ** Nesting of the output *)

Lemma brace_of_other (l t : string) (c : ascii) :
  Py.lstrip l = String c t -> Py.isspace c = false ->
  Ascii.eqb c "{" = false -> Ascii.eqb c "}" = false -> brace_of l = 0%Z.
Proof.
  intros Hl Hc H1 H2. unfold brace_of, Py.strip. rewrite Hl.
  destruct (rstrip_head c t Hc) as [t' ->]. cbn [String.eqb]. rewrite H1, H2. reflexivity.
Qed.

Lemma nesting_cons (d z : Z) (l : string) (rest : list string) :
  brace_of l = z -> (0 <= d + z)%Z -> nesting d (l :: rest) = nesting (d + z) rest.
Proof.
  intros Hb Hd. cbn [nesting]. rewrite Hb.
  destruct (Z.ltb_spec (d + z) 0); [lia | reflexivity].
Qed.

Lemma nesting_app (l1 l2 : list string) : forall d d',
  nesting d l1 = Some d' -> nesting d (l1 +++ l2) = nesting d' l2.
Proof.
  induction l1 as [|l l1 IH]; intros d d' H; simpl in *.
  - inversion H. reflexivity.
  - destruct (d + brace_of l <? 0)%Z; [discriminate|]. apply IH, H.
Qed.

Ltac field_line :=
  eapply brace_of_other; [unfold quoted; cbn; reflexivity | reflexivity ..].

Lemma nesting_side (n : nat) (f : face) (d : Z) :
  (0 <= d)%Z -> nesting d (side_lines n f) = Some d.
Proof.
  intros Hd. unfold side_lines.
  rewrite (nesting_cons d 0) by (first [reflexivity | lia]).
  rewrite (nesting_cons (d + 0) 1) by (first [reflexivity | lia]).
  do 6 (rewrite (nesting_cons _ 0) by (first [field_line | lia])).
  rewrite (nesting_cons _ (-1)) by (first [reflexivity | lia]).
  cbn [nesting]. f_equal. lia.
Qed.

Lemma nesting_sides (fs : list face) (d : Z) : forall start,
  (0 <= d)%Z ->
  nesting d (flat_map (fun nf => side_lines (fst nf) (snd nf)) (numbered start fs))
  = Some d.
Proof.
  induction fs as [|f fs IH]; intros start Hd; [reflexivity|].
  rewrite numbered_cons. cbn [flat_map fst snd].
  rewrite (nesting_app _ _ d d (nesting_side _ _ d Hd)). apply IH, Hd.
Qed.

Lemma nesting_solid (sid first : nat) (b : brush) (d : Z) :
  (0 <= d)%Z -> nesting d (solid_block sid first b) = Some d.
Proof.
  intros Hd. unfold solid_block. cbn [app].
  rewrite (nesting_cons d 0) by (first [reflexivity | lia]).
  rewrite (nesting_cons _ 1) by (first [reflexivity | lia]).
  rewrite (nesting_cons _ 0) by (first [field_line | lia]).
  assert (Hd' : (0 <= d + 0 + 1 + 0)%Z) by lia.
  rewrite (nesting_app _ _ _ _ (nesting_sides (faces b) (d + 0 + 1 + 0) first Hd')).
  rewrite (nesting_cons _ (-1)) by (first [reflexivity | lia]).
  cbn [nesting]. f_equal. lia.
Qed.

Lemma nesting_solids (F G : nat -> nat) (bs : list brush) (d : Z) : forall start,
  (0 <= d)%Z ->
  nesting d (flat_map (fun ib => solid_block (F (fst ib)) (G (fst ib)) (snd ib))
                      (numbered start bs)) = Some d.
Proof.
  induction bs as [|b bs IH]; intros start Hd; [reflexivity|].
  rewrite numbered_cons. cbn [flat_map fst snd].
  rewrite (nesting_app _ _ d d (nesting_solid _ _ _ d Hd)). apply IH, Hd.
Qed.

Lemma nesting_properties (d : dict) (z : Z) :
  (0 <= z)%Z -> nesting z (map property_line d) = Some z.
Proof.
  intros Hz. induction d as [|kv d IH]; [reflexivity|]. cbn [map].
  rewrite (nesting_cons z 0).
  - rewrite Z.add_0_r. exact IH.
  - unfold property_line. field_line.
  - lia.
Qed.

(** In the list of lines the serializer emits, before they are joined, the
    braces are well nested for every document. *)
Lemma vmf_lines_well_nested (self : converter) :
  nesting 0 (vmf_lines_of self) = Some 0%Z.
Proof.
  rewrite vmf_lines_closed. unfold world_header. cbn [app].
  rewrite (nesting_cons 0 0) by (first [reflexivity | lia]).
  rewrite (nesting_cons _ 1) by (first [reflexivity | lia]).
  rewrite (nesting_cons _ 0) by (first [reflexivity | lia]).
  change (0 + 0 + 1 + 0)%Z with 1%Z.
  assert (H1 : (0 <= 1)%Z) by lia.
  rewrite (nesting_app _ _ _ _ (nesting_properties (worldspawn_properties self) 1 H1)).
  unfold solid_blocks.
  rewrite (nesting_app _ _ _ _
             (nesting_solids (fun i => 1 + i)
                (fun i => 2 + faces_before i (brushes self)) (brushes self) 1 0 H1)).
  reflexivity.
Qed.

(** X7.  For every document whose keys, values and face strings hold no
    line feed, the braces of the text returned by [generate_vmf] are well
    nested: splitting the text at its line feeds and counting a line that is
    an opening brace as +1 and a line that is a closing brace as -1, the
    depth never drops below zero and is zero at the end. *)
Theorem output_is_well_nested (self : converter) :
  plain_converter self = true ->
  nesting 0 (Py.split_lines (generate_vmf self)) = Some 0%Z.
Proof.
  intros Hp. unfold generate_vmf. rewrite split_join.
  - apply vmf_lines_well_nested.
  - apply plain_vmf_lines, Hp.
  - rewrite vmf_lines_closed. discriminate.
Qed.

(** A document with a property whose value is a closing brace and a brush
    whose face has closing braces in its strings. *)
Lemma output_is_well_nested_witness :
  let self := mkConverter [("}", "}")]
                [mkBrush [mkFace "}" "{" "}" "}" "}" "}" 0 1 1]] "}" in
  nesting 0 (Py.split_lines (generate_vmf self)) = Some 0%Z.
Proof.
  intros self. exact (output_is_well_nested self eq_refl).
Defined.

(** The documents the parser builds with a default texture free of line
    feeds meet the condition: their output text is well nested. *)
Lemma parsed_output_well_nested (dt map_content : string) :
  plain dt = true ->
  nesting 0 (Py.split_lines (generate_vmf
    (converter_after (init dt) locals0 (Py.split_lines map_content)))) = Some 0%Z.
Proof.
  intros Hdt. unfold generate_vmf. rewrite split_join.
  - apply vmf_lines_well_nested.
  - apply plain_vmf_lines, parsed_converter_plain, Hdt.
  - rewrite vmf_lines_closed. discriminate.
Qed.

(** Without the condition the nesting can fail: a value that holds a line
    feed followed by closing braces puts lone closing braces into the text,
    though not into the list of lines. *)
Example nesting_needs_plain_strings :
  let self := mkConverter [("k", String Py.LF ("}" ++ String Py.LF "}"))] [] "dev/tex" in
  nesting 0 (vmf_lines_of self) = Some 0%Z /\
  nesting 0 (Py.split_lines (generate_vmf self)) = None.
Proof. split; vm_compute; reflexivity. Qed.

(** ** Inside and outside a brush *)

(** X8.  Inside an open brush at a depth of at least 1, lines without a
    marker whose braces never take the depth below 1 leave the brush open:
    nothing is appended to [brushes], [in_brush] stays set, and the depth
    after them is the depth before plus the opening braces minus the closing
    braces. *)
Theorem nested_braces_keep_brush_open (lines : list string) :
  forall (self : converter) (v : locals) (e : Z),
    in_brush v = true -> pending_brush v = false -> current_brush v <> None ->
    (1 <= brace_depth v)%Z ->
    (forall raw, In raw lines -> is_marker (Py.strip raw) = false) ->
    nesting (brace_depth v - 1) lines = Some e ->
    exists self' v',
      run_lines self v lines = inr (self', v') /\
      brushes self' = brushes self /\
      in_brush v' = true /\ pending_brush v' = false /\
      brace_depth v' = (e + 1)%Z.
Proof.
  induction lines as [|raw rest IH]; intros self v e Hib Hpb Hcb Hd1 Hnm Hn.
  - cbn [nesting] in Hn. inversion Hn. exists self, v. cbn [run_lines].
    repeat split; try assumption. lia.
  - cbn [nesting] in Hn.
    destruct (Z.ltb_spec (brace_depth v - 1 + brace_of raw) 0) as [|Hge]; [discriminate|].
    assert (Hok : brush_ok v) by (intros _; split; assumption).
    assert (Hm : is_marker (Py.strip raw) = false) by (apply Hnm; left; reflexivity).
    cbn [run_lines]. rewrite (loop_body_effect self v raw Hok). cbn [Py.bind fst snd].
    set (line := Py.strip raw) in *.
    set (v1 := next_locals (default_texture self) v line).
    assert (Hcl : closes_brush v line = false).
    { unfold closes_brush, inside_brush. rewrite Hib, Hpb. cbn [andb negb].
      unfold brace_of in Hge. fold line in Hge.
      destruct (line_shape_total line) as [A B C D E|A B C D E|A B C D E
                                          |A B C D E|A B C D E|A B C D E];
        rewrite ?B, ?C in *; try reflexivity.
      cbn [andb]. apply Z.eqb_neq. lia. }
    assert (Hop : opens_brush v line = false).
    { unfold opens_brush. rewrite Hpb. reflexivity. }
    assert (H1 : in_brush v1 = true).
    { unfold v1, next_locals. cbn [in_brush]. rewrite Hop, Hcl. exact Hib. }
    assert (H2 : pending_brush v1 = false).
    { unfold v1, next_locals. cbn [pending_brush]. rewrite Hm, Hop. exact Hpb. }
    assert (H3 : current_brush v1 <> None).
    { unfold v1, next_locals. cbn [current_brush]. rewrite Hop, Hcl.
      destruct (face_groups v line), (current_brush v); congruence. }
    assert (H4 : brace_depth v1 = (brace_depth v + brace_of raw)%Z).
    { unfold v1, next_locals, inside_brush, brace_of. cbn [brace_depth]. fold line.
      rewrite Hop, Hib, Hpb. cbn [andb negb].
      destruct (line =? "{"); [lia|]. destruct (line =? "}"); lia. }
    assert (Hn' : nesting (brace_depth v1 - 1) rest = Some e).
    { rewrite H4. replace (brace_depth v + brace_of raw - 1)%Z
        with (brace_depth v - 1 + brace_of raw)%Z by lia. exact Hn. }
    assert (H5 : (1 <= brace_depth v1)%Z) by (rewrite H4; lia).
    destruct (IH (next_converter self v line) v1 e H1 H2 H3 H5
                 (fun r Hr => Hnm r (or_intror Hr)) Hn')
      as (self' & v' & Hrun & Hb & R1 & R2 & R3).
    exists self', v'. split; [exact Hrun|]. split; [|auto].
    rewrite Hb. unfold next_converter, closed_now. cbn [brushes].
    rewrite Hcl. apply app_nil_r.
Qed.

(** X9.  With no brush open or pending, a line that is neither a marker,
    nor an opening brace outside the worldspawn block, nor a closing brace
    or a quoted line inside it, changes nothing: face lines there are
    neither stored nor counted, and nothing is raised. *)
Theorem lines_outside_brushes_are_ignored
    (self : converter) (v : locals) (raw : string) :
  in_brush v = false -> pending_brush v = false ->
  idle_line v (Py.strip raw) = true ->
  loop_body self v raw = inr (self, v).
Proof.
  destruct v as [iw ib cb bd pb bc fc mr]. cbn [in_brush pending_brush].
  intros -> ->. unfold idle_line, is_marker, loop_body. cbn [in_worldspawn].
  generalize (Py.strip raw) as line. intros line.
  by_shape line; destruct iw; cbn [andb negb]; try discriminate; reflexivity.
Qed.

(** ** The conversion worker *)

(** X10.  Whatever reading and writing do, the worker emits exactly one
    terminal signal, as its last signal; before it come progress values
    only, the first values of 25, 75, 90, 100 in this order; the terminal
    signal is [finished] exactly when the output text was written, and then
    all four progress values were emitted. *)
Theorem worker_emits_one_terminal_signal
    (bullet : string) (exn_text : Py.exn -> string)
    (input_file output_file default_texture : string)
    (read : string + string) (write : string -> option string) :
  let result := worker_run bullet exn_text input_file output_file default_texture
                           read write in
  exists before last k,
    fst result = before +++ [last] /\
    is_terminal last = true /\
    map Progress (firstn k [25; 75; 90; 100]) = before /\
    ((exists message, last = Finished message) <-> snd result <> None) /\
    ((exists message, last = Finished message) -> k = 4).
Proof.
  unfold worker_run. destruct read as [text|map_content].
  - exists [], (failure text), 0. cbn. repeat split; try discriminate.
    + intros [m H]. discriminate H.
    + intros H. contradiction.
    + intros [m H]. discriminate H.
  - destruct (parse_map_file (init default_texture) map_content) as [e|[c stats]].
    + exists [Progress 25], (failure (exn_text e)), 1. cbn. repeat split; try discriminate.
      * intros [m H]. discriminate H.
      * intros H. contradiction.
      * intros [m H]. discriminate H.
    + destruct (write (generate_vmf c)) as [text|].
      * exists [Progress 25; Progress 75; Progress 90], (failure text), 3.
        cbn. repeat split; try discriminate.
        -- intros [m H]. discriminate H.
        -- intros H. contradiction.
        -- intros [m H]. discriminate H.
      * eexists [Progress 25; Progress 75; Progress 90; Progress 100], _, 4.
        cbn. repeat split; try discriminate. intros _. eexists. reflexivity.
Qed.

(** ** The window *)

Lemma start_when_ready (input_file output_file : option string) (entry : string) :
  check_ready input_file output_file = true ->
  exists i o, input_file = Some i /\ output_file = Some o /\
    i <> EmptyString /\ o <> EmptyString /\
    start_conversion input_file output_file entry = Some (i, o, chosen_texture entry).
Proof.
  unfold check_ready, start_conversion, truthy.
  destruct input_file as [i|], output_file as [o|]; cbn [andb]; try discriminate.
  - intros H. apply andb_prop in H. destruct H as [Hi Ho].
    exists i, o. rewrite Hi, Ho. cbn [negb orb].
    repeat split; try reflexivity; intros ->; discriminate.
  - rewrite andb_false_r. discriminate.
Qed.

Lemma no_start_when_not_ready (input_file output_file : option string) (entry : string) :
  check_ready input_file output_file = false ->
  start_conversion input_file output_file entry = None.
Proof.
  unfold check_ready, start_conversion, truthy.
  destruct input_file as [i|], output_file as [o|]; try reflexivity.
  - destruct (negb (i =? EmptyString)), (negb (o =? EmptyString));
      cbn [andb negb orb]; try reflexivity; discriminate.
  - destruct (negb (i =? EmptyString)); reflexivity.
Qed.

(** X12.  The default texture that [start_conversion] hands to the worker
    is never empty and has no white space at either end: it is the entry
    stripped, or the built-in texture when the entry is blank.  A worker is
    started exactly when [check_ready] holds, that is when both files are
    chosen, and then with the chosen, non-empty file names. *)
Theorem worker_gets_clean_arguments
    (input_file output_file : option string) (entry : string) :
  chosen_texture entry <> EmptyString /\
  Py.strip (chosen_texture entry) = chosen_texture entry /\
  (Py.strip entry <> EmptyString -> chosen_texture entry = Py.strip entry) /\
  (Py.strip entry = EmptyString -> chosen_texture entry = builtin_default_texture) /\
  (check_ready input_file output_file = true ->
   exists i o, input_file = Some i /\ output_file = Some o /\
     i <> EmptyString /\ o <> EmptyString /\
     start_conversion input_file output_file entry = Some (i, o, chosen_texture entry)) /\
  (check_ready input_file output_file = false ->
   start_conversion input_file output_file entry = None).
Proof.
  split; [|split; [|split; [|split; [|split]]]].
  - unfold chosen_texture. cbv zeta.
    destruct (String.eqb_spec (Py.strip entry) EmptyString); [discriminate | assumption].
  - unfold chosen_texture. cbv zeta.
    destruct (Py.strip entry =? EmptyString); [reflexivity | apply strip_idem].
  - intros H. unfold chosen_texture. cbv zeta.
    destruct (String.eqb_spec (Py.strip entry) EmptyString); [contradiction | reflexivity].
  - intros H. unfold chosen_texture. cbv zeta. rewrite H. reflexivity.
  - apply start_when_ready.
  - apply no_start_when_not_ready.
Qed.

(** ** The theorems at concrete inputs *)

(** A property line, indented and followed by a comment, while a brush is
    open and another one is pending. *)
Lemma property_line_is_honoured_witness :
  let v := mkLocals true true (Some (mkBrush [])) 1 true 2 0 0 in
  let raw := T1 ++ quoted "classname" ++ "  " ++ quoted "worldspawn" ++ " // world" in
  exists self',
    loop_body (init "dev/tex") v raw = inr (self', v) /\
    dict_get (worldspawn_properties self') "classname" = Some "worldspawn" /\
    (forall k', k' <> "classname" ->
       dict_get (worldspawn_properties self') k' =
       dict_get (worldspawn_properties (init "dev/tex")) k') /\
    brushes self' = brushes (init "dev/tex") /\
    default_texture self' = default_texture (init "dev/tex").
Proof.
  exact (property_line_is_honoured (init "dev/tex")
           (mkLocals true true (Some (mkBrush [])) 1 true 2 0 0)
           (T1 ++ quoted "classname" ++ "  " ++ quoted "worldspawn" ++ " // world")
           "classname" "  " "worldspawn" " // world"
           eq_refl eq_refl eq_refl eq_refl eq_refl eq_refl eq_refl).
Defined.

Lemma output_text_has_the_emitted_lines_witness :
  exists self' stats,
    parse_map_file (init "dev/tex")
      (Py.join_lines ["{"; quoted "a" ++ " " ++ quoted "b"; "// brush"; "{"; "}"; "}"])
      = inr (self', stats) /\
    Py.split_lines (generate_vmf self') = vmf_lines_of self' /\
    length (vmf_lines_of self') =
      4 + length (worldspawn_properties self') + 4 * length (brushes self')
      + 9 * length (flat_map faces (brushes self')).
Proof.
  exact (output_text_has_the_emitted_lines "dev/tex"
           (Py.join_lines ["{"; quoted "a" ++ " " ++ quoted "b"; "// brush"; "{"; "}"; "}"])
           eq_refl).
Defined.

(** A nested pair of braces and a stray line inside an open brush. *)
Lemma nested_braces_keep_brush_open_witness :
  let v := mkLocals false true (Some (mkBrush [])) 1 false 1 0 0 in
  exists self' v',
    run_lines (init "dev/tex") v ["{"; "patchDef2"; "}"] = inr (self', v') /\
    brushes self' = brushes (init "dev/tex") /\
    in_brush v' = true /\ pending_brush v' = false /\
    brace_depth v' = (0 + 1)%Z.
Proof.
  refine (nested_braces_keep_brush_open ["{"; "patchDef2"; "}"] (init "dev/tex")
            (mkLocals false true (Some (mkBrush [])) 1 false 1 0 0) 0
            eq_refl eq_refl _ _ _ eq_refl).
  - discriminate.
  - cbn. lia.
  - intros raw [<-|[<-|[<-|[]]]]; reflexivity.
Defined.

(** A face line before any brush. *)
Lemma lines_outside_brushes_are_ignored_witness :
  loop_body (init "dev/tex") locals0
    "( 0 0 0 ) ( 0 0 1 ) ( 0 1 0 ) tex [ 1 0 0 0 ] [ 0 1 0 0 ] 0 1 1"
  = inr (init "dev/tex", locals0).
Proof.
  exact (lines_outside_brushes_are_ignored (init "dev/tex") locals0
           "( 0 0 0 ) ( 0 0 1 ) ( 0 1 0 ) tex [ 1 0 0 0 ] [ 0 1 0 0 ] 0 1 1"
           eq_refl eq_refl eq_refl).
Defined.

(** ** Parsing in two parts *)

Lemma split_lines_app_lf (a b : string) :
  Py.split_lines (a ++ String Py.LF b) = Py.split_lines a +++ Py.split_lines b.
Proof.
  induction a as [|c a IH]; cbn [append Py.split_lines].
  - rewrite Ascii.eqb_refl. reflexivity.
  - destruct (Ascii.eqb c Py.LF); [rewrite IH; reflexivity|].
    rewrite IH. pose proof (split_lines_nonempty a) as Hne.
    destruct (Py.split_lines a); [contradiction | reflexivity].
Qed.

Lemma at_rest_next (dt : string) (v : locals) (line : string) :
  at_rest v -> at_rest (next_locals dt v line).
Proof.
  unfold at_rest, next_locals. cbn [in_brush current_brush brace_depth].
  intros Hv. destruct (opens_brush v line); [discriminate|].
  destruct (closes_brush v line) eqn:Hc.
  - intros _. unfold closes_brush in Hc.
    apply andb_prop in Hc. destruct Hc as [Hc Hd].
    apply andb_prop in Hc. destruct Hc as [Hi Hl].
    rewrite Hi. apply Z.eqb_eq in Hd. split; [reflexivity|].
    apply String.eqb_eq in Hl. subst line.
    replace ("}" =? "{") with false by reflexivity.
    replace ("}" =? "}") with true by reflexivity. lia.
  - intros Hib. destruct (Hv Hib) as [Hcb Hbd].
    unfold face_groups, inside_brush. rewrite Hib. cbn [andb]. auto.
Qed.

Lemma at_rest_after (dt : string) (lines : list string) : forall v,
  at_rest v -> at_rest (locals_after dt v lines).
Proof.
  induction lines as [|raw rest IH]; intros v Hv; [exact Hv|].
  apply IH, at_rest_next, Hv.
Qed.

Lemma next_add_counts (dt : string) (v : locals) (line : string) (a b c : nat) :
  next_locals dt (add_counts v a b c) line = add_counts (next_locals dt v line) a b c
  /\ closed_now (add_counts v a b c) line = closed_now v line
  /\ upsert_of (add_counts v a b c) line = upsert_of v line.
Proof.
  destruct v as [iw ib cb bd pb bc fc mr].
  unfold add_counts, next_locals, closed_now, upsert_of, face_groups, closes_brush,
    inside_brush, opens_brush, closes_world, opens_world.
  cbn [in_worldspawn in_brush current_brush brace_depth pending_brush
       brush_count face_count material_replacements].
  split; [|split; reflexivity].
  f_equal; lia.
Qed.

Lemma run_add_counts (dt : string) (lines : list string) : forall v a b c,
  locals_after dt (add_counts v a b c) lines = add_counts (locals_after dt v lines) a b c
  /\ closed dt (add_counts v a b c) lines = closed dt v lines
  /\ upserts dt (add_counts v a b c) lines = upserts dt v lines.
Proof.
  induction lines as [|raw rest IH]; intros v a b c; [auto|].
  cbn [locals_after closed upserts].
  destruct (next_add_counts dt v (Py.strip raw) a b c) as (H1 & H2 & H3).
  rewrite H1, H2, H3.
  destruct (IH (next_locals dt v (Py.strip raw)) a b c) as (I1 & I2 & I3).
  rewrite I1, I2, I3. auto.
Qed.

(** X13.  When the first of two texts leaves the parser outside every block
    with nothing pending, parsing the two texts joined by a line feed in one
    call gives the same converter as parsing them in two calls on the same
    converter, and its statistics are the sums of the statistics of the two
    calls, except [brushes_processed], which is the number of brushes of the
    converter in both cases. *)
Theorem parsing_in_two_parts
    (self s1 : converter) (v1 : locals) (first second : string) :
  run_lines self locals0 (Py.split_lines first) = inr (s1, v1) ->
  idle v1 = true ->
  exists st1 s2 st2,
    parse_map_file self first = inr (s1, st1) /\
    parse_map_file s1 second = inr (s2, st2) /\
    parse_map_file self (first ++ String Py.LF second) =
      inr (s2, mkStatistics (brushes_found st1 + brushes_found st2)
                            (brushes_processed st2)
                            (faces_processed st1 + faces_processed st2)
                            (material_replacements_made st1
                             + material_replacements_made st2)).
Proof.
  intros Hrun Hidle.
  unfold parse_map_file. rewrite Hrun. cbn [Py.bind fst snd].
  eexists _. rewrite (run_lines_effect _ s1 locals0 brush_ok_locals0).
  cbn [Py.bind fst snd]. eexists _, _.
  split; [reflexivity|]. split; [reflexivity|].
  rewrite split_lines_app_lf, (run_lines_app _ _ _ _ _ _ Hrun).
  rewrite run_lines_effect in Hrun by exact brush_ok_locals0.
  assert (Hdt : default_texture s1 = default_texture self) by (inversion Hrun; reflexivity).
  assert (Hv1 : v1 = locals_after (default_texture self) locals0 (Py.split_lines first))
    by (inversion Hrun; reflexivity).
  assert (Hrest : at_rest v1).
  { rewrite Hv1. apply at_rest_after. intros _. split; reflexivity. }
  assert (Hok : brush_ok v1).
  { rewrite Hv1. apply brush_ok_after, brush_ok_locals0. }
  clear Hrun Hv1.
  destruct v1 as [iw ib cb bd pb bc fc mr]. unfold idle in Hidle.
  cbn [in_worldspawn in_brush pending_brush] in Hidle.
  destruct iw, ib, pb; try discriminate Hidle.
  destruct (Hrest eq_refl) as [Hcb Hbd]. cbn [current_brush brace_depth] in Hcb, Hbd.
  subst cb bd.
  change (mkLocals false false None 0 false bc fc mr)
    with (add_counts locals0 bc fc mr) in *.
  rewrite (run_lines_effect _ s1 _ Hok). cbn [Py.bind fst snd].
  unfold converter_after.
  destruct (run_add_counts (default_texture s1) (Py.split_lines second) locals0 bc fc mr)
    as (R1 & R2 & R3).
  rewrite R1, R2, R3.
  unfold statistics_of, add_counts.
  cbn [brushes brush_count face_count material_replacements brushes_found
       brushes_processed faces_processed material_replacements_made locals0].
  apply f_equal. apply f_equal2; [reflexivity|]. f_equal; lia.
Qed.

(** Two entity blocks, parsed together and one after the other. *)
Lemma parsing_in_two_parts_witness :
  let first := Py.join_lines ["{"; "// brush"; "{"; "}"; "}"] in
  let second := Py.join_lines ["{"; quoted "a" ++ " " ++ quoted "b"; "}"] in
  exists st1 s2 st2,
    parse_map_file (init "dev/tex") first
      = inr (mkConverter [] [mkBrush []] "dev/tex", st1) /\
    parse_map_file (mkConverter [] [mkBrush []] "dev/tex") second = inr (s2, st2) /\
    parse_map_file (init "dev/tex") (first ++ String Py.LF second) =
      inr (s2, mkStatistics (brushes_found st1 + brushes_found st2)
                            (brushes_processed st2)
                            (faces_processed st1 + faces_processed st2)
                            (material_replacements_made st1
                             + material_replacements_made st2)).
Proof.
  intros first second.
  exact (parsing_in_two_parts (init "dev/tex") (mkConverter [] [mkBrush []] "dev/tex")
           (mkLocals false false None 0 false 1 0 0) first second eq_refl eq_refl).
Defined.

(** ** Lines the face pattern rejects *)

(** A string splits in one way only into a run of a class and a rest that
    starts outside the class. *)
Lemma first_out (cls : ascii -> bool) (a : string) : forall b x y,
  Py.all_chars cls a = true -> Py.all_chars cls b = true ->
  stops cls x = true -> stops cls y = true ->
  a ++ x = b ++ y -> a = b /\ x = y.
Proof.
  induction a as [|c a IH]; intros b x y Ha Hb Hx Hy E.
  - destruct b as [|c' b]; [auto|]. cbn [append] in E. subst x.
    simpl in Hx, Hb. apply andb_prop in Hb. destruct Hb as [Hc _].
    rewrite Hc in Hx. discriminate.
  - destruct b as [|c' b].
    + cbn [append] in E. subst y.
      simpl in Hy, Ha. apply andb_prop in Ha. destruct Ha as [Hc _].
      rewrite Hc in Hy. discriminate.
    + cbn [append] in E. inversion E; subst.
      simpl in Ha, Hb. apply andb_prop in Ha. apply andb_prop in Hb.
      destruct (IH b x y (proj2 Ha) (proj2 Hb) Hx Hy H1) as [-> ->]. auto.
Qed.

Lemma lit_inv (c : ascii) (r' : Re.re) (s : string) (groups out : list string) :
  Re.match_from (Re.Lit c :: r') s groups = Some out ->
  exists s', s = String c s' /\ Re.match_from r' s' groups = Some out.
Proof.
  cbn [Re.match_from]. destruct s as [|c' s']; [discriminate|].
  destruct (Ascii.eqb_spec c c') as [->|]; [|discriminate].
  intros H. exists s'. auto.
Qed.

Lemma rep_item_inv (cls : ascii -> bool) (least : nat) (capture : bool)
    (r' : Re.re) (s : string) (groups out : list string) :
  Re.match_from (Re.Rep cls least capture :: r') s groups = Some out ->
  exists t rest,
    s = t ++ rest /\ Py.all_chars cls t = true /\ least <= String.length t /\
    Re.match_from r' rest (if capture then groups +++ [t] else groups) = Some out.
Proof.
  cbn [Re.match_from]. intros H. apply rep_inv in H.
  destruct H as (t & rest & E & Hall & Hlen & Hk). exists t, rest. auto.
Qed.

Lemma ws_not_char (x : ascii) (w : string) :
  Py.isspace x = false -> Py.all_chars Re.ws w = true -> no_char x w = true.
Proof.
  intros Hx. apply all_chars_impl. intros c Hc. unfold Re.not_char.
  destruct (Ascii.eqb_spec c x) as [->|]; [|reflexivity].
  unfold Re.ws in Hc. congruence.
Qed.

(** White space, a group without [x], white space and [x]: whatever the
    split, the match goes on after the first [x]. *)
Lemma upto_inv (x : ascii) (r' : Re.re) (a rest : string) (groups out : list string) :
  Py.isspace x = false -> no_char x a = true ->
  Re.match_from
    (Re.Rep Re.ws 0 false :: Re.Rep (Re.not_char x) 1 true :: Re.Rep Re.ws 0 false
       :: Re.Lit x :: r')
    (a ++ String x rest) groups = Some out ->
  exists g, Re.match_from r' rest (groups +++ [g]) = Some out.
Proof.
  intros Hx Ha H.
  apply rep_item_inv in H. destruct H as (w1 & s1 & E1 & Hw1 & _ & H).
  apply rep_item_inv in H. destruct H as (g & s2 & E2 & Hg & _ & H).
  apply rep_item_inv in H. destruct H as (w2 & s3 & E3 & Hw2 & _ & H).
  apply lit_inv in H. destruct H as (s4 & E4 & H).
  subst s1 s2 s3. exists g.
  assert (E : a ++ String x rest = (w1 ++ g ++ w2) ++ String x s4).
  { rewrite E1, !append_assoc. reflexivity. }
  apply (first_out (Re.not_char x)) in E.
  - destruct E as [_ E]. inversion E. subst. exact H.
  - exact Ha.
  - rewrite !all_chars_app. fold (no_char x w1). fold (no_char x w2).
    rewrite (ws_not_char x w1 Hx Hw1), (ws_not_char x w2 Hx Hw2), Hg. reflexivity.
  - simpl. unfold Re.not_char. rewrite Ascii.eqb_refl. reflexivity.
  - simpl. unfold Re.not_char. rewrite Ascii.eqb_refl. reflexivity.
Qed.

Lemma bracket_inv (x : ascii) (r' : Re.re) (a rest : string) (groups out : list string) :
  no_char x a = true ->
  Re.match_from (Re.Rep (Re.not_char x) 1 true :: Re.Lit x :: r')
    (a ++ String x rest) groups = Some out ->
  exists g, Re.match_from r' rest (groups +++ [g]) = Some out.
Proof.
  intros Ha H.
  apply rep_item_inv in H. destruct H as (g & s1 & E1 & Hg & _ & H).
  apply lit_inv in H. destruct H as (s2 & E2 & H). subst s1. exists g.
  apply (first_out (Re.not_char x)) in E1; [| exact Ha | exact Hg | |].
  - destruct E1 as [_ E]. inversion E. subst. exact H.
  - simpl. unfold Re.not_char. rewrite Ascii.eqb_refl. reflexivity.
  - simpl. unfold Re.not_char. rewrite Ascii.eqb_refl. reflexivity.
Qed.

Lemma ws_lit_inv (least : nat) (c : ascii) (r' : Re.re) (w0 s : string)
    (groups out : list string) :
  Py.all_chars Re.ws w0 = true -> Py.isspace c = false ->
  Re.match_from (Re.Rep Re.ws least false :: Re.Lit c :: r') (w0 ++ String c s) groups
    = Some out ->
  Re.match_from r' s groups = Some out.
Proof.
  intros Hw0 Hc H.
  apply rep_item_inv in H. destruct H as (w & s1 & E1 & Hw & _ & H).
  apply lit_inv in H. destruct H as (s2 & E2 & H). subst s1.
  apply (first_out Re.ws) in E1; [| exact Hw0 | exact Hw | |].
  - destruct E1 as [_ E]. inversion E. subst. exact H.
  - simpl. unfold Re.ws. rewrite Hc. reflexivity.
  - simpl. unfold Re.ws. rewrite Hc. reflexivity.
Qed.

Lemma starts_in (cls : ascii -> bool) (capture : bool) (r' : Re.re) (s : string)
    (groups out : list string) :
  Re.match_from (Re.Rep cls 1 capture :: r') s groups = Some out ->
  exists c s', s = String c s' /\ cls c = true.
Proof.
  intros H. apply rep_item_inv in H. destruct H as (t & rest & -> & Ht & Hlen & _).
  destruct t as [|c t]; [simpl in Hlen; lia|].
  simpl in Ht. apply andb_prop in Ht. exists c, (t ++ rest). split; [reflexivity | apply Ht].
Qed.

Lemma token_stops_ws (m rest : string) :
  wf_token m = true -> stops Re.ws (m ++ rest) = true.
Proof.
  unfold wf_token. intros H. apply andb_prop in H. destruct H as [Hne Hall].
  destruct m as [|c m]; [discriminate|]. simpl in *.
  apply andb_prop in Hall. destruct Hall as [Hc _]. exact Hc.
Qed.

(** White space, a token of a class without white space, white space: the
    token of the line is the group, so it is in the class. *)
Lemma token_inv (cls : ascii -> bool) (r' : Re.re) (m rest : string)
    (groups out : list string) :
  (forall c, cls c = true -> Py.isspace c = false) ->
  wf_token m = true ->
  Re.match_from (Re.Rep Re.ws 1 false :: Re.Rep cls 1 true :: Re.Rep Re.ws 1 false :: r')
    (" " ++ m ++ String " " rest) groups = Some out ->
  Py.all_chars cls m = true /\
  Re.match_from (Re.Rep Re.ws 1 false :: r') (String " " rest) (groups +++ [m]) = Some out.
Proof.
  intros Hcls Hm H.
  apply rep_item_inv in H. destruct H as (w & s1 & E1 & Hw & _ & H).
  pose proof H as H'. apply rep_item_inv in H'.
  destruct H' as (g & s2 & E2 & Hg & Hlen & H2).
  destruct (starts_in _ _ _ _ _ _ H2) as (c2 & s3 & E3 & Hc2).
  assert (Hgn : Py.all_chars Re.nonws g = true).
  { revert Hg. apply all_chars_impl. intros c Hc. unfold Re.nonws.
    rewrite (Hcls c Hc). reflexivity. }
  subst s1 s2.
  apply (first_out Re.ws " ") in E1; [| reflexivity | exact Hw | |].
  - destruct E1 as [<- E1].
    apply (first_out Re.nonws) in E1.
    + destruct E1 as [-> E1]. rewrite <- E1 in H2. split; [exact Hg | exact H2].
    + unfold wf_token in Hm. apply andb_prop in Hm. apply Hm.
    + exact Hgn.
    + reflexivity.
    + simpl. unfold Re.nonws. unfold Re.ws in Hc2. rewrite Hc2. reflexivity.
  - apply token_stops_ws, Hm.
  - destruct g as [|c g]; [simpl in Hlen; lia|]. simpl in *.
    apply andb_prop in Hgn. apply Hgn.
Qed.

Lemma wf_face_shape_inv (f : face_text) :
  wf_face_shape f = true ->
  wf_point (t_p1 f) = true /\ wf_point (t_p2 f) = true /\ wf_point (t_p3 f) = true /\
  wf_token (t_material f) = true /\ wf_axis (t_uaxis f) = true /\
  wf_axis (t_vaxis f) = true /\ wf_token (t_rotation f) = true /\
  wf_token (t_scale_x f) = true /\ wf_token (t_scale_y f) = true.
Proof.
  unfold wf_face_shape. intros H.
  do 8 (apply andb_prop in H; destruct H as [H ?]). repeat split; assumption.
Qed.

Lemma wf_point_no_paren (p : string) :
  wf_point p = true -> no_char ")" (" " ++ p ++ " ") = true.
Proof.
  unfold wf_point. intros H. apply andb_prop in H. destruct H as [H _].
  apply andb_prop in H. destruct H as [_ Hno].
  unfold no_char in *. cbn [append Py.all_chars]. rewrite all_chars_app, Hno. reflexivity.
Qed.

Lemma wf_axis_no_bracket (u : string) :
  wf_axis u = true -> no_char "]" (" " ++ u ++ " ") = true.
Proof.
  unfold wf_axis. intros H. apply andb_prop in H. destruct H as [H _].
  apply andb_prop in H. destruct H as [_ Hno].
  unfold no_char in *. cbn [append Py.all_chars]. rewrite all_chars_app, Hno. reflexivity.
Qed.

(** What a match of a face line in the usual layout says about its last
    three fields. *)
Lemma face_re_numbers (f : face_text) (out : list string) :
  wf_face_shape f = true ->
  Re.re_match face_re (face_line f) = Some out ->
  Py.all_chars Py.isdigit (t_rotation f) = true /\
  Py.all_chars Py.isdigit (t_scale_x f) = true /\
  stops Re.digit (t_scale_y f) = false.
Proof.
  intros Hwf H. apply wf_face_shape_inv in Hwf.
  destruct Hwf as (H1 & H2 & H3 & Hm & Hu & Hv & Hr & Hx & Hy).
  destruct f as [a b c m u v r x y]. cbn [t_p1 t_p2 t_p3 t_material t_uaxis
    t_vaxis t_rotation t_scale_x t_scale_y] in *.
  unfold Re.re_match, face_re, face_line in H.
  cbn [t_p1 t_p2 t_p3 t_material t_uaxis t_vaxis t_rotation t_scale_x t_scale_y] in H.
  replace ("( " ++ a ++ " ) ( " ++ b ++ " ) ( " ++ c ++ " ) " ++ m ++ " [ " ++ u
          ++ " ] [ " ++ v ++ " ] " ++ r ++ " " ++ x ++ " " ++ y)
    with (String "(" ((" " ++ a ++ " ") ++ String ")" (" " ++ String "("
          ((" " ++ b ++ " ") ++ String ")" (" " ++ String "("
          ((" " ++ c ++ " ") ++ String ")" (" " ++ m ++ String " " (String "["
          ((" " ++ u ++ " ") ++ String "]" (" " ++ String "["
          ((" " ++ v ++ " ") ++ String "]" (" " ++ r ++ String " "
          (x ++ String " " y))))))))))))) in H
    by (cbn [append]; rewrite !append_assoc; reflexivity).
  apply lit_inv in H. destruct H as (s & E & H). inversion E; subst s; clear E.
  apply (upto_inv ")" _ (" " ++ a ++ " ")) in H;
    [| reflexivity | apply wf_point_no_paren, H1].
  destruct H as (g1 & H).
  apply (ws_lit_inv 0 "(" _ " ") in H; [| reflexivity | reflexivity].
  apply (upto_inv ")" _ (" " ++ b ++ " ")) in H;
    [| reflexivity | apply wf_point_no_paren, H2].
  destruct H as (g2 & H).
  apply (ws_lit_inv 0 "(" _ " ") in H; [| reflexivity | reflexivity].
  apply (upto_inv ")" _ (" " ++ c ++ " ")) in H;
    [| reflexivity | apply wf_point_no_paren, H3].
  destruct H as (g3 & H).
  apply (token_inv Re.nonws _ m) in H; [| | exact Hm].
  2:{ intros ch Hc. unfold Re.nonws in Hc. apply negb_true_iff in Hc. exact Hc. }
  destruct H as [_ H].
  apply (ws_lit_inv 1 "[" _ " ") in H; [| reflexivity | reflexivity].
  apply (bracket_inv "]" _ (" " ++ u ++ " ")) in H; [| apply wf_axis_no_bracket, Hu].
  destruct H as (g5 & H).
  apply (ws_lit_inv 1 "[" _ " ") in H; [| reflexivity | reflexivity].
  apply (bracket_inv "]" _ (" " ++ v ++ " ")) in H; [| apply wf_axis_no_bracket, Hv].
  destruct H as (g6 & H).
  apply (token_inv Re.digit _ r) in H; [| exact digit_not_space | exact Hr].
  destruct H as [Dr H].
  apply (token_inv Re.digit _ x) in H; [| exact digit_not_space | exact Hx].
  destruct H as [Dx H].
  split; [exact Dr|]. split; [exact Dx|].
  apply rep_item_inv in H. destruct H as (w & s1 & E1 & Hw & _ & H).
  destruct (starts_in _ _ _ _ _ _ H) as (d & s2 & E2 & Hd). subst s1.
  apply (first_out Re.ws " " w y (String d s2)) in E1;
    [| reflexivity | exact Hw | apply (token_stops_ws y EmptyString) in Hy;
                               rewrite append_nil_r in Hy; exact Hy
     | simpl; unfold Re.ws; rewrite (digit_not_space d Hd); reflexivity ].
  destruct E1 as [_ ->]. simpl. rewrite Hd. reflexivity.
Qed.

(** X14.  A face line in the usual layout whose rotation or first scale is
    not made of digits only (a minus sign, a decimal point), or whose second
    scale does not start with a digit, does not match the face pattern; in
    whatever state the parser is, the line changes nothing: the face is
    neither stored nor counted, and nothing is raised. *)
Theorem faces_with_other_numbers_are_dropped
    (self : converter) (v : locals) (raw : string) (f : face_text) :
  wf_face_shape f = true -> bad_numbers f = true ->
  Py.strip raw = face_line f ->
  Re.re_match face_re (face_line f) = None /\
  loop_body self v raw = inr (self, v).
Proof.
  intros Hwf Hbad Hraw.
  assert (Hnone : Re.re_match face_re (face_line f) = None).
  { destruct (Re.re_match face_re (face_line f)) as [out|] eqn:E; [|reflexivity].
    destruct (face_re_numbers f out Hwf E) as (Dr & Dx & Dy).
    unfold bad_numbers in Hbad. rewrite Dr, Dx, Dy in Hbad. discriminate. }
  split; [exact Hnone|].
  destruct v as [iw ib cb bd pb bc fc mr]. unfold loop_body. rewrite Hraw, Hnone.
  assert (Hs : exists y, face_line f = String "(" (String " " y)).
  { eexists. unfold face_line. reflexivity. }
  destruct Hs as [y Hy]. rewrite Hy.
  replace (Py.startswith (String "(" (String " " y)) "// brush") with false by reflexivity.
  replace (String "(" (String " " y) =? "{") with false by reflexivity.
  replace (String "(" (String " " y) =? "}") with false by reflexivity.
  replace (Py.startswith (String "(" (String " " y)) (Py.str1 Py.dq)) with false by reflexivity.
  replace (Py.startswith (String "(" (String " " y)) "(") with true by reflexivity.
  destruct iw, ib, pb; reflexivity.
Qed.

(** A face with a fractional first scale, inside an open brush. *)
Lemma faces_with_other_numbers_are_dropped_witness :
  let f := mkFaceText "0 0 0" "0 0 1" "0 1 0" "tex" "1 0 0 0" "0 1 0 0"
                      "0" "0.5" "1" in
  let v := mkLocals true true (Some (mkBrush [])) 1 false 1 0 0 in
  Re.re_match face_re (face_line f) = None /\
  loop_body (init "dev/tex") v (face_line f) = inr (init "dev/tex", v).
Proof.
  intros f v.
  exact (faces_with_other_numbers_are_dropped (init "dev/tex") v (face_line f) f
           eq_refl eq_refl eq_refl).
Defined.

(** X15.  The face pattern is not anchored at the end of the line: inside
    an open brush a well-formed face line followed by anything that does not
    start with a digit (a comment, the fraction of a decimal second scale)
    is stored and counted as the face line alone, the second scale being the
    digits before that text. *)
Theorem text_after_third_integer_is_ignored
    (self : converter) (v : locals) (b : brush) (f : face_text) (tail raw : string) :
  in_brush v = true -> pending_brush v = false -> current_brush v = Some b ->
  wf_face_text f = true -> stops Re.digit tail = true ->
  Py.strip raw = face_line f ++ tail ->
  exists v',
    loop_body self v raw = inr (self, v') /\
    current_brush v' =
      Some (mkBrush (faces b +++ [face_of_text (default_texture self) f])) /\
    scale_y (face_of_text (default_texture self) f)
      = Py.digits_value (t_scale_y f) 0 /\
    face_count v' = face_count v + 1 /\
    in_brush v' = true /\ pending_brush v' = false /\
    brace_depth v' = brace_depth v /\ brush_count v' = brush_count v.
Proof.
  destruct v as [iw ib cb bd pb bc fc mr].
  cbn [in_brush pending_brush current_brush face_count brace_depth brush_count].
  intros -> -> -> Hwf Htail Hraw.
  eexists. split; [apply (step_face_tail self b f tail raw); assumption|].
  cbn [current_brush face_count in_brush pending_brush brace_depth brush_count].
  repeat split.
Qed.

(** A second scale written as a decimal. *)
Lemma text_after_third_integer_is_ignored_witness :
  let f := mkFaceText "0 0 0" "0 0 1" "0 1 0" "tex" "1 0 0 0" "0 1 0 0"
                      "0" "1" "2" in
  let v := mkLocals true true (Some (mkBrush [])) 1 false 1 0 0 in
  exists v',
    loop_body (init "dev/tex") v
      "( 0 0 0 ) ( 0 0 1 ) ( 0 1 0 ) tex [ 1 0 0 0 ] [ 0 1 0 0 ] 0 1 2.75" = inr (init "dev/tex", v') /\
    current_brush v' =
      Some (mkBrush [mkFace "0 0 0" "0 0 1" "0 1 0" "tex" "1 0 0 0" "0 1 0 0" 0 1 2]) /\
    scale_y (face_of_text "dev/tex" f) = 2%Z /\
    face_count v' = 1 /\
    in_brush v' = true /\ pending_brush v' = false /\
    brace_depth v' = 1%Z /\ brush_count v' = 1.
Proof.
  intros f v.
  exact (text_after_third_integer_is_ignored (init "dev/tex") v (mkBrush []) f ".75"
           "( 0 0 0 ) ( 0 0 1 ) ( 0 1 0 ) tex [ 1 0 0 0 ] [ 0 1 0 0 ] 0 1 2.75"
           eq_refl eq_refl eq_refl eq_refl eq_refl eq_refl).
Defined.

(** * The parser under the interpreter's limit on integer strings *)

(** ** One conversion *)

Lemma limited_int_short (m : nat) (s : string) :
  Limited.too_long m s = false -> Limited.int m s = Py.int s.
Proof. intros H. unfold Limited.int. rewrite H. reflexivity. Qed.

Lemma limited_int_long (m : nat) (s : string) :
  Limited.too_long m s = true -> Limited.int m s = inl Py.ValueError.
Proof. intros H. unfold Limited.int. rewrite H. reflexivity. Qed.

Lemma too_long_disabled (s : string) : Limited.too_long 0 s = false.
Proof. reflexivity. Qed.


(** ** One face *)

(** Under the limit the face is built as without it, or one of the three
    integers is too long and [int] raises [ValueError]. *)
Lemma limited_make_face (m : nat) (dt : string) (g1 g2 g3 g4 g5 g6 g7 g8 g9 : string) :
  digits g7 -> digits g8 -> digits g9 ->
  let groups := [g1; g2; g3; g4; g5; g6; g7; g8; g9] in
  (Limited.too_long m g7 || Limited.too_long m g8 || Limited.too_long m g9 = false /\
   Limited.make_face m dt groups = make_face dt groups)
  \/ (Limited.too_long m g7 || Limited.too_long m g8 || Limited.too_long m g9 = true /\
      Limited.make_face m dt groups = inl Py.ValueError).
Proof.
  intros H7 H8 H9 groups. unfold groups, Limited.make_face, make_face.
  destruct (int_digits _ H7) as [r Hr], (int_digits _ H8) as [sx Hsx],
    (int_digits _ H9) as [sy Hsy].
  destruct (Limited.too_long m g7) eqn:L7.
  { right. rewrite (limited_int_long _ _ L7). split; reflexivity. }
  rewrite (limited_int_short _ _ L7), Hr. cbn [Py.bind orb].
  destruct (Limited.too_long m g8) eqn:L8.
  { right. rewrite (limited_int_long _ _ L8). split; reflexivity. }
  rewrite (limited_int_short _ _ L8), Hsx. cbn [Py.bind orb].
  destruct (Limited.too_long m g9) eqn:L9.
  { right. rewrite (limited_int_long _ _ L9). split; reflexivity. }
  rewrite (limited_int_short _ _ L9), Hsy. left. split; reflexivity.
Qed.

(** ** One line *)

(** Under the limit the loop body does what it does without it, or the line
    is a face line with an integer that is too long, in an open brush, and
    the loop body raises [ValueError]. *)
Lemma limited_loop_body (m : nat) (self : converter) (v : locals) (raw : string) :
  Limited.loop_body m self v raw = loop_body self v raw
  \/ (Limited.loop_body m self v raw = inl Py.ValueError
      /\ long_line m (Py.strip raw) = true
      /\ in_brush v = true /\ pending_brush v = false).
Proof.
  destruct v as [iw ib cb bd pb bc fc mr].
  unfold Limited.loop_body, loop_body, long_line. cbv zeta.
  generalize (Py.strip raw) as line. intros line. cbn [in_brush pending_brush].
  destruct (Py.startswith line "// brush"); [left; reflexivity|].
  destruct ((line =? "{") && negb ib && negb iw && negb pb); [left; reflexivity|].
  destruct (iw && (line =? "}") && negb ib && negb pb); [left; reflexivity|].
  destruct (iw && Py.startswith line (Py.str1 Py.dq)); [left; reflexivity|].
  destruct (pb && (line =? "{")); [left; reflexivity|].
  destruct pb; [left; reflexivity|].
  destruct ib; [|left; reflexivity].
  destruct (line =? "{"); [left; reflexivity|].
  destruct (line =? "}"); [left; reflexivity|].
  destruct (Py.startswith line "("); [|left; reflexivity].
  destruct (Re.re_match face_re line) as [groups|] eqn:Hm; [|left; reflexivity].
  destruct (face_re_groups _ _ Hm)
    as (g1 & g2 & g3 & g4 & g5 & g6 & g7 & g8 & g9 & -> & H7 & H8 & H9).
  cbn [group nth].
  destruct (limited_make_face m (default_texture self) g1 g2 g3 g4 g5 g6 g7 g8 g9
              H7 H8 H9) as [[_ ->]|[-> ->]].
  - left. reflexivity.
  - right. repeat split.
Qed.


(** ** The loop *)


(** Under the limit the loop does what it does without it, or it raises
    [ValueError] and some line is a face line with an integer that is too
    long. *)
Lemma limited_run_lines (m : nat) (lines : list string) : forall self v,
  brush_ok v ->
  Limited.run_lines m self v lines = run_lines self v lines
  \/ (Limited.run_lines m self v lines = inl Py.ValueError
      /\ exists raw, In raw lines /\ long_line m (Py.strip raw) = true).
Proof.
  induction lines as [|raw rest IH]; intros self v Hok; [left; reflexivity|].
  cbn [Limited.run_lines run_lines].
  destruct (limited_loop_body m self v raw) as [->|(-> & Hl & _)].
  - rewrite (loop_body_effect _ _ _ Hok). cbn [Py.bind fst snd].
    destruct (IH (next_converter self v (Py.strip raw))
                 (next_locals (default_texture self) v (Py.strip raw))
                 (brush_ok_next _ _ _ Hok)) as [->|(-> & raw' & Hin & Hl)].
    + left. reflexivity.
    + right. split; [reflexivity|]. exists raw'. split; [right; exact Hin | exact Hl].
  - right. split; [reflexivity|]. exists raw. split; [left; reflexivity | exact Hl].
Qed.

(** ** The whole call *)

Lemma limited_parse_map_file (m : nat) (self : converter) (map_content : string) :
  Limited.parse_map_file m self map_content = parse_map_file self map_content
  \/ (Limited.parse_map_file m self map_content = inl Py.ValueError
      /\ short_integers m map_content = false).
Proof.
  unfold Limited.parse_map_file, parse_map_file.
  destruct (limited_run_lines m (Py.split_lines map_content) self locals0
              brush_ok_locals0) as [->|(-> & raw & Hin & Hl)].
  - left. reflexivity.
  - right. split; [reflexivity|].
    unfold short_integers.
    destruct (forallb _ (Py.split_lines map_content)) eqn:Hall; [|reflexivity].
    rewrite forallb_forall in Hall. specialize (Hall raw Hin).
    rewrite Hl in Hall. discriminate Hall.
Qed.

Lemma limited_parse_short (m : nat) (self : converter) (map_content : string) :
  short_integers m map_content = true ->
  Limited.parse_map_file m self map_content = parse_map_file self map_content.
Proof.
  intros Hs. destruct (limited_parse_map_file m self map_content) as [H|[_ H]];
    [exact H | congruence].
Qed.

Lemma long_line_disabled (line : string) : long_line 0 line = false.
Proof. unfold long_line. destruct (Re.re_match face_re line); reflexivity. Qed.

Lemma short_integers_disabled (map_content : string) :
  short_integers 0 map_content = true.
Proof.
  unfold short_integers. apply forallb_forall. intros raw _.
  rewrite long_line_disabled. reflexivity.
Qed.

(** With the limit disabled the parser under the limit is [parse_map_file]. *)
Lemma limit_disabled (self : converter) (map_content : string) :
  Limited.parse_map_file 0 self map_content = parse_map_file self map_content.
Proof. apply limited_parse_short, short_integers_disabled. Qed.

(** ** When the parser raises *)






(** ** The digits of [ones] *)





(** ** A brush with a face whose integer is too long *)

Lemma long_line_face (m : nat) (f : face_text) :
  wf_face_text f = true ->
  long_line m (Py.strip (face_line f)) = negb (short_face m f).
Proof.
  intros Hwf. rewrite (strip_face_line _ Hwf). unfold long_line, short_face.
  rewrite (face_re_accepts _ Hwf). cbn [group nth groups_of_text].
  destruct (Limited.too_long m (t_rotation f)), (Limited.too_long m (t_scale_x f)),
    (Limited.too_long m (t_scale_y f)); reflexivity.
Qed.


(** ** The parser under the limit *)




(** ** The worker under the limit *)

(** With the limit disabled the worker under the limit is [worker_run]. *)
Lemma limited_worker_disabled
    (bullet : string) (exn_text : Py.exn -> string)
    (input_file output_file default_texture : string)
    (read : string + string) (write : string -> option string) :
  Limited.worker_run 0 bullet exn_text input_file output_file default_texture read write
  = worker_run bullet exn_text input_file output_file default_texture read write.
Proof.
  unfold Limited.worker_run, worker_run. destruct read as [text|map_content];
    [reflexivity|]. rewrite limit_disabled. reflexivity.
Qed.

(** Under any limit the worker emits exactly one terminal signal, as its
    last signal, after the first values of 25, 75, 90, 100. *)
Lemma limited_worker_one_terminal_signal
    (m : nat) (bullet : string) (exn_text : Py.exn -> string)
    (input_file output_file default_texture : string)
    (read : string + string) (write : string -> option string) :
  let result := Limited.worker_run m bullet exn_text input_file output_file
                                   default_texture read write in
  exists before last k,
    fst result = before +++ [last] /\
    is_terminal last = true /\
    map Progress (firstn k [25; 75; 90; 100]) = before /\
    ((exists message, last = Finished message) <-> snd result <> None) /\
    ((exists message, last = Finished message) -> k = 4).
Proof.
  unfold Limited.worker_run. destruct read as [text|map_content].
  - exists [], (failure text), 0. cbn. repeat split; try discriminate.
    + intros [x H]. discriminate H.
    + intros H. contradiction.
    + intros [x H]. discriminate H.
  - destruct (Limited.parse_map_file m (init default_texture) map_content)
      as [e|[c stats]].
    + exists [Progress 25], (failure (exn_text e)), 1. cbn. repeat split; try discriminate.
      * intros [x H]. discriminate H.
      * intros H. contradiction.
      * intros [x H]. discriminate H.
    + destruct (write (generate_vmf c)) as [text|].
      * exists [Progress 25; Progress 75; Progress 90], (failure text), 3.
        cbn. repeat split; try discriminate.
        -- intros [x H]. discriminate H.
        -- intros H. contradiction.
        -- intros [x H]. discriminate H.
      * eexists [Progress 25; Progress 75; Progress 90; Progress 100], _, 4.
        cbn. repeat split; try discriminate. intros _. eexists. reflexivity.
Qed.

(** X11.  Under a limit [m] on integer strings, once the input text is read
    and no face line of it has an integer of more than [m] digits, the
    converter does not make the worker fail: if the write succeeds the
    worker emits 25, 75, 90, 100 and [finished] with the report of the
    statistics of the parse, and the text written is the output generated
    from the parsed document; if the write fails it emits 25, 75, 90 and the
    error of the write.  For any input on which the parser raises, the
    worker emits 25 and the error of the parser, and writes nothing. *)
Theorem worker_succeeds_on_short_integers
    (m : nat) (bullet : string) (exn_text : Py.exn -> string)
    (input_file output_file default_texture map_content : string)
    (write : string -> option string) :
  short_integers m map_content = true ->
  (exists self' stats,
    Limited.parse_map_file m (init default_texture) map_content = inr (self', stats) /\
    (write (generate_vmf self') = None ->
     Limited.worker_run m bullet exn_text input_file output_file default_texture
                        (inr map_content) write =
       ([Progress 25; Progress 75; Progress 90; Progress 100;
         Finished (success_message bullet input_file output_file default_texture
                                   stats (generate_vmf self'))],
        Some (generate_vmf self'))) /\
    (forall text, write (generate_vmf self') = Some text ->
     Limited.worker_run m bullet exn_text input_file output_file default_texture
                        (inr map_content) write =
       ([Progress 25; Progress 75; Progress 90;
         Error ("Error during conversion: " ++ text)], None)))
  /\ (forall content e,
        Limited.parse_map_file m (init default_texture) content = inl e ->
        e = Py.ValueError /\ short_integers m content = false /\
        Limited.worker_run m bullet exn_text input_file output_file default_texture
                           (inr content) write =
          ([Progress 25; Error ("Error during conversion: " ++ exn_text e)], None)).
Proof.
  intros Hs. split.
  - unfold Limited.worker_run. rewrite (limited_parse_short _ _ _ Hs).
    rewrite parse_map_file_effect. cbv zeta.
    eexists _, _. split; [reflexivity|]. split.
    + intros ->. reflexivity.
    + intros text ->. reflexivity.
  - intros content e He.
    destruct (limited_parse_map_file m (init default_texture) content) as [H|[H Hshort]].
    + rewrite H, parse_map_file_effect in He. discriminate He.
    + unfold Limited.worker_run. rewrite H in He |- *. injection He as <-.
      repeat split. exact Hshort.
Qed.

(** A brush of one face; the write succeeds. *)
Lemma worker_succeeds_on_short_integers_witness :
  let text := Py.join_lines
    ["// brush"; "{";
     "( 0 0 0 ) ( 0 0 1 ) ( 0 1 0 ) tex [ 1 0 0 0 ] [ 0 1 0 0 ] 90 1 1"; "}"] in
  let m := Limited.default_max_str_digits in
  short_integers m text = true /\
  exists self' stats,
    Limited.parse_map_file m (init "dev/tex") text = inr (self', stats) /\
    (@None string = None ->
     Limited.worker_run m "-" (fun _ => "ValueError") "in.map" "out.vmf" "dev/tex"
                        (inr text) (fun _ => None) =
       ([Progress 25; Progress 75; Progress 90; Progress 100;
         Finished (success_message "-" "in.map" "out.vmf" "dev/tex"
                                   stats (generate_vmf self'))],
        Some (generate_vmf self'))) /\
    (forall text', @None string = Some text' ->
     Limited.worker_run m "-" (fun _ => "ValueError") "in.map" "out.vmf" "dev/tex"
                        (inr text) (fun _ => None) =
       ([Progress 25; Progress 75; Progress 90;
         Error ("Error during conversion: " ++ text')], None)).
Proof.
  intros text m. split; [vm_compute; reflexivity|].
  exact (proj1 (worker_succeeds_on_short_integers m "-" (fun _ => "ValueError")
                  "in.map" "out.vmf" "dev/tex" text (fun _ => None) eq_refl)).
Defined.

(** ** A well-formed map under the limit *)

Lemma short_map_lines (m : nat) (es : list entity_text) :
  forallb wf_entity es = true -> forallb (short_entity m) es = true ->
  forallb (fun raw => negb (long_line m (Py.strip raw))) (map_lines es) = true.
Proof.
  intros Hwf Hshort. apply forallb_forall. intros raw Hin.
  unfold map_lines in Hin. apply in_flat_map in Hin. destruct Hin as (e & He & Hraw).
  rewrite forallb_forall in Hwf, Hshort.
  specialize (Hwf e He). specialize (Hshort e He).
  unfold wf_entity in Hwf. apply andb_prop in Hwf. destruct Hwf as [_ Hwf].
  unfold short_entity in Hshort. rewrite forallb_forall in Hwf, Hshort.
  unfold entity_lines in Hraw. destruct Hraw as [<-|Hraw]; [reflexivity|].
  apply in_app_or in Hraw. destruct Hraw as [Hp|Hraw].
  { apply in_map_iff in Hp. destruct Hp as (kv & <- & _).
    rewrite strip_property_text, property_text_shape. reflexivity. }
  apply in_app_or in Hraw. destruct Hraw as [Hb|[<-|[]]]; [|reflexivity].
  apply in_flat_map in Hb. destruct Hb as (fs & Hfs & Hraw).
  specialize (Hwf fs Hfs). specialize (Hshort fs Hfs).
  rewrite forallb_forall in Hwf, Hshort.
  unfold brush_lines in Hraw. destruct Hraw as [<-|[<-|Hraw]]; [reflexivity|reflexivity|].
  apply in_app_or in Hraw. destruct Hraw as [Hf|[<-|[]]]; [|reflexivity].
  apply in_map_iff in Hf. destruct Hf as (f & <- & Hf).
  rewrite (long_line_face _ _ (Hwf f Hf)), (Hshort f Hf). reflexivity.
Qed.

(** X3.  Under a limit [m] on integer strings, a map text made of entities
    in the usual layout (an opening brace, property lines, brushes each
    introduced by a marker and enclosed in braces, a closing brace), with
    well-formed properties and faces whose integers have at most [m] digits,
    is parsed by a fresh converter into exactly these properties, merged
    over all entities in order, and exactly these brushes and faces, with
    every brush found also processed. *)
Theorem well_formed_map_is_parsed (m : nat) (dt : string) (es : list entity_text) :
  forallb wf_entity es = true -> forallb (short_entity m) es = true ->
  Limited.parse_map_file m (init dt) (Py.join_lines (map_lines es)) =
    inr (document_of_text dt es, statistics_of_text es).
Proof.
  intros Hwf Hshort.
  rewrite limited_parse_short; [apply well_formed_map_without_limit, Hwf|].
  unfold short_integers. destruct es as [|e es]; [reflexivity|].
  rewrite split_join.
  - apply short_map_lines; assumption.
  - apply plain_map_lines, Hwf.
  - unfold map_lines, entity_lines. cbn [flat_map app]. discriminate.
Qed.

(** A worldspawn entity with one brush of two faces, followed by a second
    entity that overwrites a key, under the default limit. *)
Lemma well_formed_map_is_parsed_witness :
  let f1 := mkFaceText "0 0 0" "0 0 1" "0 1 0" "__TB_empty"
                       "1 0 0 0" "0 -1 0 0" "0" "1" "1" in
  let f2 := mkFaceText "-64 -64 -16" "-64 -63 -16" "-64 -64 -15" "dev/wall"
                       "0 -1 0 0" "0 0 -1 0" "90" "2" "2" in
  let es := [ mkEntityText [("classname", "worldspawn"); ("mapversion", "220")]
                           [[f1; f2]];
              mkEntityText [("classname", "light")] [] ] in
  Limited.parse_map_file Limited.default_max_str_digits (init "dev/tex")
    (Py.join_lines (map_lines es)) =
    inr (mkConverter
           [("classname", "light"); ("mapversion", "220")]
           [mkBrush [mkFace "0 0 0" "0 0 1" "0 1 0" "dev/tex" "1 0 0 0" "0 -1 0 0" 0 1 1;
                     mkFace "-64 -64 -16" "-64 -63 -16" "-64 -64 -15" "dev/wall"
                            "0 -1 0 0" "0 0 -1 0" 90 2 2]]
           "dev/tex",
         mkStatistics 1 1 2 1).
Proof.
  intros f1 f2 es.
  exact (well_formed_map_is_parsed Limited.default_max_str_digits "dev/tex" es
           eq_refl eq_refl).
Defined.
